(** * Statistics aggregation of ChessAnalizadorPro (chess_analysis.py)

    A shallow embedding of the aggregation pass [analizar_partidas] and of
    the guards of its readers, with the properties of the resulting
    statistics snapshot.

    Python integers are [Z]; dictionaries keyed by strings ([Counter],
    [defaultdict]) are [gmap string _]; the two lists of the snapshot are
    lists; the pairs [(label, value)] are products.  The attribute
    [self.stats] starts as the empty dict: it is [None] until a pass
    stores a snapshot in it. *)

From Stdlib Require Import ZArith List String Ascii Bool Lia.
From stdpp Require Import base option list gmap strings.

Local Open Scope string_scope.
Local Open Scope Z_scope.

(** ** Game records, as served by the archive API *)

(** One side of a game: [game["white"]], [game["black"]].  The rating is
    read with [.get("rating", 0)], so it may be absent. *)
Record Player := mkPlayer {
  username : string;
  rating : option Z;
  result : string
}.

(** A game.  [time_control], [end_time] and [pgn] are read with [.get] or
    tested with [in], so they may be absent. *)
Record Game := mkGame {
  white : Player;
  black : Player;
  time_control : option string;
  end_time : option Z;
  pgn : option string
}.

(** What [chess.pgn.read_game] does on a transcript: it raises, it returns
    [None] (nothing to read), or it returns a game, of which the pass only
    reads the mainline moves, each through [str]. *)
Inductive PgnResult :=
  | PgnError
  | PgnNone
  | PgnGame (mainline_moves : list string).

(** ** Strings *)

(** [str.lower] on the ASCII range. *)
Definition lower_ascii (c : ascii) : ascii :=
  let n := N_of_ascii c in
  if ((65 <=? n) && (n <=? 90))%N then ascii_of_N (n + 32) else c.

Fixpoint lower (s : string) : string :=
  match s with
  | EmptyString => EmptyString
  | String c s' => String (lower_ascii c) (lower s')
  end.

(** Truth value of a string: [if s:]. *)
Definition no_vacia (s : string) : bool := negb (String.eqb s "").

(** Truth value of an optional string argument: [None] and [""] are false. *)
Definition dado (o : option string) : bool :=
  match o with
  | Some s => no_vacia s
  | None => false
  end.

(** ** Counters *)

(** [c[k] += 1] on a [Counter] or a [defaultdict(int)]. *)
Definition incr (k : string) (c : gmap string Z) : gmap string Z :=
  <[k := default 0 (c !! k) + 1]> c.

(** The count a [Counter] reports for a key. *)
Definition cuenta (k : string) (c : gmap string Z) : Z := default 0 (c !! k).

(** The values of [aperturas_con_resultados]:
    [{'ganadas': 0, 'total': 0}]. *)
Module Apertura.
Record t := mk { ganadas : Z; total : Z }.
Definition nueva : t := mk 0 0.
End Apertura.

(** ** The snapshot *)

Record Stats := mkStats {
  ganadas : Z;
  perdidas : Z;
  tablas : Z;
  blancas_g : Z;
  blancas_partidas : Z;
  negras_g : Z;
  negras_partidas : Z;
  total_jugadas : Z;
  rivales : list string;
  ratings_rivales : list Z;
  time_controls : gmap string Z;
  tablas_por_tipo : gmap string Z;
  racha_actual : Z;
  racha_max_g : Z;
  racha_max_p : Z;
  partida_corta : string * Z;
  partida_larga : string * Z;
  mejor_victoria : string * Z;
  peor_derrota : string * Z;
  aperturas : gmap string Z;
  aperturas_con_resultados : gmap string Apertura.t;
  partidas_analizadas : Z;
  juegos_por_dia : gmap string Z;
  resultados_dia : gmap string (gmap string Z)
}.

Definition set_ganadas (v : Z) (s : Stats) : Stats :=
  mkStats v (perdidas s) (tablas s) (blancas_g s) (blancas_partidas s)
    (negras_g s) (negras_partidas s) (total_jugadas s) (rivales s)
    (ratings_rivales s) (time_controls s) (tablas_por_tipo s)
    (racha_actual s) (racha_max_g s) (racha_max_p s) (partida_corta s)
    (partida_larga s) (mejor_victoria s) (peor_derrota s) (aperturas s)
    (aperturas_con_resultados s) (partidas_analizadas s) (juegos_por_dia s)
    (resultados_dia s).

Definition set_perdidas (v : Z) (s : Stats) : Stats :=
  mkStats (ganadas s) v (tablas s) (blancas_g s) (blancas_partidas s)
    (negras_g s) (negras_partidas s) (total_jugadas s) (rivales s)
    (ratings_rivales s) (time_controls s) (tablas_por_tipo s)
    (racha_actual s) (racha_max_g s) (racha_max_p s) (partida_corta s)
    (partida_larga s) (mejor_victoria s) (peor_derrota s) (aperturas s)
    (aperturas_con_resultados s) (partidas_analizadas s) (juegos_por_dia s)
    (resultados_dia s).

Definition set_tablas (v : Z) (s : Stats) : Stats :=
  mkStats (ganadas s) (perdidas s) v (blancas_g s) (blancas_partidas s)
    (negras_g s) (negras_partidas s) (total_jugadas s) (rivales s)
    (ratings_rivales s) (time_controls s) (tablas_por_tipo s)
    (racha_actual s) (racha_max_g s) (racha_max_p s) (partida_corta s)
    (partida_larga s) (mejor_victoria s) (peor_derrota s) (aperturas s)
    (aperturas_con_resultados s) (partidas_analizadas s) (juegos_por_dia s)
    (resultados_dia s).

Definition set_blancas_g (v : Z) (s : Stats) : Stats :=
  mkStats (ganadas s) (perdidas s) (tablas s) v (blancas_partidas s)
    (negras_g s) (negras_partidas s) (total_jugadas s) (rivales s)
    (ratings_rivales s) (time_controls s) (tablas_por_tipo s)
    (racha_actual s) (racha_max_g s) (racha_max_p s) (partida_corta s)
    (partida_larga s) (mejor_victoria s) (peor_derrota s) (aperturas s)
    (aperturas_con_resultados s) (partidas_analizadas s) (juegos_por_dia s)
    (resultados_dia s).

Definition set_blancas_partidas (v : Z) (s : Stats) : Stats :=
  mkStats (ganadas s) (perdidas s) (tablas s) (blancas_g s) v (negras_g s)
    (negras_partidas s) (total_jugadas s) (rivales s) (ratings_rivales s)
    (time_controls s) (tablas_por_tipo s) (racha_actual s) (racha_max_g s)
    (racha_max_p s) (partida_corta s) (partida_larga s) (mejor_victoria s)
    (peor_derrota s) (aperturas s) (aperturas_con_resultados s)
    (partidas_analizadas s) (juegos_por_dia s) (resultados_dia s).

Definition set_negras_g (v : Z) (s : Stats) : Stats :=
  mkStats (ganadas s) (perdidas s) (tablas s) (blancas_g s)
    (blancas_partidas s) v (negras_partidas s) (total_jugadas s) (rivales s)
    (ratings_rivales s) (time_controls s) (tablas_por_tipo s)
    (racha_actual s) (racha_max_g s) (racha_max_p s) (partida_corta s)
    (partida_larga s) (mejor_victoria s) (peor_derrota s) (aperturas s)
    (aperturas_con_resultados s) (partidas_analizadas s) (juegos_por_dia s)
    (resultados_dia s).

Definition set_negras_partidas (v : Z) (s : Stats) : Stats :=
  mkStats (ganadas s) (perdidas s) (tablas s) (blancas_g s)
    (blancas_partidas s) (negras_g s) v (total_jugadas s) (rivales s)
    (ratings_rivales s) (time_controls s) (tablas_por_tipo s)
    (racha_actual s) (racha_max_g s) (racha_max_p s) (partida_corta s)
    (partida_larga s) (mejor_victoria s) (peor_derrota s) (aperturas s)
    (aperturas_con_resultados s) (partidas_analizadas s) (juegos_por_dia s)
    (resultados_dia s).

Definition set_total_jugadas (v : Z) (s : Stats) : Stats :=
  mkStats (ganadas s) (perdidas s) (tablas s) (blancas_g s)
    (blancas_partidas s) (negras_g s) (negras_partidas s) v (rivales s)
    (ratings_rivales s) (time_controls s) (tablas_por_tipo s)
    (racha_actual s) (racha_max_g s) (racha_max_p s) (partida_corta s)
    (partida_larga s) (mejor_victoria s) (peor_derrota s) (aperturas s)
    (aperturas_con_resultados s) (partidas_analizadas s) (juegos_por_dia s)
    (resultados_dia s).

Definition set_rivales (v : list string) (s : Stats) : Stats :=
  mkStats (ganadas s) (perdidas s) (tablas s) (blancas_g s)
    (blancas_partidas s) (negras_g s) (negras_partidas s) (total_jugadas s)
    v (ratings_rivales s) (time_controls s) (tablas_por_tipo s)
    (racha_actual s) (racha_max_g s) (racha_max_p s) (partida_corta s)
    (partida_larga s) (mejor_victoria s) (peor_derrota s) (aperturas s)
    (aperturas_con_resultados s) (partidas_analizadas s) (juegos_por_dia s)
    (resultados_dia s).

Definition set_ratings_rivales (v : list Z) (s : Stats) : Stats :=
  mkStats (ganadas s) (perdidas s) (tablas s) (blancas_g s)
    (blancas_partidas s) (negras_g s) (negras_partidas s) (total_jugadas s)
    (rivales s) v (time_controls s) (tablas_por_tipo s) (racha_actual s)
    (racha_max_g s) (racha_max_p s) (partida_corta s) (partida_larga s)
    (mejor_victoria s) (peor_derrota s) (aperturas s)
    (aperturas_con_resultados s) (partidas_analizadas s) (juegos_por_dia s)
    (resultados_dia s).

Definition set_time_controls (v : gmap string Z) (s : Stats) : Stats :=
  mkStats (ganadas s) (perdidas s) (tablas s) (blancas_g s)
    (blancas_partidas s) (negras_g s) (negras_partidas s) (total_jugadas s)
    (rivales s) (ratings_rivales s) v (tablas_por_tipo s) (racha_actual s)
    (racha_max_g s) (racha_max_p s) (partida_corta s) (partida_larga s)
    (mejor_victoria s) (peor_derrota s) (aperturas s)
    (aperturas_con_resultados s) (partidas_analizadas s) (juegos_por_dia s)
    (resultados_dia s).

Definition set_tablas_por_tipo (v : gmap string Z) (s : Stats) : Stats :=
  mkStats (ganadas s) (perdidas s) (tablas s) (blancas_g s)
    (blancas_partidas s) (negras_g s) (negras_partidas s) (total_jugadas s)
    (rivales s) (ratings_rivales s) (time_controls s) v (racha_actual s)
    (racha_max_g s) (racha_max_p s) (partida_corta s) (partida_larga s)
    (mejor_victoria s) (peor_derrota s) (aperturas s)
    (aperturas_con_resultados s) (partidas_analizadas s) (juegos_por_dia s)
    (resultados_dia s).

Definition set_racha_actual (v : Z) (s : Stats) : Stats :=
  mkStats (ganadas s) (perdidas s) (tablas s) (blancas_g s)
    (blancas_partidas s) (negras_g s) (negras_partidas s) (total_jugadas s)
    (rivales s) (ratings_rivales s) (time_controls s) (tablas_por_tipo s) v
    (racha_max_g s) (racha_max_p s) (partida_corta s) (partida_larga s)
    (mejor_victoria s) (peor_derrota s) (aperturas s)
    (aperturas_con_resultados s) (partidas_analizadas s) (juegos_por_dia s)
    (resultados_dia s).

Definition set_racha_max_g (v : Z) (s : Stats) : Stats :=
  mkStats (ganadas s) (perdidas s) (tablas s) (blancas_g s)
    (blancas_partidas s) (negras_g s) (negras_partidas s) (total_jugadas s)
    (rivales s) (ratings_rivales s) (time_controls s) (tablas_por_tipo s)
    (racha_actual s) v (racha_max_p s) (partida_corta s) (partida_larga s)
    (mejor_victoria s) (peor_derrota s) (aperturas s)
    (aperturas_con_resultados s) (partidas_analizadas s) (juegos_por_dia s)
    (resultados_dia s).

Definition set_racha_max_p (v : Z) (s : Stats) : Stats :=
  mkStats (ganadas s) (perdidas s) (tablas s) (blancas_g s)
    (blancas_partidas s) (negras_g s) (negras_partidas s) (total_jugadas s)
    (rivales s) (ratings_rivales s) (time_controls s) (tablas_por_tipo s)
    (racha_actual s) (racha_max_g s) v (partida_corta s) (partida_larga s)
    (mejor_victoria s) (peor_derrota s) (aperturas s)
    (aperturas_con_resultados s) (partidas_analizadas s) (juegos_por_dia s)
    (resultados_dia s).

Definition set_partida_corta (v : string * Z) (s : Stats) : Stats :=
  mkStats (ganadas s) (perdidas s) (tablas s) (blancas_g s)
    (blancas_partidas s) (negras_g s) (negras_partidas s) (total_jugadas s)
    (rivales s) (ratings_rivales s) (time_controls s) (tablas_por_tipo s)
    (racha_actual s) (racha_max_g s) (racha_max_p s) v (partida_larga s)
    (mejor_victoria s) (peor_derrota s) (aperturas s)
    (aperturas_con_resultados s) (partidas_analizadas s) (juegos_por_dia s)
    (resultados_dia s).

Definition set_partida_larga (v : string * Z) (s : Stats) : Stats :=
  mkStats (ganadas s) (perdidas s) (tablas s) (blancas_g s)
    (blancas_partidas s) (negras_g s) (negras_partidas s) (total_jugadas s)
    (rivales s) (ratings_rivales s) (time_controls s) (tablas_por_tipo s)
    (racha_actual s) (racha_max_g s) (racha_max_p s) (partida_corta s) v
    (mejor_victoria s) (peor_derrota s) (aperturas s)
    (aperturas_con_resultados s) (partidas_analizadas s) (juegos_por_dia s)
    (resultados_dia s).

Definition set_mejor_victoria (v : string * Z) (s : Stats) : Stats :=
  mkStats (ganadas s) (perdidas s) (tablas s) (blancas_g s)
    (blancas_partidas s) (negras_g s) (negras_partidas s) (total_jugadas s)
    (rivales s) (ratings_rivales s) (time_controls s) (tablas_por_tipo s)
    (racha_actual s) (racha_max_g s) (racha_max_p s) (partida_corta s)
    (partida_larga s) v (peor_derrota s) (aperturas s)
    (aperturas_con_resultados s) (partidas_analizadas s) (juegos_por_dia s)
    (resultados_dia s).

Definition set_peor_derrota (v : string * Z) (s : Stats) : Stats :=
  mkStats (ganadas s) (perdidas s) (tablas s) (blancas_g s)
    (blancas_partidas s) (negras_g s) (negras_partidas s) (total_jugadas s)
    (rivales s) (ratings_rivales s) (time_controls s) (tablas_por_tipo s)
    (racha_actual s) (racha_max_g s) (racha_max_p s) (partida_corta s)
    (partida_larga s) (mejor_victoria s) v (aperturas s)
    (aperturas_con_resultados s) (partidas_analizadas s) (juegos_por_dia s)
    (resultados_dia s).

Definition set_aperturas (v : gmap string Z) (s : Stats) : Stats :=
  mkStats (ganadas s) (perdidas s) (tablas s) (blancas_g s)
    (blancas_partidas s) (negras_g s) (negras_partidas s) (total_jugadas s)
    (rivales s) (ratings_rivales s) (time_controls s) (tablas_por_tipo s)
    (racha_actual s) (racha_max_g s) (racha_max_p s) (partida_corta s)
    (partida_larga s) (mejor_victoria s) (peor_derrota s) v
    (aperturas_con_resultados s) (partidas_analizadas s) (juegos_por_dia s)
    (resultados_dia s).

Definition set_aperturas_con_resultados (v : gmap string Apertura.t) (s : Stats) : Stats :=
  mkStats (ganadas s) (perdidas s) (tablas s) (blancas_g s)
    (blancas_partidas s) (negras_g s) (negras_partidas s) (total_jugadas s)
    (rivales s) (ratings_rivales s) (time_controls s) (tablas_por_tipo s)
    (racha_actual s) (racha_max_g s) (racha_max_p s) (partida_corta s)
    (partida_larga s) (mejor_victoria s) (peor_derrota s) (aperturas s) v
    (partidas_analizadas s) (juegos_por_dia s) (resultados_dia s).

Definition set_partidas_analizadas (v : Z) (s : Stats) : Stats :=
  mkStats (ganadas s) (perdidas s) (tablas s) (blancas_g s)
    (blancas_partidas s) (negras_g s) (negras_partidas s) (total_jugadas s)
    (rivales s) (ratings_rivales s) (time_controls s) (tablas_por_tipo s)
    (racha_actual s) (racha_max_g s) (racha_max_p s) (partida_corta s)
    (partida_larga s) (mejor_victoria s) (peor_derrota s) (aperturas s)
    (aperturas_con_resultados s) v (juegos_por_dia s) (resultados_dia s).

Definition set_juegos_por_dia (v : gmap string Z) (s : Stats) : Stats :=
  mkStats (ganadas s) (perdidas s) (tablas s) (blancas_g s)
    (blancas_partidas s) (negras_g s) (negras_partidas s) (total_jugadas s)
    (rivales s) (ratings_rivales s) (time_controls s) (tablas_por_tipo s)
    (racha_actual s) (racha_max_g s) (racha_max_p s) (partida_corta s)
    (partida_larga s) (mejor_victoria s) (peor_derrota s) (aperturas s)
    (aperturas_con_resultados s) (partidas_analizadas s) v
    (resultados_dia s).

Definition set_resultados_dia (v : gmap string (gmap string Z)) (s : Stats) : Stats :=
  mkStats (ganadas s) (perdidas s) (tablas s) (blancas_g s)
    (blancas_partidas s) (negras_g s) (negras_partidas s) (total_jugadas s)
    (rivales s) (ratings_rivales s) (time_controls s) (tablas_por_tipo s)
    (racha_actual s) (racha_max_g s) (racha_max_p s) (partida_corta s)
    (partida_larga s) (mejor_victoria s) (peor_derrota s) (aperturas s)
    (aperturas_con_resultados s) (partidas_analizadas s) (juegos_por_dia s)
    v.

(** The dictionary assigned to [self.stats] before the loop. *)
Definition stats_iniciales : Stats :=
  {| ganadas := 0; perdidas := 0; tablas := 0;
     blancas_g := 0; blancas_partidas := 0;
     negras_g := 0; negras_partidas := 0;
     total_jugadas := 0;
     rivales := [];
     ratings_rivales := [];
     time_controls := ∅;
     tablas_por_tipo := ∅;
     racha_actual := 0; racha_max_g := 0; racha_max_p := 0;
     partida_corta := ("", 9999);
     partida_larga := ("", 0);
     mejor_victoria := ("", 0);
     peor_derrota := ("", 9999);
     aperturas := ∅;
     aperturas_con_resultados := ∅;
     partidas_analizadas := 0;
     juegos_por_dia := ∅;
     resultados_dia := ∅ |}.

(** ** Result codes *)

Inductive Outcome := Win | Loss | Draw.

(** [resultado == "win"]. *)
Definition es_victoria (resultado : string) : bool :=
  String.eqb resultado "win".

(** [resultado in ("checkmated", "resigned", "timeout", "lose")]. *)
Definition es_derrota (resultado : string) : bool :=
  existsb (String.eqb resultado) ["checkmated"; "resigned"; "timeout"; "lose"].

(** The branch of the [if / elif / else] on the result code. *)
Definition outcome (resultado : string) : Outcome :=
  if es_victoria resultado then Win
  else if es_derrota resultado then Loss
  else Draw.

(** ** The body of the loop of [analizar_partidas] *)

Section Pasada.

(** [chess.pgn.read_game] on the text of a transcript. *)
Variable read_game : string -> PgnResult.
(** [datetime.fromtimestamp(t).strftime("%A")]: local calendar and
    locale are the environment's. *)
Variable dia_de : Z -> string.
(** [self.user], already in lower case. *)
Variable user : string.
Variable filtro_tc : option string.
Variable min_rating : Z.

(** [tc = game.get("time_control", "N/A")]. *)
Definition tc_de (game : Game) : string := default "N/A" (time_control game).

(** [filtro_tc and tc != filtro_tc]. *)
Definition fuera_de_filtro (game : Game) : bool :=
  match filtro_tc with
  | Some f => no_vacia f && negb (String.eqb (tc_de game) f)
  | None => false
  end.

(** [blanco == self.user]. *)
Definition juega_blancas (game : Game) : bool :=
  String.eqb (lower (username (white game))) user.

Definition rival_de (game : Game) : string :=
  if juega_blancas game then lower (username (black game))
  else lower (username (white game)).

Definition rating_rival_de (game : Game) : Z :=
  if juega_blancas game then default 0 (rating (black game))
  else default 0 (rating (white game)).

Definition resultado_de (game : Game) : string :=
  if juega_blancas game then result (white game)
  else result (black game).

(** Lines 90-99: the games-played counter of the colour. *)
Definition contar_color (st : Stats) (game : Game) : Stats :=
  if juega_blancas game
  then set_blancas_partidas (blancas_partidas st + 1) st
  else set_negras_partidas (negras_partidas st + 1) st.

(** [rating_rival < min_rating]. *)
Definition bajo_minimo (game : Game) : bool :=
  rating_rival_de game <? min_rating.

(** Lines 104-106. *)
Definition registrar_rival (st : Stats) (game : Game) : Stats :=
  let st := set_rivales (rivales st ++ [rival_de game]) st in
  let st :=
    set_ratings_rivales (ratings_rivales st ++ [rating_rival_de game]) st in
  set_partidas_analizadas (partidas_analizadas st + 1) st.

(** Lines 108-127. *)
Definition clasificar (st : Stats) (game : Game) : Stats :=
  let rival := rival_de game in
  let rating_rival := rating_rival_de game in
  let resultado := resultado_de game in
  if es_victoria resultado then
    let st := set_ganadas (ganadas st + 1) st in
    let st :=
      set_racha_actual
        (if 0 <=? racha_actual st then racha_actual st + 1 else 1) st in
    let st :=
      set_racha_max_g (Z.max (racha_max_g st) (racha_actual st)) st in
    let st :=
      if juega_blancas game
      then set_blancas_g (blancas_g st + 1) st
      else set_negras_g (negras_g st + 1) st in
    if snd (mejor_victoria st) <? rating_rival
    then set_mejor_victoria (rival, rating_rival) st
    else st
  else if es_derrota resultado then
    let st := set_perdidas (perdidas st + 1) st in
    let st :=
      set_racha_actual
        (if racha_actual st <=? 0 then racha_actual st - 1 else -1) st in
    let st :=
      set_racha_max_p (Z.min (racha_max_p st) (racha_actual st)) st in
    if rating_rival <? snd (peor_derrota st)
    then set_peor_derrota (rival, rating_rival) st
    else st
  else
    let st := set_tablas (tablas st + 1) st in
    let st := set_tablas_por_tipo (incr resultado (tablas_por_tipo st)) st in
    set_racha_actual 0 st.

(** [" ".join(str(move) for _, move in zip(range(4), moves))]. *)
Definition apertura_key_de (moves : list string) : string :=
  String.concat " " (take 4 moves).

(** [d[key]['ganadas'] += 1] and [d[key]['total'] += 1] on the
    [defaultdict] of openings. *)
Definition sumar_ganada (key : string) (d : gmap string Apertura.t)
  : gmap string Apertura.t :=
  let a := default Apertura.nueva (d !! key) in
  <[key := Apertura.mk (Apertura.ganadas a + 1) (Apertura.total a)]> d.

Definition sumar_total (key : string) (d : gmap string Apertura.t)
  : gmap string Apertura.t :=
  let a := default Apertura.nueva (d !! key) in
  <[key := Apertura.mk (Apertura.ganadas a) (Apertura.total a + 1)]> d.

(** Lines 135-148, for a transcript [texto] read as [moves]. *)
Definition analizar_jugadas (st : Stats) (game : Game) (texto : string)
    (moves : list string) : Stats :=
  let jugadas := Z.of_nat (List.length moves) in
  let st := set_total_jugadas (total_jugadas st + jugadas) st in
  let st :=
    if jugadas <? snd (partida_corta st)
    then set_partida_corta (texto, jugadas) st else st in
  let st :=
    if snd (partida_larga st) <? jugadas
    then set_partida_larga (texto, jugadas) st else st in
  let apertura_key := apertura_key_de moves in
  if no_vacia apertura_key then
    let st := set_aperturas (incr apertura_key (aperturas st)) st in
    let st :=
      if es_victoria (resultado_de game)
      then set_aperturas_con_resultados
             (sumar_ganada apertura_key (aperturas_con_resultados st)) st
      else st in
    set_aperturas_con_resultados
      (sumar_total apertura_key (aperturas_con_resultados st)) st
  else st.

(** The key of the weekday counter of outcomes, lines 159-164. *)
Definition clave_resultado (resultado : string) : string :=
  if es_victoria resultado then "ganadas"
  else if es_derrota resultado then "perdidas"
  else "tablas".

(** Lines 154-164. *)
Definition contabilizar (st : Stats) (game : Game) : Stats :=
  let st := set_time_controls (incr (tc_de game) (time_controls st)) st in
  let dia_semana := dia_de (default 0 (end_time game)) in
  let st := set_juegos_por_dia (incr dia_semana (juegos_por_dia st)) st in
  let del_dia := default ∅ (resultados_dia st !! dia_semana) in
  set_resultados_dia
    (<[dia_semana := incr (clave_resultado (resultado_de game)) del_dia]>
       (resultados_dia st)) st.

(** Lines 130-164: the transcript, then the categorical counters.  The
    handler of the [try] ends in [continue]: when reading the
    transcript raises, the rest of the body is not run. *)
Definition tras_clasificar (st : Stats) (game : Game) : Stats :=
  match pgn game with
  | None => contabilizar st game
  | Some texto =>
      match read_game texto with
      | PgnError => st
      | PgnNone => contabilizar st game
      | PgnGame moves =>
          contabilizar (analizar_jugadas st game texto moves) game
      end
  end.

(** One iteration of the loop, lines 83-164. *)
Definition procesar (st : Stats) (game : Game) : Stats :=
  if fuera_de_filtro game then st
  else
    let st := contar_color st game in
    if bajo_minimo game then st
    else
      let st := registrar_rival st game in
      let st := clasificar st game in
      tras_clasificar st game.

(** The loop, lines 61-164, from the fresh dictionary. *)
Definition pasada (partidas : list Game) : Stats :=
  fold_left procesar partidas stats_iniciales.

(** The snapshots after each game, the fresh dictionary first. *)
Fixpoint traza (st : Stats) (partidas : list Game) : list Stats :=
  match partidas with
  | [] => [st]
  | game :: mas => st :: traza (procesar st game) mas
  end.

(** ** Views of the snapshot and of a game used in the statements *)

(** The part of the snapshot that the transcript and the categorical
    counters never write. *)
Definition resumen (st : Stats) :=
  (ganadas st, perdidas st, tablas st, partidas_analizadas st,
   blancas_g st, blancas_partidas st, negras_g st, negras_partidas st,
   rivales st, ratings_rivales st,
   racha_actual st, racha_max_g st, racha_max_p st,
   mejor_victoria st, peor_derrota st, tablas_por_tipo st).

(** The part of the snapshot that lines 87-127 never write. *)
Definition resto (st : Stats) :=
  (total_jugadas st, partida_corta st, partida_larga st, aperturas st,
   aperturas_con_resultados st, time_controls st, juegos_por_dia st,
   resultados_dia st).

(** The streak after a game with result code [r], from the streak [ra]
    before it: lines 110, 120 and 127. *)
Definition racha_tras (r : string) (ra : Z) : Z :=
  match outcome r with
  | Win => if 0 <=? ra then ra + 1 else 1
  | Loss => if ra <=? 0 then ra - 1 else -1
  | Draw => 0
  end.

(** Whether reading the transcript of the game raises. *)
Definition lectura_falla (g : Game) : bool :=
  match pgn g with
  | Some texto =>
      match read_game texto with PgnError => true | _ => false end
  | None => false
  end.

End Pasada.

(** ** The analyser object *)

Record ChessAnalizadorPro := mkAnalizador {
  user : string;
  partidas : list Game;
  stats : option Stats
}.

(** [__init__]. *)
Definition init (username : string) : ChessAnalizadorPro :=
  {| user := lower username; partidas := []; stats := None |}.

(** What [obtener_partidas] leaves in [self.partidas] when the archives
    hold [games]: [self.partidas.extend(...)]. *)
Definition con_partidas (games : list Game) (self : ChessAnalizadorPro)
  : ChessAnalizadorPro :=
  {| user := user self; partidas := partidas self ++ games;
     stats := stats self |}.

(** [analizar_partidas]: the early return on no games leaves
    [self.stats] as it is. *)
Definition analizar_partidas (read_game : string -> PgnResult)
    (dia_de : Z -> string) (self : ChessAnalizadorPro)
    (filtro_tc : option string) (min_rating : Z) : ChessAnalizadorPro :=
  match partidas self with
  | [] => self
  | _ :: _ =>
      {| user := user self; partidas := partidas self;
         stats := Some (pasada read_game dia_de (user self) filtro_tc
                          min_rating (partidas self)) |}
  end.

(** The guard of [generar_reporte] and [generar_recomendaciones]:
    [not s or s["partidas_analizadas"] == 0]. *)
Definition sin_datos (s : option Stats) : bool :=
  match s with
  | None => true
  | Some s => partidas_analizadas s =? 0
  end.

(** [s['ganadas'] * 100 // s["partidas_analizadas"] if
    s["partidas_analizadas"] > 0 else 0]. *)
Definition winrate (s : Stats) : Z :=
  if 0 <? partidas_analizadas s
  then ganadas s * 100 / partidas_analizadas s
  else 0.

(** The global win rate that [generar_reporte] prints, [None] when it
    prints that there is no report. *)
Definition winrate_global (self : ChessAnalizadorPro) : option Z :=
  match stats self with
  | None => None
  | Some s => if sin_datos (Some s) then None else Some (winrate s)
  end.

(** The snapshot is consistent: every analysed game is in one outcome
    counter and in both opponent lists. *)
Definition consistente (s : Stats) : Prop :=
  ganadas s + perdidas s + tablas s = partidas_analizadas s /\
  Z.of_nat (List.length (rivales s)) = partidas_analizadas s /\
  Z.of_nat (List.length (ratings_rivales s)) = partidas_analizadas s.

(** The maximum streaks bound the current streak, and lie on their side
    of zero. *)
Definition racha_acotada (s : Stats) : Prop :=
  racha_max_p s <= racha_actual s <= racha_max_g s /\
  racha_max_p s <= 0 <= racha_max_g s.

(** The game carries the time-control label [f]. *)
Definition con_etiqueta (f : string) (game : Game) : bool :=
  String.eqb (tc_de game) f.

(** The game, with [nombre] as the username of the black side. *)
Definition con_negras (nombre : string) (game : Game) : Game :=
  {| white := white game;
     black := {| username := nombre; rating := rating (black game);
                 result := result (black game) |};
     time_control := time_control game; end_time := end_time game;
     pgn := pgn game |}.

(** The entry of an opening in [aperturas_con_resultados], the fresh
    entry of the [defaultdict] when it has none. *)
Definition entrada (key : string) (d : gmap string Apertura.t)
  : Apertura.t :=
  default Apertura.nueva (d !! key).

(** ** Moves, as the reader returns them *)

(** [chess.Move] and its rendering, from the chess library that the
    source imports: [str(move)] is [move.uci()].  Squares are the
    numbers 0 to 63, a1 = 0, b1 = 1, ..., h8 = 63. *)
Module Move.

Inductive PieceType := PAWN | KNIGHT | BISHOP | ROOK | QUEEN | KING.

(** [chess.piece_symbol]. *)
Definition piece_symbol (p : PieceType) : string :=
  match p with
  | PAWN => "p" | KNIGHT => "n" | BISHOP => "b"
  | ROOK => "r" | QUEEN => "q" | KING => "k"
  end.

(** [chess.SQUARE_NAMES[sq]], for a square below 64: the letter of
    the file, then the digit of the rank. *)
Definition square_name (sq : nat) : string :=
  String (ascii_of_nat (97 + sq mod 8))
    (String (ascii_of_nat (49 + sq / 8)) EmptyString).

Record t := mk {
  from_square : nat;
  to_square : nat;
  promotion : option PieceType;
  drop : option PieceType
}.

(** [bool(move)]: false for the null move only. *)
Definition bool_de (m : t) : bool :=
  negb (Nat.eqb (from_square m) 0) || negb (Nat.eqb (to_square m) 0)
  || bool_decide (is_Some (promotion m))
  || bool_decide (is_Some (drop m)).

(** [str.upper] on the ASCII range. *)
Definition upper_ascii (c : ascii) : ascii :=
  let n := N_of_ascii c in
  if ((97 <=? n) && (n <=? 122))%N then ascii_of_N (n - 32) else c.

Fixpoint upper (s : string) : string :=
  match s with
  | EmptyString => EmptyString
  | String c s' => String (upper_ascii c) (upper s')
  end.

(** [move.uci()], which [str(move)] returns. *)
Definition uci (m : t) : string :=
  match drop m with
  | Some p => upper (piece_symbol p) ++ "@" ++ square_name (to_square m)
  | None =>
      match promotion m with
      | Some p =>
          square_name (from_square m) ++ square_name (to_square m)
          ++ piece_symbol p
      | None =>
          if bool_de m
          then square_name (from_square m) ++ square_name (to_square m)
          else "0000"
      end
  end.

End Move.

(** The opening key as the specification words it: the first four
    half-moves at most, in algebraic notation, joined by spaces.
    [sans] are the half-moves of the game in algebraic notation, as its
    transcript writes them. *)
Definition clave_algebraica (sans : list string) : string :=
  String.concat " " (take 4 sans).

(** ** Sample data *)

(** A reader given by a table of transcripts; it raises on any other
    text. *)
Fixpoint lector_de_tabla (tabla : list (string * PgnResult))
    (texto : string) : PgnResult :=
  match tabla with
  | [] => PgnError
  | (t, r) :: mas =>
      if String.eqb t texto then r else lector_de_tabla mas texto
  end.

Definition lector_ejemplo : string -> PgnResult :=
  lector_de_tabla
    [("1. e4 e5 2. Nf3 Nc6 3. Bb5 *",
      PgnGame ["e2e4"; "e7e5"; "g1f3"; "b8c6"; "f1b5"]);
     ("1. d4 d5 *", PgnGame ["d2d4"; "d7d5"]);
     ("1. c4 e5 *", PgnGame ["c2c4"; "e7e5"]);
     ("", PgnNone);
     ("veinte", PgnGame (repeat "e2e4" 20));
     ("treinta", PgnGame (repeat "d2d4" 30));
     ("cuarenta", PgnGame (repeat "c2c4" 40))].

(** Every end time falls on the same day. *)
Definition dia_fijo : Z -> string := fun _ => "Thursday".

(** A game of the tracked player "user" with the white pieces. *)
Definition partida_blancas (rival : string) (rating_rival : Z)
    (resultado tc : string) (texto : option string) : Game :=
  {| white := mkPlayer "User" (Some 1550) resultado;
     black := mkPlayer rival (Some rating_rival)
                (if es_victoria resultado then "checkmated"
                 else if es_derrota resultado then "win" else resultado);
     time_control := Some tc; end_time := Some 1700000000;
     pgn := texto |}.

(** A game of the tracked player "user" with the black pieces. *)
Definition partida_negras (rival : string) (rating_rival : Z)
    (resultado tc : string) (texto : option string) : Game :=
  {| white := mkPlayer rival (Some rating_rival)
                (if es_victoria resultado then "resigned"
                 else if es_derrota resultado then "win" else resultado);
     black := mkPlayer "User" (Some 1550) resultado;
     time_control := Some tc; end_time := Some 1700000000;
     pgn := texto |}.

(** A game of "User" with White and one with Black, each at "600"
    against a rival rated 1200. *)
Definition partida_blancas_1200 : Game :=
  partida_blancas "rival1" 1200 "win" "600" None.

Definition partida_negras_1200 : Game :=
  partida_negras "rival2" 1200 "resigned" "600" None.



(** A win of "user" with White over a rival rated 1500, at "600". *)
Definition partida_600 : Game :=
  partida_blancas "rival1" 1500 "win" "600" None.

(** A loss of "user" with Black to a rival rated 1600, at "180". *)
Definition partida_180 : Game :=
  partida_negras "rival2" 1600 "resigned" "180" None.

(** The three games of the end-to-end scenario, over their transcripts. *)
Definition escenario (t1 t2 t3 : string) : list Game :=
  [partida_blancas "rival1" 1500 "win" "600" (Some t1);
   partida_negras "rival2" 1600 "resigned" "600" (Some t2);
   partida_blancas "rival3" 1400 "agreed" "180" (Some t3)].

(** The half-moves of 1. e4 e5 2. Nf3 Nc6 3. Bb5, each in algebraic
    notation and as the move that the reader returns for it. *)
Definition apertura_espanola : list (string * Move.t) :=
  [("e4", Move.mk 12 28 None None);
   ("e5", Move.mk 52 36 None None);
   ("Nf3", Move.mk 6 21 None None);
   ("Nc6", Move.mk 57 42 None None);
   ("Bb5", Move.mk 5 33 None None)].

(** A reader that reads that transcript, and raises on any other. *)
Definition lector_espanola : string -> PgnResult :=
  lector_de_tabla
    [("1. e4 e5 2. Nf3 Nc6 3. Bb5 *",
      PgnGame (map Move.uci (map snd apertura_espanola)))].

(** A win of "User" with White in that game. *)
Definition partida_espanola : Game :=
  partida_blancas "rival1" 1500 "win" "600"
    (Some "1. e4 e5 2. Nf3 Nc6 3. Bb5 *").

(** ** Which games the pass analyses *)

Section Analizadas.

Variable read_game : string -> PgnResult.
Variable u : string.
Variable filtro_tc : option string.
Variable min_rating : Z.

(** The game reaches line 104: neither [continue] of lines 85 and 102
    is taken. *)
Definition pasa (g : Game) : bool :=
  negb (fuera_de_filtro filtro_tc g) && negb (bajo_minimo u min_rating g).

(** The game reaches line 154: it is analysed and reading its
    transcript does not raise. *)
Definition contada (g : Game) : bool :=
  pasa g && negb (lectura_falla read_game g).

(** The transcript of the game and the moves read from it, when lines
    135-148 run for the game. *)
Definition leida (g : Game) : option (string * list string) :=
  match pgn g with
  | Some texto =>
      match read_game texto with
      | PgnGame moves => Some (texto, moves)
      | _ => None
      end
  | None => None
  end.

(** The transcript and the moves that lines 135-148 see for the game,
    if they run for it. *)
Definition vista (g : Game) : option (string * list string) :=
  if pasa g then leida g else None.

(** [jugadas] of line 135, 0 for a game that does not reach it. *)
Definition jugadas_de (g : Game) : Z :=
  match leida g with
  | Some (_, moves) => Z.of_nat (List.length moves)
  | None => 0
  end.

End Analizadas.

(** How many of the games satisfy [p]. *)
Definition veces (p : Game -> bool) (games : list Game) : Z :=
  Z.of_nat (List.length (List.filter p games)).

(** [sum] of a list of integers. *)
Definition suma (l : list Z) : Z := fold_right Z.add 0 l.

(** ** Values that [generar_reporte] prints *)

(** Lines 191-193: the win rate with White, printed when a game was
    played with White. *)
Definition winrate_blancas (s : Stats) : option Z :=
  if 0 <? blancas_partidas s
  then Some (blancas_g s * 100 / blancas_partidas s)
  else None.

(** Lines 194-196. *)
Definition winrate_negras (s : Stats) : option Z :=
  if 0 <? negras_partidas s
  then Some (negras_g s * 100 / negras_partidas s)
  else None.

(** Line 200: [abs(s['racha_max_p'])]. *)
Definition racha_derrotas (s : Stats) : Z := Z.abs (racha_max_p s).

(** Lines 203-205: [sum(ratings) // len(ratings)], printed when the list
    is not empty. *)
Definition avg_rating (s : Stats) : option Z :=
  match ratings_rivales s with
  | [] => None
  | _ :: _ =>
      Some (suma (ratings_rivales s)
            / Z.of_nat (List.length (ratings_rivales s)))
  end.

(** Lines 211-214: the best win is printed when its rating is above 0,
    the worst loss when its rating is below 9999. *)
Definition mejor_victoria_impresa (s : Stats) : option (string * Z) :=
  if 0 <? snd (mejor_victoria s) then Some (mejor_victoria s) else None.

Definition peor_derrota_impresa (s : Stats) : option (string * Z) :=
  if snd (peor_derrota s) <? 9999 then Some (peor_derrota s) else None.

(** Lines 221-222: [total_jugadas // partidas_analizadas]. *)
Definition promedio_jugadas (s : Stats) : option Z :=
  if 0 <? partidas_analizadas s
  then Some (total_jugadas s / partidas_analizadas s)
  else None.

(** ** The kinds of game that the scalar counters count *)

Section Clases.

Variable u : string.
Variable filtro_tc : option string.
Variable min_rating : Z.

(** The game passes the time-control filter and is resolved as played
    with White, or with Black. *)
Definition jugada_con_blancas (g : Game) : bool :=
  negb (fuera_de_filtro filtro_tc g) && juega_blancas u g.

Definition jugada_con_negras (g : Game) : bool :=
  negb (fuera_de_filtro filtro_tc g) && negb (juega_blancas u g).

(** The game is analysed and is a win, a loss, a draw. *)
Definition es_ganada (g : Game) : bool :=
  pasa u filtro_tc min_rating g && es_victoria (resultado_de u g).

Definition es_perdida (g : Game) : bool :=
  pasa u filtro_tc min_rating g
  && negb (es_victoria (resultado_de u g)) && es_derrota (resultado_de u g).

Definition es_tablas (g : Game) : bool :=
  pasa u filtro_tc min_rating g
  && negb (es_victoria (resultado_de u g))
  && negb (es_derrota (resultado_de u g)).

End Clases.

(** ** The key under which a game is counted in each categorical counter *)

Section Claves.

Variable read_game : string -> PgnResult.
Variable dia_de : Z -> string.
Variable u : string.
Variable filtro_tc : option string.
Variable min_rating : Z.

(** The weekday of the game, line 155-156. *)
Definition dia_semana_de (g : Game) : string :=
  dia_de (default 0 (end_time g)).

(** Lines 154 and 157 run for the games that are analysed and whose
    transcript does not raise. *)
Definition clave_tc (g : Game) : option string :=
  if contada read_game u filtro_tc min_rating g then Some (tc_de g) else None.

Definition clave_dia (g : Game) : option string :=
  if contada read_game u filtro_tc min_rating g
  then Some (dia_semana_de g) else None.

(** Line 126 runs for the analysed draws, under the result code. *)
Definition clave_tablas (g : Game) : option string :=
  if es_tablas u filtro_tc min_rating g then Some (resultado_de u g) else None.

(** Line 145 runs for the analysed games whose transcript is read and
    whose opening key is not empty. *)
Definition clave_apertura (g : Game) : option string :=
  match vista read_game u filtro_tc min_rating g with
  | Some (_, moves) =>
      if no_vacia (apertura_key_de moves)
      then Some (apertura_key_de moves) else None
  | None => None
  end.

End Claves.

(** The game is counted under the key [k]. *)
Definition bajo_clave (clave : Game -> option string) (k : string)
    (g : Game) : bool :=
  match clave g with
  | Some k' => String.eqb k' k
  | None => false
  end.

(** What a [Counter] holds for a key counted [n] times: no entry when
    it was never counted. *)
Definition entrada_de (n : Z) : option Z := if n =? 0 then None else Some n.

(** [sum(c.values())] of a counter. *)
Definition total_de (c : gmap string Z) : Z :=
  map_fold (fun _ v a => v + a) 0 c.

(** What [aperturas_con_resultados] holds for an opening played [n]
    times and won [w] times: no entry when it was never played. *)
Definition apertura_de (w n : Z) : option Apertura.t :=
  if n =? 0 then None else Some (Apertura.mk w n).

(** ** [obtener_partidas] *)

(** The slice [l[-n:]] of Python: the start [-n] counts from the end
    when it is negative, and is clipped to the list. *)
Definition ultimos {A} (n : Z) (l : list A) : list A :=
  let len := Z.of_nat (List.length l) in
  let start := - n in
  let start := if start <? 0 then Z.max (start + len) 0 else Z.min start len in
  drop (Z.to_nat start) l.

(** The loop of lines 38-43 over the archives to download.  [get url]
    is the list of games that the request for [url] brings, [None] when
    the request raises a [RequestException]; the games go into
    [self.partidas] month by month, and the first failed request leaves
    the loop with what was stored so far.  The progress messages are
    left out. *)
Fixpoint descargar (get : string -> option (list Game)) (urls : list string)
    (partidas : list Game) : list Game * bool :=
  match urls with
  | [] => (partidas, true)
  | url_mes :: mas =>
      match get url_mes with
      | Some games => descargar get mas (partidas ++ games)
      | None => (partidas, false)
      end
  end.

(** [obtener_partidas]: [archivos] is the list of archives that the
    first request brings, [None] when it raises.  The result is the
    analyser after the call and the boolean returned. *)
Definition obtener_partidas (archivos : option (list string))
    (get : string -> option (list Game)) (self : ChessAnalizadorPro)
    (meses_a_analizar : Z) : ChessAnalizadorPro * bool :=
  match archivos with
  | None => (self, false)
  | Some archivos =>
      let archivos_a_descargar := ultimos meses_a_analizar archivos in
      let '(partidas, ok) :=
        descargar get archivos_a_descargar (partidas self) in
      ({| user := user self; partidas := partidas; stats := stats self |},
       ok)
  end.

(** The games of the months at the head of [urls] whose requests
    succeed, up to the first that fails. *)
Fixpoint descargadas (get : string -> option (list Game))
    (urls : list string) : list Game :=
  match urls with
  | [] => []
  | url_mes :: mas =>
      match get url_mes with
      | Some games => games ++ descargadas get mas
      | None => []
      end
  end.

(** Every request for the months of [urls] succeeds. *)
Definition todas_responden (get : string -> option (list Game))
    (urls : list string) : bool :=
  forallb (fun url_mes => bool_decide (is_Some (get url_mes))) urls.

(** ** [seleccionar_partida] *)

(** One of the characters 0 to 9. *)
Definition es_digito (c : ascii) : bool :=
  let n := N_of_ascii c in ((48 <=? n) && (n <=? 57))%N.

(** [s.isdigit()] for ASCII text: not empty, and digits only. *)
Definition isdigit (s : string) : bool :=
  no_vacia s && forallb es_digito (list_ascii_of_string s).

(** [int(s)] for a string of ASCII digits, within the limit on the
    number of digits that [int] accepts. *)
Definition int_de (s : string) : Z :=
  fold_left (fun a c => 10 * a + Z.of_N (N_of_ascii c - 48))
    (list_ascii_of_string s) 0.

(** Every character is in the ASCII range. *)
Definition es_ascii (s : string) : bool :=
  forallb (fun c => (N_of_ascii c <? 128)%N) (list_ascii_of_string s).

(** What the call prints: nothing when there are no games; that the
    operation is skipped; that the number is invalid; that the input is
    invalid (the handler of the [try]); the details of a game, ending in
    its transcript; or the details up to the transcript, where the game
    has none and [seleccionada['pgn']] raises [KeyError]. *)
Inductive Seleccion :=
  | SinPartidas
  | Omitida
  | NumeroInvalido
  | EntradaInvalida
  | Detalles (seleccionada : Game)
  | ErrorClave (seleccionada : Game).

(** Lines 352-356: the games as listed, most recent first, numbered
    from 1. *)
Definition listado (self : ChessAnalizadorPro) : list (Z * Game) :=
  imap (fun i game => (Z.of_nat (S i), game)) (reverse (partidas self)).

(** Lines 364-370 for the game chosen. *)
Definition mostrar (seleccionada : Game) : Seleccion :=
  match pgn seleccionada with
  | Some _ => Detalles seleccionada
  | None => ErrorClave seleccionada
  end.

(** [seleccionar_partida], for the text [opcion] typed at the prompt. *)
Definition seleccionar_partida (self : ChessAnalizadorPro) (opcion : string)
  : Seleccion :=
  match partidas self with
  | [] => SinPartidas
  | _ :: _ =>
      if isdigit opcion then
        let n := Z.of_nat (List.length (partidas self)) in
        let idx := n - int_de opcion in
        if (0 <=? idx) && (idx <? n) then
          match partidas self !! Z.to_nat idx with
          | Some seleccionada => mostrar seleccionada
          | None => EntradaInvalida
          end
        else NumeroInvalido
      else Omitida
  end.

(** Two games held by an analyser, the older first. *)
Definition analizador_ejemplo : ChessAnalizadorPro :=
  con_partidas [partida_600; partida_180] (init "User").

(** ** [histograma_dias] *)

Definition nombres_dias : list string :=
  ["Lunes"; "Martes"; "Miércoles"; "Jueves"; "Viernes"; "Sábado";
   "Domingo"].

(** [max] of the values of a dictionary, 0 for the empty one (line 254). *)
Definition max_valores (valores : list Z) : Z :=
  match valores with
  | [] => 0
  | v :: mas => fold_left Z.max mas v
  end.

(** What the call does: [self.stats["juegos_por_dia"]] raises
    [KeyError] on the empty store; else it prints that there is no
    data, or one row per day name with the games of the day.  The
    length of the bar of a row is computed in floating point and is
    left out. *)
Inductive Histograma :=
  | HistErrorClave
  | HistSinDatos
  | HistFilas (filas : list (string * Z)).

Definition histograma_dias (self : ChessAnalizadorPro) : Histograma :=
  match stats self with
  | None => HistErrorClave
  | Some s =>
      let actividad_por_dia := juegos_por_dia s in
      let dias_ordenados :=
        map (fun n => (n, default 0 (actividad_por_dia !! n))) nombres_dias in
      let max_juegos := max_valores (map snd dias_ordenados) in
      if 0 <? max_juegos then HistFilas dias_ordenados else HistSinDatos
  end.

(** ** The most frequent opponent of the report (line 207) *)

(** [c[x] += 1] on the items of a [Counter], kept in the order in which
    the keys were first counted. *)
Fixpoint anotar (x : string) (items : list (string * Z))
  : list (string * Z) :=
  match items with
  | [] => [(x, 1)]
  | (y, n) :: mas =>
      if String.eqb y x then (y, n + 1) :: mas else (y, n) :: anotar x mas
  end.

(** The items of [Counter(l)]. *)
Definition items_de (l : list string) : list (string * Z) :=
  fold_left (fun items x => anotar x items) l [].

(** [max(items, key=count)] from a first item on: a later item replaces
    the best so far only with a strictly larger count. *)
Fixpoint primero_mayor (mejor : string * Z) (items : list (string * Z))
  : string * Z :=
  match items with
  | [] => mejor
  | it :: mas =>
      primero_mayor (if snd mejor <? snd it then it else mejor) mas
  end.

(** [most_common(1)]: the empty list for no items, else the first item
    of largest count. *)
Definition most_common_1 (items : list (string * Z)) : list (string * Z) :=
  match items with
  | [] => []
  | it :: mas => [primero_mayor it mas]
  end.

(** Lines 207-209: the opponent printed as the most frequent, with the
    number of games, when there is one. *)
Definition rival_frecuente (s : Stats) : option (string * Z) :=
  head (most_common_1 (items_de (rivales s))).

(** How many times [x] is in [l]. *)
Definition ocurrencias (x : string) (l : list string) : Z :=
  Z.of_nat (List.length (List.filter (String.eqb x) l)).

(** The count under the first item of key [x], 0 when there is none. *)
Fixpoint buscar (x : string) (items : list (string * Z)) : Z :=
  match items with
  | [] => 0
  | (y, n) :: mas => if String.eqb y x then n else buscar x mas
  end.

(** ** Two rules of [generar_recomendaciones] *)

(** Lines 280-286: the colour that the second recommendation names,
    when it is printed.  The function returns at once on the guard of
    lines 265-267. *)
Definition recomendacion_color (self : ChessAnalizadorPro) : option string :=
  match stats self with
  | None => None
  | Some s =>
      if sin_datos (Some s) then None
      else if (0 <? blancas_partidas s) && (0 <? negras_partidas s) then
        let winrate_blancas := blancas_g s * 100 / blancas_partidas s in
        let winrate_negras := negras_g s * 100 / negras_partidas s in
        if 10 <? Z.abs (winrate_blancas - winrate_negras)
        then Some (if winrate_negras <? winrate_blancas
                   then "negras" else "blancas")
        else None
      else None
  end.

Inductive Ritmo := Cortas | Largas.

(** Lines 309-314: the recommendation on the length of the games, with
    the average that it prints. *)
Definition recomendacion_longitud (self : ChessAnalizadorPro)
  : option (Ritmo * Z) :=
  match stats self with
  | None => None
  | Some s =>
      if sin_datos (Some s) then None
      else if 0 <? partidas_analizadas s then
        let promedio_jugadas := total_jugadas s / partidas_analizadas s in
        if promedio_jugadas <? 25 then Some (Cortas, promedio_jugadas)
        else if 40 <? promedio_jugadas then Some (Largas, promedio_jugadas)
        else None
      else None
  end.

(** Reading a field of an updated snapshot. *)
Ltac campos :=
  cbn beta iota zeta delta
    [
     ganadas perdidas tablas blancas_g blancas_partidas negras_g
     negras_partidas total_jugadas rivales ratings_rivales time_controls
     tablas_por_tipo racha_actual racha_max_g racha_max_p partida_corta
     partida_larga mejor_victoria peor_derrota aperturas
     aperturas_con_resultados partidas_analizadas juegos_por_dia
     resultados_dia set_ganadas set_perdidas set_tablas set_blancas_g
     set_blancas_partidas set_negras_g set_negras_partidas
     set_total_jugadas set_rivales set_ratings_rivales set_time_controls
     set_tablas_por_tipo set_racha_actual set_racha_max_g set_racha_max_p
     set_partida_corta set_partida_larga set_mejor_victoria
     set_peor_derrota set_aperturas set_aperturas_con_resultados
     set_partidas_analizadas set_juegos_por_dia set_resultados_dia
     fst snd].

Ltac campos_en H :=
  cbn beta iota zeta delta
    [
     ganadas perdidas tablas blancas_g blancas_partidas negras_g
     negras_partidas total_jugadas rivales ratings_rivales time_controls
     tablas_por_tipo racha_actual racha_max_g racha_max_p partida_corta
     partida_larga mejor_victoria peor_derrota aperturas
     aperturas_con_resultados partidas_analizadas juegos_por_dia
     resultados_dia set_ganadas set_perdidas set_tablas set_blancas_g
     set_blancas_partidas set_negras_g set_negras_partidas
     set_total_jugadas set_rivales set_ratings_rivales set_time_controls
     set_tablas_por_tipo set_racha_actual set_racha_max_g set_racha_max_p
     set_partida_corta set_partida_larga set_mejor_victoria
     set_peor_derrota set_aperturas set_aperturas_con_resultados
     set_partidas_analizadas set_juegos_por_dia set_resultados_dia
     fst snd] in H.

(** * Properties of the pass *)

(** ** The three ways through one iteration *)

Section Iteracion.

Variable read_game : string -> PgnResult.
Variable dia_de : Z -> string.
Variable u : string.
Variable filtro_tc : option string.
Variable min_rating : Z.

Local Abbreviation paso := (procesar read_game dia_de u filtro_tc min_rating).

Lemma procesar_fuera st g :
  fuera_de_filtro filtro_tc g = true -> paso st g = st.
Proof. intros H. unfold procesar. now rewrite H. Qed.

Lemma procesar_bajo st g :
  fuera_de_filtro filtro_tc g = false ->
  bajo_minimo u min_rating g = true ->
  paso st g = contar_color u st g.
Proof. intros H1 H2. unfold procesar. now rewrite H1, H2. Qed.

Lemma procesar_pasa st g :
  fuera_de_filtro filtro_tc g = false ->
  bajo_minimo u min_rating g = false ->
  paso st g =
  tras_clasificar read_game dia_de u
    (clasificar u (registrar_rival u (contar_color u st g) g) g) g.
Proof. intros H1 H2. unfold procesar. now rewrite H1, H2. Qed.

Lemma resumen_contabilizar st g :
  resumen (contabilizar dia_de u st g) = resumen st.
Proof. reflexivity. Qed.

Lemma resumen_analizar_jugadas st g texto moves :
  resumen (analizar_jugadas u st g texto moves) = resumen st.
Proof.
  unfold analizar_jugadas.
  repeat match goal with |- context [if ?b then _ else _] => destruct b end;
    reflexivity.
Qed.

Lemma resumen_tras_clasificar st g :
  resumen (tras_clasificar read_game dia_de u st g) = resumen st.
Proof.
  unfold tras_clasificar.
  destruct (pgn g) as [texto|]; [|apply resumen_contabilizar].
  destruct (read_game texto) as [| |moves]; try reflexivity.
  rewrite resumen_contabilizar. apply resumen_analizar_jugadas.
Qed.

Lemma resumen_paso st g :
  fuera_de_filtro filtro_tc g = false ->
  bajo_minimo u min_rating g = false ->
  resumen (paso st g) =
  resumen (clasificar u (registrar_rival u (contar_color u st g) g) g).
Proof.
  intros H1 H2. rewrite procesar_pasa by assumption.
  apply resumen_tras_clasificar.
Qed.

Ltac por_resultado r g :=
  unfold clasificar; fold r; unfold racha_tras, outcome;
  destruct (es_victoria r); [|destruct (es_derrota r)];
  destruct (juega_blancas u g); campos; cbn [andb negb];
  repeat match goal with
         | |- context [if ?b then _ else _] => destruct b
         end;
  campos; repeat split; try reflexivity; try lia.

(** Lines 87-106 leave the outcome counters, the streaks and the rating
    extremes alone. *)
Lemma previo_campos st g :
  let st1 := registrar_rival u (contar_color u st g) g in
  partidas_analizadas st1 = partidas_analizadas st + 1 /\
  rivales st1 = (rivales st ++ [rival_de u g])%list /\
  ratings_rivales st1 = (ratings_rivales st ++ [rating_rival_de u g])%list /\
  ganadas st1 = ganadas st /\ perdidas st1 = perdidas st /\
  tablas st1 = tablas st /\ tablas_por_tipo st1 = tablas_por_tipo st /\
  racha_actual st1 = racha_actual st /\ racha_max_g st1 = racha_max_g st /\
  racha_max_p st1 = racha_max_p st /\
  mejor_victoria st1 = mejor_victoria st /\
  peor_derrota st1 = peor_derrota st.
Proof.
  unfold registrar_rival, contar_color.
  destruct (juega_blancas u g); campos; repeat split; reflexivity.
Qed.

Lemma clasificar_cuentas st g :
  let r := resultado_de u g in
  let st' := clasificar u st g in
  partidas_analizadas st' = partidas_analizadas st /\
  rivales st' = rivales st /\
  ratings_rivales st' = ratings_rivales st /\
  ganadas st' = ganadas st + (if es_victoria r then 1 else 0) /\
  perdidas st' =
    perdidas st
    + (if es_victoria r then 0 else if es_derrota r then 1 else 0) /\
  tablas st' =
    tablas st
    + (if es_victoria r then 0 else if es_derrota r then 0 else 1) /\
  tablas_por_tipo st' =
    (if es_victoria r then tablas_por_tipo st
     else if es_derrota r then tablas_por_tipo st
     else incr r (tablas_por_tipo st)).
Proof. intros r st'. subst st'. por_resultado r g. Qed.

Lemma clasificar_rachas st g :
  let r := resultado_de u g in
  let st' := clasificar u st g in
  racha_actual st' = racha_tras r (racha_actual st) /\
  racha_max_g st' =
    (if es_victoria r then Z.max (racha_max_g st) (racha_actual st')
     else racha_max_g st) /\
  racha_max_p st' =
    (if es_victoria r then racha_max_p st
     else if es_derrota r then Z.min (racha_max_p st) (racha_actual st')
     else racha_max_p st).
Proof. intros r st'. subst st'. por_resultado r g. Qed.

Lemma clasificar_extremos st g :
  let r := resultado_de u g in
  let st' := clasificar u st g in
  mejor_victoria st' =
    (if es_victoria r && (snd (mejor_victoria st) <? rating_rival_de u g)
     then (rival_de u g, rating_rival_de u g) else mejor_victoria st) /\
  peor_derrota st' =
    (if negb (es_victoria r) && es_derrota r
        && (rating_rival_de u g <? snd (peor_derrota st))
     then (rival_de u g, rating_rival_de u g) else peor_derrota st).
Proof. intros r st'. subst st'. por_resultado r g. Qed.

(** Field by field, what a game that passes both filters writes in the
    counters of lines 104-127, whatever becomes of its transcript. *)
Lemma paso_cuentas st g :
  fuera_de_filtro filtro_tc g = false ->
  bajo_minimo u min_rating g = false ->
  let r := resultado_de u g in
  let st' := paso st g in
  partidas_analizadas st' = partidas_analizadas st + 1 /\
  rivales st' = (rivales st ++ [rival_de u g])%list /\
  ratings_rivales st' = (ratings_rivales st ++ [rating_rival_de u g])%list /\
  ganadas st' = ganadas st + (if es_victoria r then 1 else 0) /\
  perdidas st' =
    perdidas st
    + (if es_victoria r then 0 else if es_derrota r then 1 else 0) /\
  tablas st' =
    tablas st
    + (if es_victoria r then 0 else if es_derrota r then 0 else 1) /\
  tablas_por_tipo st' =
    (if es_victoria r then tablas_por_tipo st
     else if es_derrota r then tablas_por_tipo st
     else incr r (tablas_por_tipo st)).
Proof.
  intros H1 H2 r st'.
  pose proof (resumen_paso st g H1 H2) as E. fold st' in E.
  unfold resumen in E.
  injection E as Eg Ep Et Ea _ _ _ _ Er Ert _ _ _ _ _ Ett.
  rewrite Eg, Ep, Et, Ea, Er, Ert, Ett.
  destruct (clasificar_cuentas (registrar_rival u (contar_color u st g) g) g)
    as (-> & -> & -> & -> & -> & -> & ->).
  destruct (previo_campos st g)
    as (-> & -> & -> & -> & -> & -> & -> & _).
  repeat split; reflexivity.
Qed.

Lemma paso_rachas st g :
  fuera_de_filtro filtro_tc g = false ->
  bajo_minimo u min_rating g = false ->
  let r := resultado_de u g in
  let st' := paso st g in
  racha_actual st' = racha_tras r (racha_actual st) /\
  racha_max_g st' =
    (if es_victoria r then Z.max (racha_max_g st) (racha_actual st')
     else racha_max_g st) /\
  racha_max_p st' =
    (if es_victoria r then racha_max_p st
     else if es_derrota r then Z.min (racha_max_p st) (racha_actual st')
     else racha_max_p st).
Proof.
  intros H1 H2 r st'.
  pose proof (resumen_paso st g H1 H2) as E. fold st' in E.
  unfold resumen in E.
  injection E as _ _ _ _ _ _ _ _ _ _ Ea Eg Ep _ _ _.
  rewrite Ea, Eg, Ep.
  destruct (clasificar_rachas (registrar_rival u (contar_color u st g) g) g)
    as (-> & -> & ->).
  destruct (previo_campos st g)
    as (_ & _ & _ & _ & _ & _ & _ & -> & -> & -> & _).
  repeat split; reflexivity.
Qed.

Lemma paso_extremos st g :
  fuera_de_filtro filtro_tc g = false ->
  bajo_minimo u min_rating g = false ->
  let r := resultado_de u g in
  let st' := paso st g in
  mejor_victoria st' =
    (if es_victoria r && (snd (mejor_victoria st) <? rating_rival_de u g)
     then (rival_de u g, rating_rival_de u g) else mejor_victoria st) /\
  peor_derrota st' =
    (if negb (es_victoria r) && es_derrota r
        && (rating_rival_de u g <? snd (peor_derrota st))
     then (rival_de u g, rating_rival_de u g) else peor_derrota st).
Proof.
  intros H1 H2 r st'.
  pose proof (resumen_paso st g H1 H2) as E. fold st' in E.
  unfold resumen in E.
  injection E as _ _ _ _ _ _ _ _ _ _ _ _ _ Em Ed _.
  rewrite Em, Ed.
  destruct (clasificar_extremos (registrar_rival u (contar_color u st g) g) g)
    as (-> & ->).
  destruct (previo_campos st g)
    as (_ & _ & _ & _ & _ & _ & _ & _ & _ & _ & -> & ->).
  split; reflexivity.
Qed.

Lemma resto_clasificar st g : resto (clasificar u st g) = resto st.
Proof.
  unfold clasificar, resto.
  destruct (es_victoria _); [|destruct (es_derrota _)];
    destruct (juega_blancas u g); campos;
    repeat match goal with
           | |- context [if ?b then _ else _] => destruct b
           end;
    reflexivity.
Qed.

Lemma resto_previo st g :
  resto (clasificar u (registrar_rival u (contar_color u st g) g) g)
  = resto st.
Proof.
  rewrite resto_clasificar. unfold registrar_rival, contar_color.
  destruct (juega_blancas u g); reflexivity.
Qed.

Lemma paso_lectura_falla st g :
  fuera_de_filtro filtro_tc g = false ->
  bajo_minimo u min_rating g = false ->
  lectura_falla read_game g = true ->
  paso st g = clasificar u (registrar_rival u (contar_color u st g) g) g.
Proof.
  intros H1 H2 H3. rewrite procesar_pasa by assumption.
  unfold tras_clasificar. unfold lectura_falla in H3.
  destruct (pgn g) as [texto|]; [|discriminate].
  destruct (read_game texto); try discriminate. reflexivity.
Qed.

(** Lines 135-148 leave the categorical counters alone. *)
Lemma categorias_analizar_jugadas st g texto moves :
  let st' := analizar_jugadas u st g texto moves in
  time_controls st' = time_controls st /\
  juegos_por_dia st' = juegos_por_dia st /\
  resultados_dia st' = resultados_dia st.
Proof.
  unfold analizar_jugadas.
  repeat match goal with
         | |- context [if ?b then _ else _] => destruct b
         end;
    campos; repeat split; reflexivity.
Qed.

(** Lines 154-164, for a game whose transcript is absent, empty or
    read. *)
Lemma paso_categorias st g :
  fuera_de_filtro filtro_tc g = false ->
  bajo_minimo u min_rating g = false ->
  lectura_falla read_game g = false ->
  let dia := dia_de (default 0 (end_time g)) in
  let st' := paso st g in
  time_controls st' = incr (tc_de g) (time_controls st) /\
  juegos_por_dia st' = incr dia (juegos_por_dia st) /\
  resultados_dia st' =
    <[dia := incr (clave_resultado (resultado_de u g))
               (default ∅ (resultados_dia st !! dia))]> (resultados_dia st).
Proof.
  intros H1 H2 H3 dia st'. subst st'.
  rewrite procesar_pasa by assumption.
  pose proof (resto_previo st g) as E. unfold resto in E.
  injection E as _ _ _ _ _ Etc Ej Er.
  set (st2 := clasificar u (registrar_rival u (contar_color u st g) g) g)
    in *.
  unfold tras_clasificar. unfold lectura_falla in H3.
  destruct (pgn g) as [texto|].
  - destruct (read_game texto) as [| |moves]; [discriminate| |].
    + unfold contabilizar; campos. fold dia. now rewrite Etc, Ej, Er.
    + destruct (categorias_analizar_jugadas st2 g texto moves)
        as (Ftc & Fj & Fr).
      unfold contabilizar; campos. fold dia.
      now rewrite Ftc, Fj, Fr, Etc, Ej, Er.
  - unfold contabilizar; campos. fold dia. now rewrite Etc, Ej, Er.
Qed.

(** Lines 135-148, field by field. *)
Lemma campos_analizar_jugadas st g texto moves :
  let jugadas := Z.of_nat (List.length moves) in
  let key := apertura_key_de moves in
  let st' := analizar_jugadas u st g texto moves in
  total_jugadas st' = total_jugadas st + jugadas /\
  partida_corta st' =
    (if jugadas <? snd (partida_corta st) then (texto, jugadas)
     else partida_corta st) /\
  partida_larga st' =
    (if snd (partida_larga st) <? jugadas then (texto, jugadas)
     else partida_larga st) /\
  aperturas st' =
    (if no_vacia key then incr key (aperturas st) else aperturas st) /\
  aperturas_con_resultados st' =
    (if no_vacia key then
       sumar_total key
         (if es_victoria (resultado_de u g)
          then sumar_ganada key (aperturas_con_resultados st)
          else aperturas_con_resultados st)
     else aperturas_con_resultados st).
Proof.
  intros jugadas key. unfold analizar_jugadas. fold jugadas. fold key.
  campos.
  destruct (jugadas <? snd (partida_corta st)); campos;
    destruct (snd (partida_larga st) <? jugadas); campos;
    destruct (no_vacia key); campos;
    destruct (es_victoria (resultado_de u g));
    campos; repeat split; reflexivity.
Qed.

Lemma paso_transcripcion st g texto moves :
  fuera_de_filtro filtro_tc g = false ->
  bajo_minimo u min_rating g = false ->
  pgn g = Some texto ->
  read_game texto = PgnGame moves ->
  let jugadas := Z.of_nat (List.length moves) in
  let key := apertura_key_de moves in
  let st' := paso st g in
  total_jugadas st' = total_jugadas st + jugadas /\
  partida_corta st' =
    (if jugadas <? snd (partida_corta st) then (texto, jugadas)
     else partida_corta st) /\
  partida_larga st' =
    (if snd (partida_larga st) <? jugadas then (texto, jugadas)
     else partida_larga st) /\
  aperturas st' =
    (if no_vacia key then incr key (aperturas st) else aperturas st) /\
  aperturas_con_resultados st' =
    (if no_vacia key then
       sumar_total key
         (if es_victoria (resultado_de u g)
          then sumar_ganada key (aperturas_con_resultados st)
          else aperturas_con_resultados st)
     else aperturas_con_resultados st).
Proof.
  intros H1 H2 Hp Hr jugadas key st'. subst st'.
  rewrite procesar_pasa by assumption.
  pose proof (resto_previo st g) as E. unfold resto in E.
  injection E as Et Ec El Ea Er _ _ _.
  set (st2 := clasificar u (registrar_rival u (contar_color u st g) g) g)
    in *.
  unfold tras_clasificar. rewrite Hp, Hr.
  destruct (campos_analizar_jugadas st2 g texto moves)
    as (Ft & Fc & Fl & Fa & Fr).
  fold jugadas in Ft, Fc, Fl. fold key in Fa, Fr.
  unfold contabilizar; campos.
  now rewrite Ft, Fc, Fl, Fa, Fr, Et, Ec, El, Ea, Er.
Qed.

(** A game without a transcript, or with an empty one, leaves the
    move-derived fields alone. *)
Lemma paso_sin_transcripcion st g :
  fuera_de_filtro filtro_tc g = false ->
  bajo_minimo u min_rating g = false ->
  match pgn g with
  | Some texto =>
      match read_game texto with PgnGame _ => False | _ => True end
  | None => True
  end ->
  let st' := paso st g in
  total_jugadas st' = total_jugadas st /\
  partida_corta st' = partida_corta st /\
  partida_larga st' = partida_larga st /\
  aperturas st' = aperturas st /\
  aperturas_con_resultados st' = aperturas_con_resultados st.
Proof.
  intros H1 H2 H3 st'. subst st'.
  rewrite procesar_pasa by assumption.
  pose proof (resto_previo st g) as E. unfold resto in E.
  injection E as Et Ec El Ea Er _ _ _.
  set (st2 := clasificar u (registrar_rival u (contar_color u st g) g) g)
    in *.
  unfold tras_clasificar.
  destruct (pgn g) as [texto|];
    [destruct (read_game texto); [| |contradiction]|];
    unfold contabilizar; campos; now rewrite Et, Ec, El, Ea, Er.
Qed.

End Iteracion.

(** ** The counts of the snapshot *)

Section Recuento.

Variable read_game : string -> PgnResult.
Variable dia_de : Z -> string.
Variable u : string.
Variable filtro_tc : option string.
Variable min_rating : Z.

Local Abbreviation paso := (procesar read_game dia_de u filtro_tc min_rating).

Lemma consistente_iniciales : consistente stats_iniciales.
Proof. repeat split. Qed.

Lemma consistente_contar_color st g :
  consistente st -> consistente (contar_color u st g).
Proof.
  unfold contar_color, consistente.
  destruct (juega_blancas u g); campos; auto.
Qed.

Lemma consistente_paso st g : consistente st -> consistente (paso st g).
Proof.
  intros Hc.
  destruct (fuera_de_filtro filtro_tc g) eqn:Hf.
  { now rewrite procesar_fuera. }
  destruct (bajo_minimo u min_rating g) eqn:Hb.
  { rewrite procesar_bajo by assumption.
    now apply consistente_contar_color. }
  destruct (paso_cuentas read_game dia_de u filtro_tc min_rating st g Hf Hb)
    as (Ea & Er & Ert & Eg & Ep & Et & _).
  destruct Hc as (Hs & Hr & Hrt).
  unfold consistente. rewrite Ea, Er, Ert, Eg, Ep, Et.
  rewrite !length_app. cbn [List.length].
  destruct (es_victoria _); [|destruct (es_derrota _)];
    repeat split; lia.
Qed.

Lemma consistente_fold games :
  forall st, consistente st -> consistente (fold_left paso games st).
Proof.
  induction games as [|g games IH]; intros st Hc; [exact Hc|].
  cbn [fold_left]. apply IH, consistente_paso, Hc.
Qed.

Lemma consistente_pasada games :
  consistente (pasada read_game dia_de u filtro_tc min_rating games).
Proof. apply consistente_fold, consistente_iniciales. Qed.

End Recuento.

(** C1.  Whatever the games, the time-control filter and the minimum
    opponent rating, the snapshot that the pass stores satisfies
    won + lost + drawn = games analysed, and the list of opponents and
    the list of their ratings are each as long as the number of games
    analysed.  The pass stores a snapshot exactly when there is a game:
    on no games it leaves the store empty. *)
Theorem recuento_consistente read_game dia_de nombre games filtro_tc
    min_rating :
  match
    stats (analizar_partidas read_game dia_de
             (con_partidas games (init nombre)) filtro_tc min_rating)
  with
  | Some s =>
      ganadas s + perdidas s + tablas s = partidas_analizadas s /\
      Z.of_nat (List.length (rivales s)) = partidas_analizadas s /\
      Z.of_nat (List.length (ratings_rivales s)) = partidas_analizadas s
  | None => games = []
  end.
Proof.
  unfold analizar_partidas. cbn [partidas con_partidas init app].
  destruct games as [|g games]; [reflexivity|].
  cbn [stats]. apply consistente_pasada.
Qed.

(** ** A transcript that cannot be read *)

(** The paths beside the failed read: a game that passes both filters and
    has no transcript, an empty one, or one that is read, is counted
    under its time control and under its weekday. *)
Lemma categorias_si_no_falla read_game dia_de u filtro_tc min_rating st g :
  fuera_de_filtro filtro_tc g = false ->
  bajo_minimo u min_rating g = false ->
  lectura_falla read_game g = false ->
  let st' := procesar read_game dia_de u filtro_tc min_rating st g in
  let dia := dia_de (default 0 (end_time g)) in
  cuenta (tc_de g) (time_controls st')
  = cuenta (tc_de g) (time_controls st) + 1 /\
  cuenta dia (juegos_por_dia st') = cuenta dia (juegos_por_dia st) + 1.
Proof.
  intros Hf Hb Hl st' dia. subst st'.
  destruct (paso_categorias read_game dia_de u filtro_tc min_rating st g
              Hf Hb Hl) as (-> & -> & _). fold dia.
  unfold cuenta, incr. now rewrite !lookup_insert_eq.
Qed.

(** C2 (the code departs from it).  A game that passes both filters and
    whose transcript cannot be read is counted as analysed and in its
    outcome counter, and then the handler leaves the iteration: the
    time-control counter, the weekday game count and the weekday outcome
    counter stay as they were, unlike for a game whose transcript is
    read. *)
Theorem fallo_de_lectura_omite_categorias read_game dia_de u filtro_tc
    min_rating st g :
  fuera_de_filtro filtro_tc g = false ->
  bajo_minimo u min_rating g = false ->
  lectura_falla read_game g = true ->
  let st' := procesar read_game dia_de u filtro_tc min_rating st g in
  partidas_analizadas st' = partidas_analizadas st + 1 /\
  ganadas st' + perdidas st' + tablas st'
  = ganadas st + perdidas st + tablas st + 1 /\
  time_controls st' = time_controls st /\
  juegos_por_dia st' = juegos_por_dia st /\
  resultados_dia st' = resultados_dia st.
Proof.
  intros Hf Hb Hl st'.
  destruct (paso_cuentas read_game dia_de u filtro_tc min_rating st g Hf Hb)
    as (Ea & _ & _ & Eg & Ep & Et & _).
  fold st' in Ea, Eg, Ep, Et.
  split; [exact Ea|]. split.
  { rewrite Eg, Ep, Et.
    destruct (es_victoria _); [|destruct (es_derrota _)]; lia. }
  subst st'. rewrite paso_lectura_falla by assumption.
  pose proof (resto_previo u st g) as E. unfold resto in E.
  injection E as _ _ _ _ _ Etc Ej Er. now rewrite Etc, Ej, Er.
Qed.

(** The game "user" wins with White at "600", with a transcript that the
    reader rejects: it is analysed, and no time control or weekday is
    counted. *)
Lemma fallo_de_lectura_ejemplo :
  let g := partida_blancas "rival1" 1500 "win" "600" (Some "(Ka2) e4") in
  (fuera_de_filtro None g = false /\
   bajo_minimo "user" 0 g = false /\
   lectura_falla lector_ejemplo g = true) /\
  let st' := procesar lector_ejemplo dia_fijo "user" None 0 stats_iniciales g in
  partidas_analizadas st' = 1 /\
  ganadas st' + perdidas st' + tablas st' = 1 /\
  time_controls st' = ∅ /\
  juegos_por_dia st' = ∅ /\
  resultados_dia st' = ∅.
Proof.
  intros g. split; [repeat split|].
  exact (fallo_de_lectura_omite_categorias lector_ejemplo dia_fijo "user"
           None 0 stats_iniciales g eq_refl eq_refl eq_refl).
Defined.

(** ** A rival below the minimum rating *)

(** C3.  A game that passes the time-control filter and whose opponent
    is rated strictly below the minimum adds one to the games-played
    counter of the colour that the tracked player held, and writes
    nothing else.  When the white username is the tracked one, without
    regard to case, the opponent is the black side and the counter is
    that of White; when the black username is the tracked one and the
    white one is not, the opponent is the white side and the counter is
    that of Black.  In both cases the outcome counters, both opponent
    lists, the number of games analysed, the streaks, the openings, the
    time-control counts and the weekday counts are as before. *)
Theorem bajo_minimo_solo_cuenta_color read_game dia_de nombre filtro_tc
    min_rating st g :
  fuera_de_filtro filtro_tc g = false ->
  let u := user (init nombre) in
  let st' := procesar read_game dia_de u filtro_tc min_rating st g in
  let nada_mas :=
    (ganadas st', perdidas st', tablas st')
    = (ganadas st, perdidas st, tablas st) /\
    (rivales st', ratings_rivales st') = (rivales st, ratings_rivales st) /\
    partidas_analizadas st' = partidas_analizadas st /\
    (racha_actual st', racha_max_g st', racha_max_p st')
    = (racha_actual st, racha_max_g st, racha_max_p st) /\
    (blancas_g st', negras_g st') = (blancas_g st, negras_g st) /\
    (mejor_victoria st', peor_derrota st', tablas_por_tipo st')
    = (mejor_victoria st, peor_derrota st, tablas_por_tipo st) /\
    resto st' = resto st in
  (lower (username (white g)) = lower nombre ->
   default 0 (rating (black g)) < min_rating ->
   st' = set_blancas_partidas (blancas_partidas st + 1) st /\
   blancas_partidas st' = blancas_partidas st + 1 /\
   negras_partidas st' = negras_partidas st /\
   nada_mas) /\
  (lower (username (white g)) <> lower nombre ->
   lower (username (black g)) = lower nombre ->
   default 0 (rating (white g)) < min_rating ->
   st' = set_negras_partidas (negras_partidas st + 1) st /\
   negras_partidas st' = negras_partidas st + 1 /\
   blancas_partidas st' = blancas_partidas st /\
   nada_mas).
Proof.
  intros Hf u st' nada_mas. subst nada_mas st'.
  change u with (lower nombre). clear u. split.
  - intros Hw Hr.
    assert (Hj : juega_blancas (lower nombre) g = true).
    { unfold juega_blancas. now apply String.eqb_eq. }
    rewrite procesar_bajo;
      [|assumption
       |unfold bajo_minimo, rating_rival_de; rewrite Hj; now apply Z.ltb_lt].
    unfold contar_color. rewrite Hj. repeat split.
  - intros Hw _ Hr.
    assert (Hj : juega_blancas (lower nombre) g = false).
    { unfold juega_blancas. now apply String.eqb_neq. }
    rewrite procesar_bajo;
      [|assumption
       |unfold bajo_minimo, rating_rival_de; rewrite Hj; now apply Z.ltb_lt].
    unfold contar_color. rewrite Hj. repeat split.
Qed.

(** A game with White and a game with Black of "User", each against a
    rival rated 1200, under a minimum of 1300. *)
Lemma bajo_minimo_ejemplo :
  (fuera_de_filtro (Some "600") partida_blancas_1200 = false /\
   lower (username (white partida_blancas_1200)) = lower "User" /\
   default 0 (rating (black partida_blancas_1200)) < 1300) /\
  (fuera_de_filtro (Some "600") partida_negras_1200 = false /\
   lower (username (white partida_negras_1200)) <> lower "User" /\
   lower (username (black partida_negras_1200)) = lower "User" /\
   default 0 (rating (white partida_negras_1200)) < 1300) /\
  procesar lector_ejemplo dia_fijo "user" (Some "600") 1300 stats_iniciales
    partida_blancas_1200
  = set_blancas_partidas 1 stats_iniciales /\
  procesar lector_ejemplo dia_fijo "user" (Some "600") 1300 stats_iniciales
    partida_negras_1200
  = set_negras_partidas 1 stats_iniciales.
Proof.
  assert (Hn : lower (username (white partida_negras_1200)) <> lower "User")
    by discriminate.
  split; [repeat split|]. split; [repeat split; exact Hn|].
  split.
  - exact (proj1 (proj1 (bajo_minimo_solo_cuenta_color lector_ejemplo
                           dia_fijo "User" (Some "600") 1300 stats_iniciales
                           partida_blancas_1200 eq_refl)
                    eq_refl eq_refl)).
  - exact (proj1 (proj2 (bajo_minimo_solo_cuenta_color lector_ejemplo
                           dia_fijo "User" (Some "600") 1300 stats_iniciales
                           partida_negras_1200 eq_refl)
                    Hn eq_refl eq_refl)).
Defined.

(** ** Streaks *)

Section Rachas.

Variable read_game : string -> PgnResult.
Variable dia_de : Z -> string.
Variable u : string.
Variable filtro_tc : option string.
Variable min_rating : Z.

Local Abbreviation paso := (procesar read_game dia_de u filtro_tc min_rating).

Lemma racha_tras_signo r ra :
  match outcome r with
  | Win => 1 <= racha_tras r ra
  | Loss => racha_tras r ra <= -1
  | Draw => racha_tras r ra = 0
  end.
Proof.
  unfold racha_tras. destruct (outcome r); cbv beta iota; [| |reflexivity].
  - destruct (0 <=? ra) eqn:E; [apply Z.leb_le in E|]; lia.
  - destruct (ra <=? 0) eqn:E; [apply Z.leb_le in E|]; lia.
Qed.

(** The streak fields after one iteration: untouched when the game is
    filtered out, else as lines 108-127 leave them. *)
Lemma rachas_paso st g :
  let st' := paso st g in
  (racha_actual st' = racha_actual st /\
   racha_max_g st' = racha_max_g st /\ racha_max_p st' = racha_max_p st)
  \/
  (exists r,
     racha_actual st' = racha_tras r (racha_actual st) /\
     racha_max_g st' =
       (if es_victoria r then Z.max (racha_max_g st) (racha_actual st')
        else racha_max_g st) /\
     racha_max_p st' =
       (if es_victoria r then racha_max_p st
        else if es_derrota r
             then Z.min (racha_max_p st) (racha_actual st')
             else racha_max_p st)).
Proof.
  intros st'. subst st'.
  destruct (fuera_de_filtro filtro_tc g) eqn:Hf.
  { left. now rewrite procesar_fuera. }
  destruct (bajo_minimo u min_rating g) eqn:Hb.
  { left. rewrite procesar_bajo by assumption. unfold contar_color.
    destruct (juega_blancas u g); repeat split. }
  right. exists (resultado_de u g).
  exact (paso_rachas read_game dia_de u filtro_tc min_rating st g Hf Hb).
Qed.

Lemma racha_acotada_paso st g :
  racha_acotada st ->
  let st' := paso st g in
  racha_acotada st' /\
  racha_max_g st <= racha_max_g st' /\
  racha_max_p st' <= racha_max_p st /\
  (racha_max_g st' = racha_max_g st \/ racha_max_g st' = racha_actual st') /\
  (racha_max_p st' = racha_max_p st \/ racha_max_p st' = racha_actual st').
Proof.
  intros Hc st'. unfold racha_acotada in *.
  destruct (rachas_paso st g) as [(Ea & Eg & Ep)|(r & Ea & Eg & Ep)];
    fold st' in Ea, Eg, Ep.
  { rewrite Ea, Eg, Ep. intuition lia. }
  pose proof (racha_tras_signo r (racha_actual st)) as Hs.
  rewrite <- Ea in Hs. unfold outcome in Hs.
  destruct (es_victoria r); [|destruct (es_derrota r)];
    rewrite Eg, Ep; repeat split; lia.
Qed.

(** Along the pass, the maximum streaks are the extreme values that the
    current streak takes. *)
Lemma rachas_traza games :
  forall st,
    racha_acotada st ->
    let fin := fold_left paso games st in
    (forall s, In s (traza read_game dia_de u filtro_tc min_rating st games) ->
               racha_max_p fin <= racha_actual s <= racha_max_g fin) /\
    (racha_max_g fin = racha_max_g st \/
     exists s, In s (traza read_game dia_de u filtro_tc min_rating st games)
               /\ racha_actual s = racha_max_g fin) /\
    (racha_max_p fin = racha_max_p st \/
     exists s, In s (traza read_game dia_de u filtro_tc min_rating st games)
               /\ racha_actual s = racha_max_p fin) /\
    racha_max_g st <= racha_max_g fin /\
    racha_max_p fin <= racha_max_p st.
Proof.
  induction games as [|g games IH]; intros st Hc fin.
  - subst fin. cbn [fold_left traza]. unfold racha_acotada in Hc.
    repeat split; try lia; try (now left);
      match goal with H : In _ _ |- _ => destruct H as [<-|[]] end; lia.
  - subst fin. cbn [fold_left traza].
    destruct (racha_acotada_paso st g Hc) as (Hc' & Hg & Hp & Dg & Dp).
    destruct (IH _ Hc') as (Hin & Eg & Ep & Mg & Mp).
    set (st' := paso st g) in *.
    set (fin := fold_left paso games st') in *.
    assert (Hst' : In st'
              (traza read_game dia_de u filtro_tc min_rating st' games)).
    { destruct games; cbn [traza]; now left. }
    unfold racha_acotada in Hc.
    repeat split.
    + destruct H as [<-|H]; [lia|]. now apply Hin.
    + destruct H as [<-|H]; [lia|]. now apply Hin.
    + destruct Eg as [Eg|(s & Hs & Es)].
      * destruct Dg as [Dg|Dg]; [left; congruence|].
        right. exists st'. split; [right; exact Hst'|congruence].
      * right. exists s. split; [now right|exact Es].
    + destruct Ep as [Ep|(s & Hs & Es)].
      * destruct Dp as [Dp|Dp]; [left; congruence|].
        right. exists st'. split; [right; exact Hst'|congruence].
      * right. exists s. split; [now right|exact Es].
    + lia.
    + lia.
Qed.

End Rachas.

(** C4.  After the iteration for a game that passes both filters, the
    current streak is at least 1 when the result code of the tracked
    player maps to Win, at most -1 when it maps to Loss, and 0 when it
    maps to Draw; and at the end of the pass the maximum win streak is
    the largest value, and the maximum loss streak the smallest value,
    among the values of the current streak seen along the pass (the
    initial 0 and the value after each game). *)
Theorem rachas_signo_y_extremos read_game dia_de u filtro_tc min_rating :
  (forall st g,
     fuera_de_filtro filtro_tc g = false ->
     bajo_minimo u min_rating g = false ->
     let st' := procesar read_game dia_de u filtro_tc min_rating st g in
     match outcome (resultado_de u g) with
     | Win => 1 <= racha_actual st'
     | Loss => racha_actual st' <= -1
     | Draw => racha_actual st' = 0
     end) /\
  (forall games,
     let fin := pasada read_game dia_de u filtro_tc min_rating games in
     let vistas :=
       map racha_actual
         (traza read_game dia_de u filtro_tc min_rating stats_iniciales
            games) in
     In (racha_max_g fin) vistas /\
     (forall v, In v vistas -> v <= racha_max_g fin) /\
     In (racha_max_p fin) vistas /\
     (forall v, In v vistas -> racha_max_p fin <= v)).
Proof.
  split.
  - intros st g Hf Hb st'.
    destruct (paso_rachas read_game dia_de u filtro_tc min_rating st g Hf Hb)
      as (Ea & _). fold st' in Ea. rewrite Ea.
    apply racha_tras_signo.
  - intros games fin vistas.
    assert (Hc : racha_acotada stats_iniciales) by (repeat split; cbn; lia).
    destruct (rachas_traza read_game dia_de u filtro_tc min_rating games
                stats_iniciales Hc) as (Hin & Eg & Ep & _).
    fold (pasada read_game dia_de u filtro_tc min_rating games) in Hin, Eg, Ep.
    fold fin in Hin, Eg, Ep.
    assert (H0 : In stats_iniciales
              (traza read_game dia_de u filtro_tc min_rating stats_iniciales
                 games)).
    { destruct games; cbn [traza]; now left. }
    subst vistas. repeat split.
    + apply in_map_iff. destruct Eg as [Eg|(s & Hs & Es)].
      * exists stats_iniciales. split; [now rewrite Eg|exact H0].
      * exists s. split; assumption.
    + intros v Hv. apply in_map_iff in Hv. destruct Hv as (s & <- & Hs).
      now apply Hin.
    + apply in_map_iff. destruct Ep as [Ep|(s & Hs & Es)].
      * exists stats_iniciales. split; [now rewrite Ep|exact H0].
      * exists s. split; assumption.
    + intros v Hv. apply in_map_iff in Hv. destruct Hv as (s & <- & Hs).
      now apply Hin.
Qed.

(** The signs of the streak after a win and after a loss. *)
Lemma rachas_ejemplo :
  (fuera_de_filtro None partida_600 = false /\
   bajo_minimo "user" 0 partida_600 = false /\
   fuera_de_filtro None partida_180 = false /\
   bajo_minimo "user" 0 partida_180 = false) /\
  1 <= racha_actual
         (procesar lector_ejemplo dia_fijo "user" None 0 stats_iniciales
            partida_600) /\
  racha_actual
    (procesar lector_ejemplo dia_fijo "user" None 0 stats_iniciales
       partida_180) <= -1.
Proof.
  split; [repeat split|].
  destruct (rachas_signo_y_extremos lector_ejemplo dia_fijo "user" None 0)
    as (H & _).
  split.
  - exact (H stats_iniciales partida_600 eq_refl eq_refl).
  - exact (H stats_iniciales partida_180 eq_refl eq_refl).
Defined.

(** ** The end-to-end scenario *)

(** What the fields named in the scenario become after a game that passes
    both filters and whose transcript is read. *)
Lemma paso_leido read_game dia_de u filtro_tc min_rating st g texto moves :
  fuera_de_filtro filtro_tc g = false ->
  bajo_minimo u min_rating g = false ->
  pgn g = Some texto ->
  read_game texto = PgnGame moves ->
  let r := resultado_de u g in
  let jugadas := Z.of_nat (List.length moves) in
  let st' := procesar read_game dia_de u filtro_tc min_rating st g in
  (partidas_analizadas st' = partidas_analizadas st + 1 /\
   ganadas st' = ganadas st + (if es_victoria r then 1 else 0) /\
   perdidas st' =
     perdidas st
     + (if es_victoria r then 0 else if es_derrota r then 1 else 0) /\
   tablas st' =
     tablas st
     + (if es_victoria r then 0 else if es_derrota r then 0 else 1) /\
   tablas_por_tipo st' =
     (if es_victoria r then tablas_por_tipo st
      else if es_derrota r then tablas_por_tipo st
      else incr r (tablas_por_tipo st))) /\
  (racha_actual st' = racha_tras r (racha_actual st) /\
   racha_max_g st' =
     (if es_victoria r
      then Z.max (racha_max_g st) (racha_tras r (racha_actual st))
      else racha_max_g st) /\
   racha_max_p st' =
     (if es_victoria r then racha_max_p st
      else if es_derrota r
           then Z.min (racha_max_p st) (racha_tras r (racha_actual st))
           else racha_max_p st)) /\
  (mejor_victoria st' =
     (if es_victoria r && (snd (mejor_victoria st) <? rating_rival_de u g)
      then (rival_de u g, rating_rival_de u g) else mejor_victoria st) /\
   peor_derrota st' =
     (if negb (es_victoria r) && es_derrota r
         && (rating_rival_de u g <? snd (peor_derrota st))
      then (rival_de u g, rating_rival_de u g) else peor_derrota st)) /\
  (partida_corta st' =
     (if jugadas <? snd (partida_corta st) then (texto, jugadas)
      else partida_corta st) /\
   partida_larga st' =
     (if snd (partida_larga st) <? jugadas then (texto, jugadas)
      else partida_larga st)) /\
  time_controls st' = incr (tc_de g) (time_controls st).
Proof.
  intros Hf Hb Hp Hr r jugadas st'.
  assert (Hl : lectura_falla read_game g = false).
  { unfold lectura_falla. now rewrite Hp, Hr. }
  destruct (paso_cuentas read_game dia_de u filtro_tc min_rating st g Hf Hb)
    as (Ea & _ & _ & Eg & Ep & Et & Ett).
  destruct (paso_rachas read_game dia_de u filtro_tc min_rating st g Hf Hb)
    as (Era & Erg & Erp).
  destruct (paso_extremos read_game dia_de u filtro_tc min_rating st g Hf Hb)
    as (Em & Ed).
  destruct (paso_categorias read_game dia_de u filtro_tc min_rating st g
              Hf Hb Hl) as (Etc & _).
  destruct (paso_transcripcion read_game dia_de u filtro_tc min_rating st g
              texto moves Hf Hb Hp Hr) as (_ & Ec & El & _).
  fold st' in Ea, Eg, Ep, Et, Ett, Era, Erg, Erp, Em, Ed, Etc, Ec, El.
  fold r in Eg, Ep, Et, Ett, Era, Erg, Erp, Em, Ed.
  rewrite Era in Erg, Erp.
  repeat split; assumption.
Qed.

(** C5.  With no time-control filter and minimum rating 0, the three
    games of the scenario (a win with White over rival1, rated 1500, in
    20 half-moves at "600"; a loss with Black to rival2, rated 1600, in 30
    half-moves at "600"; a draw with White against rival3, rated 1400, by
    "agreed" in 40 half-moves at "180") give won = lost = drawn = 1, 3
    games analysed, a global win rate of 33, maximum win streak 1,
    maximum loss streak -1, best win (rival1, 1500), worst loss
    (rival2, 1600), shortest game of 20 and longest of 40 half-moves,
    time controls {"600": 2, "180": 1} and draw types {"agreed": 1}. *)
Theorem escenario_de_tres_partidas read_game dia_de t1 t2 t3 m1 m2 m3 :
  read_game t1 = PgnGame m1 ->
  read_game t2 = PgnGame m2 ->
  read_game t3 = PgnGame m3 ->
  List.length m1 = 20%nat ->
  List.length m2 = 30%nat ->
  List.length m3 = 40%nat ->
  let self :=
    analizar_partidas read_game dia_de
      (con_partidas (escenario t1 t2 t3) (init "User")) None 0 in
  exists s,
    stats self = Some s /\
    ganadas s = 1 /\ perdidas s = 1 /\ tablas s = 1 /\
    partidas_analizadas s = 3 /\
    winrate_global self = Some 33 /\
    racha_max_g s = 1 /\ racha_max_p s = -1 /\
    mejor_victoria s = ("rival1", 1500) /\
    peor_derrota s = ("rival2", 1600) /\
    snd (partida_corta s) = 20 /\ snd (partida_larga s) = 40 /\
    time_controls s = {[ "600" := 2; "180" := 1 ]} /\
    tablas_por_tipo s = {[ "agreed" := 1 ]}.
Proof.
  intros H1 H2 H3 L1 L2 L3 self.
  set (s := pasada read_game dia_de "user" None 0 (escenario t1 t2 t3)).
  assert (Hs : self = mkAnalizador "user" (escenario t1 t2 t3) (Some s))
    by reflexivity.
  exists s. rewrite Hs. unfold winrate_global, winrate.
  cbn [stats sin_datos]. clear Hs self.
  subst s. unfold pasada, escenario. cbn [fold_left].
  match goal with
  | |- context [procesar _ _ _ _ _ (procesar _ _ _ _ _ ?s1 ?g2) ?g3] =>
      match s1 with
      | procesar _ _ _ _ _ ?s0 ?g1 =>
          destruct (paso_leido read_game dia_de "user" None 0 s0 g1 t1 m1
                      eq_refl eq_refl eq_refl H1)
            as ((A1 & G1 & P1 & T1 & TT1) & (RA1 & RG1 & RP1)
                & (MV1 & PD1) & (C1 & LG1) & TC1);
          destruct (paso_leido read_game dia_de "user" None 0 s1 g2 t2 m2
                      eq_refl eq_refl eq_refl H2)
            as ((A2 & G2 & P2 & T2 & TT2) & (RA2 & RG2 & RP2)
                & (MV2 & PD2) & (C2 & LG2) & TC2);
          destruct (paso_leido read_game dia_de "user" None 0
                      (procesar read_game dia_de "user" None 0 s1 g2) g3 t3
                      m3 eq_refl eq_refl eq_refl H3)
            as ((A3 & G3 & P3 & T3 & TT3) & (RA3 & RG3 & RP3)
                & (MV3 & PD3) & (C3 & LG3) & TC3)
      end
  end.
  rewrite L1 in C1, LG1. rewrite L2 in C2, LG2. rewrite L3 in C3, LG3.
  rewrite A3, A2, A1, G3, G2, G1, P3, P2, P1, T3, T2, T1, TT3, TT2, TT1.
  rewrite RG3, RG2, RG1, RP3, RP2, RP1, RA2, RA1.
  rewrite MV3, MV2, MV1, PD3, PD2, PD1.
  rewrite C3, C2, C1, LG3, LG2, LG1, TC3, TC2, TC1.
  repeat split; vm_compute; reflexivity.
Qed.

(** The scenario over the sample reader. *)
Lemma escenario_ejemplo :
  (lector_ejemplo "veinte" = PgnGame (repeat "e2e4" 20) /\
   lector_ejemplo "treinta" = PgnGame (repeat "d2d4" 30) /\
   lector_ejemplo "cuarenta" = PgnGame (repeat "c2c4" 40) /\
   List.length (repeat "e2e4" 20) = 20%nat /\
   List.length (repeat "d2d4" 30) = 30%nat /\
   List.length (repeat "c2c4" 40) = 40%nat) /\
  exists s,
    stats (analizar_partidas lector_ejemplo dia_fijo
             (con_partidas (escenario "veinte" "treinta" "cuarenta")
                (init "User")) None 0) = Some s /\
    ganadas s = 1 /\ perdidas s = 1 /\ tablas s = 1 /\
    partidas_analizadas s = 3.
Proof.
  split; [repeat split|].
  destruct (escenario_de_tres_partidas lector_ejemplo dia_fijo
              "veinte" "treinta" "cuarenta" _ _ _
              eq_refl eq_refl eq_refl eq_refl eq_refl eq_refl)
    as (s & Hs & Hg & Hp & Ht & Ha & _).
  exists s. repeat split; assumption.
Defined.

(** ** No games *)

(** C6, as the code has it.  On no games the pass is no error: it returns
    at once and leaves the store of the analyser as it is.  For an
    analyser that has stored no snapshot the store stays the empty
    dictionary, with no field for the number of games analysed; the
    guard of the report and of the recommendations takes the empty store
    like a snapshot of zero analysed games, and no rate is derived. *)
Theorem sin_partidas_deja_el_almacen read_game dia_de self filtro_tc
    min_rating :
  partidas self = [] ->
  let self' := analizar_partidas read_game dia_de self filtro_tc min_rating in
  self' = self /\
  (stats self = None ->
   stats self' = None /\
   sin_datos (stats self') = true /\
   winrate_global self' = None).
Proof.
  intros Hp self'. subst self'. unfold analizar_partidas. rewrite Hp.
  split; [reflexivity|]. intros Hs. unfold winrate_global.
  rewrite Hs. repeat split.
Qed.

Lemma sin_partidas_ejemplo :
  partidas (init "User") = [] /\
  analizar_partidas lector_ejemplo dia_fijo (init "User") None 0
  = init "User" /\
  stats (analizar_partidas lector_ejemplo dia_fijo (init "User") None 0)
  = None.
Proof.
  split; [reflexivity|].
  destruct (sin_partidas_deja_el_almacen lector_ejemplo dia_fijo
              (init "User") None 0 eq_refl) as (E & H).
  split; [exact E|]. exact (proj1 (H eq_refl)).
Defined.

(** On no games there is no snapshot whose number of games analysed
    is 0: the store holds no snapshot at all. *)
Lemma sin_partidas_no_hay_snapshot :
  ~ exists s,
      stats (analizar_partidas lector_ejemplo dia_fijo
               (con_partidas [] (init "User")) None 0) = Some s /\
      partidas_analizadas s = 0.
Proof. intros (s & H & _). discriminate H. Qed.

(** ** The time-control filter *)

Section FiltroTc.

Variable read_game : string -> PgnResult.
Variable dia_de : Z -> string.
Variable u : string.
Variable f : string.
Variable min_rating : Z.
Hypothesis f_no_vacia : no_vacia f = true.

Local Abbreviation paso := (procesar read_game dia_de u (Some f) min_rating).

Lemma fuera_de_filtro_etiqueta g :
  fuera_de_filtro (Some f) g = negb (con_etiqueta f g).
Proof. unfold fuera_de_filtro, con_etiqueta. now rewrite f_no_vacia. Qed.

Lemma paso_otra_etiqueta st g : tc_de g <> f -> paso st g = st.
Proof.
  intros Hne. apply procesar_fuera. rewrite fuera_de_filtro_etiqueta.
  unfold con_etiqueta. apply String.eqb_neq in Hne. now rewrite Hne.
Qed.

Lemma fold_solo_etiqueta games :
  forall st,
    fold_left paso games st
    = fold_left paso (List.filter (con_etiqueta f) games) st.
Proof.
  induction games as [|g games IH]; intros st; [reflexivity|].
  cbn [fold_left List.filter].
  destruct (con_etiqueta f g) eqn:E.
  - cbn [fold_left]. apply IH.
  - rewrite procesar_fuera; [apply IH|].
    rewrite fuera_de_filtro_etiqueta. now rewrite E.
Qed.

Lemma analizadas_fold games :
  forall st,
    partidas_analizadas (fold_left paso games st)
    = partidas_analizadas st
      + Z.of_nat
          (List.length
             (List.filter
                (fun g => con_etiqueta f g && negb (bajo_minimo u min_rating g))
                games)).
Proof.
  induction games as [|g games IH]; intros st; [cbn; lia|].
  cbn [fold_left List.filter]. rewrite IH.
  pose proof (fuera_de_filtro_etiqueta g) as Hf.
  destruct (con_etiqueta f g); cbn [negb andb] in Hf |- *.
  - destruct (bajo_minimo u min_rating g) eqn:Hb; cbn [negb].
    + rewrite procesar_bajo by assumption. unfold contar_color.
      destruct (juega_blancas u g); reflexivity.
    + destruct (paso_cuentas read_game dia_de u (Some f) min_rating st g
                  Hf Hb) as (-> & _).
      cbn [List.length]. lia.
  - now rewrite procesar_fuera.
Qed.

End FiltroTc.

(** C7, as the code has it.  When a non-empty time-control filter is
    given (the empty string is taken as no filter), every game whose
    time-control label differs from the filter string is skipped
    entirely: the snapshot is left as it was.  So the pass over any games
    gives the snapshot of the pass over the games that carry the label
    alone, and the number of games analysed is the number of games that
    carry the label and whose opponent is not rated below the minimum:
    with filter "600", minimum 0 and no negative rating, the number of
    "600" games. *)
Theorem filtro_tc_no_vacio read_game dia_de u f min_rating :
  f <> "" ->
  (forall st g,
     tc_de g <> f ->
     procesar read_game dia_de u (Some f) min_rating st g = st) /\
  (forall games,
     pasada read_game dia_de u (Some f) min_rating games
     = pasada read_game dia_de u (Some f) min_rating
         (List.filter (con_etiqueta f) games)) /\
  (forall games,
     partidas_analizadas
       (pasada read_game dia_de u (Some f) min_rating games)
     = Z.of_nat
         (List.length
            (List.filter
               (fun g => con_etiqueta f g && negb (bajo_minimo u min_rating g))
               games))) /\
  (forall games,
     (forall g, In g games -> min_rating <= rating_rival_de u g) ->
     partidas_analizadas
       (pasada read_game dia_de u (Some f) min_rating games)
     = Z.of_nat (List.length (List.filter (con_etiqueta f) games))).
Proof.
  intros Hne.
  assert (Hf : no_vacia f = true).
  { unfold no_vacia. apply String.eqb_neq in Hne. now rewrite Hne. }
  split; [|split; [|split]].
  - intros st g. now apply paso_otra_etiqueta.
  - intros games. apply fold_solo_etiqueta, Hf.
  - intros games. unfold pasada.
    now rewrite analizadas_fold by exact Hf.
  - intros games Hmin. unfold pasada.
    rewrite analizadas_fold by exact Hf.
    cbn [partidas_analizadas stats_iniciales]. rewrite Z.add_0_l.
    do 2 f_equal. apply filter_ext_in. intros g Hg.
    assert (Hb : bajo_minimo u min_rating g = false).
    { unfold bajo_minimo. apply Z.ltb_ge. now apply Hmin. }
    rewrite Hb. now rewrite andb_true_r.
Qed.

Lemma filtro_tc_ejemplo :
  "600" <> "" /\
  procesar lector_ejemplo dia_fijo "user" (Some "600") 0 stats_iniciales
    partida_180 = stats_iniciales /\
  partidas_analizadas
    (pasada lector_ejemplo dia_fijo "user" (Some "600") 0
       [partida_600; partida_180; partida_600]) = 2.
Proof.
  assert (Hne : "600" <> "") by discriminate.
  destruct (filtro_tc_no_vacio lector_ejemplo dia_fijo "user" "600" 0 Hne)
    as (Hskip & _ & Hn & _).
  split; [exact Hne|]. split.
  - apply Hskip. discriminate.
  - rewrite Hn. reflexivity.
Defined.

(** The empty string passed as the filter skips no game, though the label
    "600" differs from it; and under the filter "600" a "600" game whose
    opponent is rated below the minimum is not analysed. *)
Lemma filtro_tc_contraejemplo :
  (tc_de partida_600 <> "" /\
   procesar lector_ejemplo dia_fijo "user" (Some "") 0 stats_iniciales
     partida_600 <> stats_iniciales /\
   partidas_analizadas
     (pasada lector_ejemplo dia_fijo "user" (Some "") 0 [partida_600]) = 1) /\
  (List.length (List.filter (con_etiqueta "600") [partida_600]) = 1%nat /\
   partidas_analizadas
     (pasada lector_ejemplo dia_fijo "user" (Some "600") 2000 [partida_600])
   = 0).
Proof.
  repeat split; discriminate.
Qed.

(** ** Openings *)

(** What a game that passes both filters and whose transcript is read as
    the rendered moves [moves] does to the two maps of openings. *)
Lemma apertura_por_clave read_game dia_de u filtro_tc min_rating st g texto
    moves :
  fuera_de_filtro filtro_tc g = false ->
  bajo_minimo u min_rating g = false ->
  pgn g = Some texto ->
  read_game texto = PgnGame moves ->
  let key := String.concat " " (take 4 moves) in
  let st' := procesar read_game dia_de u filtro_tc min_rating st g in
  let gana :=
    match outcome (resultado_de u g) with Win => 1 | _ => 0 end in
  (key <> "" ->
   cuenta key (aperturas st') = cuenta key (aperturas st) + 1 /\
   Apertura.total (entrada key (aperturas_con_resultados st'))
   = Apertura.total (entrada key (aperturas_con_resultados st)) + 1 /\
   Apertura.ganadas (entrada key (aperturas_con_resultados st'))
   = Apertura.ganadas (entrada key (aperturas_con_resultados st)) + gana /\
   forall k, k <> key ->
     aperturas st' !! k = aperturas st !! k /\
     aperturas_con_resultados st' !! k = aperturas_con_resultados st !! k) /\
  (key = "" ->
   aperturas st' = aperturas st /\
   aperturas_con_resultados st' = aperturas_con_resultados st).
Proof.
  intros Hf Hb Hp Hr key st' gana.
  destruct (paso_transcripcion read_game dia_de u filtro_tc min_rating st g
              texto moves Hf Hb Hp Hr) as (_ & _ & _ & Ea & Er).
  fold st' in Ea, Er. unfold apertura_key_de in Ea, Er. fold key in Ea, Er.
  split.
  - intros Hne.
    assert (Hk : no_vacia key = true).
    { unfold no_vacia. apply String.eqb_neq in Hne. now rewrite Hne. }
    rewrite Hk in Ea, Er. rewrite Ea, Er.
    unfold cuenta, entrada, incr, sumar_total, sumar_ganada.
    subst gana. unfold outcome.
    destruct (es_victoria (resultado_de u g));
      [|destruct (es_derrota (resultado_de u g))];
      rewrite !lookup_insert_eq; cbn;
      (repeat split; try lia;
       [now rewrite lookup_insert_ne by congruence
       |now rewrite !lookup_insert_ne by congruence]).
  - intros He.
    assert (Hk : no_vacia key = false) by (now rewrite He).
    rewrite Hk in Ea, Er. now split.
Qed.

Lemma uci_no_vacia m : Move.uci m <> "".
Proof.
  unfold Move.uci.
  destruct (Move.drop m) as [p|]; [destruct p; discriminate|].
  destruct (Move.promotion m) as [p|]; [discriminate|].
  destruct (Move.bool_de m); discriminate.
Qed.

Lemma concat_no_vacia sep x l : x <> "" -> String.concat sep (x :: l) <> "".
Proof.
  intros Hx. destruct x as [|c x]; [congruence|].
  cbn [String.concat]. destruct l; discriminate.
Qed.

(** C8, as the code has it.  For a game that passes both filters and
    whose transcript is read, the opening key is the first four
    half-moves at most (all of them when the game is shorter), each as
    [str(move)] renders it, joined by spaces.  That rendering is the
    coordinate form of the chess library, the name of the origin square
    then that of the destination square as in e2e4, with the letter of
    the piece after them for a promotion; it is not the algebraic
    notation of the transcript.  The key is empty only for a game with
    no half-move.  When it is not empty, its play count and its total go
    up by one and its wins go up by one exactly when the outcome is a
    win, and no other key is touched; when it is empty, the opening
    statistics stay as they were. *)
Theorem apertura_contada read_game dia_de u filtro_tc min_rating st g texto
    (moves : list Move.t) :
  fuera_de_filtro filtro_tc g = false ->
  bajo_minimo u min_rating g = false ->
  pgn g = Some texto ->
  read_game texto = PgnGame (map Move.uci moves) ->
  let key := String.concat " " (map Move.uci (take 4 moves)) in
  let st' := procesar read_game dia_de u filtro_tc min_rating st g in
  let gana :=
    match outcome (resultado_de u g) with Win => 1 | _ => 0 end in
  (forall m,
     In m moves ->
     Move.drop m = None ->
     Move.uci m
     = match Move.promotion m with
       | Some p =>
           Move.square_name (Move.from_square m)
           ++ Move.square_name (Move.to_square m) ++ Move.piece_symbol p
       | None =>
           if Move.bool_de m
           then Move.square_name (Move.from_square m)
                ++ Move.square_name (Move.to_square m)
           else "0000"
       end) /\
  (key <> "" <-> moves <> []) /\
  (key <> "" ->
   cuenta key (aperturas st') = cuenta key (aperturas st) + 1 /\
   Apertura.total (entrada key (aperturas_con_resultados st'))
   = Apertura.total (entrada key (aperturas_con_resultados st)) + 1 /\
   Apertura.ganadas (entrada key (aperturas_con_resultados st'))
   = Apertura.ganadas (entrada key (aperturas_con_resultados st)) + gana /\
   forall k, k <> key ->
     aperturas st' !! k = aperturas st !! k /\
     aperturas_con_resultados st' !! k = aperturas_con_resultados st !! k) /\
  (key = "" ->
   aperturas st' = aperturas st /\
   aperturas_con_resultados st' = aperturas_con_resultados st).
Proof.
  intros Hf Hb Hp Hr key st' gana.
  assert (Hkey : key = String.concat " " (take 4 (map Move.uci moves))).
  { subst key. now rewrite firstn_map. }
  destruct (apertura_por_clave read_game dia_de u filtro_tc min_rating st g
              texto (map Move.uci moves) Hf Hb Hp Hr) as (Hne & He).
  rewrite <- Hkey in Hne, He. fold st' in Hne, He. fold gana in Hne.
  split; [|split; [|split; [exact Hne|exact He]]].
  - intros m _ Hd. unfold Move.uci. now rewrite Hd.
  - subst key. destruct moves as [|m moves]; cbn [take firstn map].
    + split; intros H; now contradiction H.
    + split; [discriminate|intros _].
      apply concat_no_vacia, uci_no_vacia.
Qed.

Lemma apertura_ejemplo :
  (fuera_de_filtro None partida_espanola = false /\
   bajo_minimo "user" 0 partida_espanola = false /\
   pgn partida_espanola = Some "1. e4 e5 2. Nf3 Nc6 3. Bb5 *" /\
   lector_espanola "1. e4 e5 2. Nf3 Nc6 3. Bb5 *"
   = PgnGame (map Move.uci (map snd apertura_espanola)) /\
   "e2e4 e7e5 g1f3 b8c6" <> "") /\
  String.concat " " (map Move.uci (take 4 (map snd apertura_espanola)))
  = "e2e4 e7e5 g1f3 b8c6" /\
  cuenta "e2e4 e7e5 g1f3 b8c6"
    (aperturas
       (procesar lector_espanola dia_fijo "user" None 0 stats_iniciales
          partida_espanola)) = 1 /\
  Apertura.total
    (entrada "e2e4 e7e5 g1f3 b8c6"
       (aperturas_con_resultados
          (procesar lector_espanola dia_fijo "user" None 0 stats_iniciales
             partida_espanola))) = 1 /\
  Apertura.ganadas
    (entrada "e2e4 e7e5 g1f3 b8c6"
       (aperturas_con_resultados
          (procesar lector_espanola dia_fijo "user" None 0 stats_iniciales
             partida_espanola))) = 1.
Proof.
  assert (Hne : "e2e4 e7e5 g1f3 b8c6" <> "") by discriminate.
  split; [repeat split; exact Hne|]. split; [reflexivity|].
  destruct (apertura_contada lector_espanola dia_fijo "user" None 0
              stats_iniciales partida_espanola _
              (map snd apertura_espanola) eq_refl eq_refl eq_refl eq_refl)
    as (_ & _ & H & _).
  destruct (H Hne) as (Ha & Ht & Hg & _).
  repeat split; assumption.
Defined.

(** For the game 1. e4 e5 2. Nf3 Nc6 3. Bb5 the key of the first four
    half-moves in algebraic notation is "e4 e5 Nf3 Nc6"; the pass
    counts nothing under it, and counts the game under
    "e2e4 e7e5 g1f3 b8c6". *)
Lemma apertura_no_algebraica :
  clave_algebraica (map fst apertura_espanola) = "e4 e5 Nf3 Nc6" /\
  clave_algebraica (map fst apertura_espanola) <> "" /\
  aperturas
    (procesar lector_espanola dia_fijo "user" None 0 stats_iniciales
       partida_espanola) !! clave_algebraica (map fst apertura_espanola)
  = None /\
  cuenta (clave_algebraica (map fst apertura_espanola))
    (aperturas
       (procesar lector_espanola dia_fijo "user" None 0 stats_iniciales
          partida_espanola))
  <> cuenta (clave_algebraica (map fst apertura_espanola))
       (aperturas stats_iniciales) + 1 /\
  apertura_key_de (map Move.uci (map snd apertura_espanola))
  = "e2e4 e7e5 g1f3 b8c6" /\
  aperturas
    (procesar lector_espanola dia_fijo "user" None 0 stats_iniciales
       partida_espanola) !! "e2e4 e7e5 g1f3 b8c6" = Some 1.
Proof. repeat split; discriminate. Qed.

(** ** The colour of the tracked player *)

Section Color.

Variable read_game : string -> PgnResult.
Variable dia_de : Z -> string.
Variable u : string.
Variable filtro_tc : option string.
Variable min_rating : Z.

Local Abbreviation paso := (procesar read_game dia_de u filtro_tc min_rating).

Lemma color_clasificar st g :
  blancas_partidas (clasificar u st g) = blancas_partidas st /\
  negras_partidas (clasificar u st g) = negras_partidas st.
Proof.
  unfold clasificar.
  destruct (es_victoria _); [|destruct (es_derrota _)];
    destruct (juega_blancas u g); campos;
    repeat match goal with
           | |- context [if ?b then _ else _] => destruct b
           end;
    split; reflexivity.
Qed.

(** A game that passes the time-control filter counts as played with
    the colour resolved for the tracked player, whatever the rating
    filter decides. *)
Lemma color_paso st g :
  fuera_de_filtro filtro_tc g = false ->
  blancas_partidas (paso st g)
  = blancas_partidas st + (if juega_blancas u g then 1 else 0) /\
  negras_partidas (paso st g)
  = negras_partidas st + (if juega_blancas u g then 0 else 1).
Proof.
  intros Hf.
  assert (Hc : blancas_partidas (contar_color u st g)
               = blancas_partidas st + (if juega_blancas u g then 1 else 0)
               /\ negras_partidas (contar_color u st g)
                  = negras_partidas st
                    + (if juega_blancas u g then 0 else 1)).
  { unfold contar_color. destruct (juega_blancas u g); campos; lia. }
  destruct (bajo_minimo u min_rating g) eqn:Hb.
  { now rewrite procesar_bajo. }
  pose proof (resumen_paso read_game dia_de u filtro_tc min_rating st g
                Hf Hb) as E.
  unfold resumen in E.
  injection E as _ _ _ _ _ Eb _ En _ _ _ _ _ _ _ _.
  rewrite Eb, En.
  destruct (color_clasificar (registrar_rival u (contar_color u st g) g) g)
    as (-> & ->).
  exact Hc.
Qed.

(** When the white side is not the tracked player, the username of the
    black side is never read. *)
Lemma paso_con_negras nombre st g :
  juega_blancas u g = false ->
  paso st (con_negras nombre g) = paso st g.
Proof.
  intros Hj.
  assert (Hj' : juega_blancas u (con_negras nombre g) = false) by exact Hj.
  assert (Hrv : rival_de u (con_negras nombre g) = rival_de u g).
  { unfold rival_de. now rewrite Hj, Hj'. }
  assert (Hrt : rating_rival_de u (con_negras nombre g)
                = rating_rival_de u g).
  { unfold rating_rival_de. now rewrite Hj, Hj'. }
  assert (Hrs : resultado_de u (con_negras nombre g) = resultado_de u g).
  { unfold resultado_de. now rewrite Hj, Hj'. }
  assert (Hcc : forall s, contar_color u s (con_negras nombre g)
                          = contar_color u s g).
  { intros s. unfold contar_color. now rewrite Hj, Hj'. }
  assert (Hrr : forall s, registrar_rival u s (con_negras nombre g)
                          = registrar_rival u s g).
  { intros s. unfold registrar_rival. now rewrite Hrv, Hrt. }
  assert (Hcl : forall s, clasificar u s (con_negras nombre g)
                          = clasificar u s g).
  { intros s. unfold clasificar. now rewrite Hrv, Hrt, Hrs, Hj, Hj'. }
  assert (Haj : forall s t m, analizar_jugadas u s (con_negras nombre g) t m
                              = analizar_jugadas u s g t m).
  { intros s t m. unfold analizar_jugadas. now rewrite Hrs. }
  assert (Hct : forall s, contabilizar dia_de u s (con_negras nombre g)
                          = contabilizar dia_de u s g).
  { intros s. unfold contabilizar. now rewrite Hrs. }
  assert (Htr : forall s, tras_clasificar read_game dia_de u s
                            (con_negras nombre g)
                          = tras_clasificar read_game dia_de u s g).
  { intros s. unfold tras_clasificar. cbn [pgn con_negras].
    destruct (pgn g) as [t|]; [|apply Hct].
    destruct (read_game t); [reflexivity|apply Hct|].
    now rewrite Haj, Hct. }
  unfold procesar.
  change (fuera_de_filtro filtro_tc (con_negras nombre g))
    with (fuera_de_filtro filtro_tc g).
  unfold bajo_minimo. rewrite Hrt, Hcc, Hrr, Hcl, Htr. reflexivity.
Qed.

End Color.

(** C10.  When the tracked username, compared without regard to case,
    is neither the white nor the black player, the game is processed as
    if the tracked player had Black: the opponent and the opponent's
    rating are those of the white side, the result code is that of the
    black side, a game that passes the time-control filter adds one to
    the games played with Black and none to those played with White, and
    the iteration does what it does on the same game with the tracked
    player as the black side. *)
Theorem ajeno_cuenta_como_negras read_game dia_de nombre filtro_tc min_rating
    st g :
  lower (username (white g)) <> lower nombre ->
  lower (username (black g)) <> lower nombre ->
  let u := user (init nombre) in
  let st' := procesar read_game dia_de u filtro_tc min_rating st g in
  (rival_de u g = lower (username (white g)) /\
   rating_rival_de u g = default 0 (rating (white g)) /\
   resultado_de u g = result (black g)) /\
  (fuera_de_filtro filtro_tc g = false ->
   negras_partidas st' = negras_partidas st + 1 /\
   blancas_partidas st' = blancas_partidas st) /\
  (lower (username (black (con_negras nombre g))) = u /\
   st' = procesar read_game dia_de u filtro_tc min_rating st
           (con_negras nombre g)).
Proof.
  intros Hw Hb u st'.
  assert (Hj : juega_blancas u g = false).
  { unfold juega_blancas. now apply String.eqb_neq. }
  split; [|split].
  - unfold rival_de, rating_rival_de, resultado_de. now rewrite Hj.
  - intros Hf.
    destruct (color_paso read_game dia_de u filtro_tc min_rating st g Hf)
      as (Eb & En).
    fold st' in Eb, En. rewrite Hj in Eb, En. split; lia.
  - split; [reflexivity|]. subst st'. symmetry.
    now apply paso_con_negras.
Qed.

Lemma ajeno_ejemplo :
  let g := partida_blancas "rival1" 1500 "win" "600" None in
  (lower (username (white g)) <> lower "Otro" /\
   lower (username (black g)) <> lower "Otro") /\
  rival_de "otro" g = "user" /\
  rating_rival_de "otro" g = 1550 /\
  resultado_de "otro" g = "checkmated" /\
  negras_partidas
    (procesar lector_ejemplo dia_fijo "otro" None 0 stats_iniciales g) = 1.
Proof.
  intros g.
  assert (Hw : lower (username (white g)) <> lower "Otro") by discriminate.
  assert (Hb : lower (username (black g)) <> lower "Otro") by discriminate.
  split; [split; assumption|].
  destruct (ajeno_cuenta_como_negras lector_ejemplo dia_fijo "Otro" None 0
              stats_iniciales g Hw Hb) as ((Hrv & Hrt & Hrs) & Hn & _).
  destruct (Hn eq_refl) as (En & _).
  repeat split; assumption.
Defined.

(** * Further properties of the pass *)

Section Pase.

Variable read_game : string -> PgnResult.
Variable dia_de : Z -> string.
Variable u : string.
Variable filtro_tc : option string.
Variable min_rating : Z.

Local Abbreviation paso := (procesar read_game dia_de u filtro_tc min_rating).
Local Abbreviation pasada' :=
  (pasada read_game dia_de u filtro_tc min_rating).
Local Abbreviation pasa' := (pasa u filtro_tc min_rating).

Lemma pasada_snoc games g :
  pasada' (games ++ [g])%list = paso (pasada' games) g.
Proof. unfold pasada. now rewrite fold_left_app. Qed.

(** Induction along the pass: the property holds of no games and of
    the fresh snapshot, and one more game keeps it. *)
Lemma pasada_rev_ind (P : list Game -> Stats -> Prop) :
  P [] stats_iniciales ->
  (forall games g st, P games st -> P (games ++ [g])%list (paso st g)) ->
  forall games, P games (pasada' games).
Proof.
  intros H0 Hs games. induction games as [|g games IH] using rev_ind.
  - exact H0.
  - rewrite pasada_snoc. now apply Hs.
Qed.

Lemma pasa_true g :
  pasa' g = true ->
  fuera_de_filtro filtro_tc g = false /\ bajo_minimo u min_rating g = false.
Proof.
  unfold pasa. destruct (fuera_de_filtro filtro_tc g),
    (bajo_minimo u min_rating g); cbn; intros H; now try discriminate.
Qed.

(** A game that is not analysed leaves the snapshot as it is, or only
    counts for its colour. *)
Lemma paso_no_pasa st g :
  pasa' g = false -> paso st g = st \/ paso st g = contar_color u st g.
Proof.
  unfold pasa. intros H.
  destruct (fuera_de_filtro filtro_tc g) eqn:Hf.
  - left. now apply procesar_fuera.
  - destruct (bajo_minimo u min_rating g) eqn:Hb; [|discriminate H].
    right. now apply procesar_bajo.
Qed.

Lemma resumen_no_pasa st g :
  pasa' g = false ->
  let st' := paso st g in
  (ganadas st', perdidas st', tablas st', partidas_analizadas st',
   blancas_g st', negras_g st', rivales st', ratings_rivales st',
   racha_actual st', racha_max_g st', racha_max_p st',
   mejor_victoria st', peor_derrota st', tablas_por_tipo st')
  = (ganadas st, perdidas st, tablas st, partidas_analizadas st,
     blancas_g st, negras_g st, rivales st, ratings_rivales st,
     racha_actual st, racha_max_g st, racha_max_p st,
     mejor_victoria st, peor_derrota st, tablas_por_tipo st)
  /\ resto st' = resto st.
Proof.
  intros H st'. subst st'.
  destruct (paso_no_pasa st g H) as [-> | ->]; [now split|].
  unfold contar_color. destruct (juega_blancas u g); now split.
Qed.

Lemma filter_snoc (p : Game -> bool) games g :
  List.filter p (games ++ [g])%list
  = (List.filter p games ++ (if p g then [g] else []))%list.
Proof. rewrite List.filter_app. cbn. now destruct (p g). Qed.

Lemma veces_snoc p games g :
  veces p (games ++ [g])%list = veces p games + (if p g then 1 else 0).
Proof.
  unfold veces. rewrite filter_snoc, length_app.
  destruct (p g); cbn [List.length]; lia.
Qed.

(** ** The two lists of opponents *)

Lemma listas_de_rivales games :
  rivales (pasada' games) = map (rival_de u) (List.filter pasa' games) /\
  ratings_rivales (pasada' games)
  = map (rating_rival_de u) (List.filter pasa' games).
Proof.
  apply (pasada_rev_ind
           (fun games st =>
              rivales st = map (rival_de u) (List.filter pasa' games) /\
              ratings_rivales st
              = map (rating_rival_de u) (List.filter pasa' games)));
    [now split|].
  clear games. intros games g st (IH1 & IH2).
  rewrite filter_snoc, !map_app.
  destruct (pasa' g) eqn:Hp.
  - destruct (pasa_true g Hp) as (Hf & Hb).
    destruct (paso_cuentas read_game dia_de u filtro_tc min_rating st g
                Hf Hb) as (_ & -> & -> & _).
    now rewrite IH1, IH2.
  - destruct (resumen_no_pasa st g Hp) as (E & _).
    injection E as _ _ _ _ _ _ -> -> _ _ _ _ _ _.
    cbn [map]. now rewrite !app_nil_r.
Qed.

End Pase.

(** X1.  The opponents and their ratings are listed for exactly the
    games that pass both filters, in the order of the games: the two
    lists are the opponent and the opponent's rating of each such game,
    so they pair up entry by entry. *)
Theorem rivales_en_orden read_game dia_de u filtro_tc min_rating games :
  let s := pasada read_game dia_de u filtro_tc min_rating games in
  let analizadas := List.filter (pasa u filtro_tc min_rating) games in
  rivales s = map (rival_de u) analizadas /\
  ratings_rivales s = map (rating_rival_de u) analizadas /\
  combine (rivales s) (ratings_rivales s)
  = map (fun g => (rival_de u g, rating_rival_de u g)) analizadas.
Proof.
  intros s analizadas.
  destruct (listas_de_rivales read_game dia_de u filtro_tc min_rating games)
    as (E1 & E2).
  fold s in E1, E2. fold analizadas in E1, E2.
  split; [exact E1|]. split; [exact E2|].
  rewrite E1, E2. clear. induction analizadas as [|g l IH]; [reflexivity|].
  cbn [map combine]. now rewrite IH.
Qed.

(** ** The scalar counters *)

Section Contadores.

Variable read_game : string -> PgnResult.
Variable dia_de : Z -> string.
Variable u : string.
Variable filtro_tc : option string.
Variable min_rating : Z.

Local Abbreviation paso := (procesar read_game dia_de u filtro_tc min_rating).
Local Abbreviation pasada' :=
  (pasada read_game dia_de u filtro_tc min_rating).
Local Abbreviation pasa' := (pasa u filtro_tc min_rating).

Lemma victorias_color_clasificar st g :
  let r := resultado_de u g in
  blancas_g (clasificar u st g)
  = blancas_g st + (if es_victoria r && juega_blancas u g then 1 else 0) /\
  negras_g (clasificar u st g)
  = negras_g st
    + (if es_victoria r && negb (juega_blancas u g) then 1 else 0).
Proof.
  intros r. unfold clasificar. fold r.
  destruct (es_victoria r); [|destruct (es_derrota r)];
    destruct (juega_blancas u g); campos; cbn [andb negb];
    repeat match goal with
           | |- context [if ?b then _ else _] => destruct b
           end;
    campos; split; lia.
Qed.

Lemma paso_victorias_color st g :
  pasa' g = true ->
  let r := resultado_de u g in
  blancas_g (paso st g)
  = blancas_g st + (if es_victoria r && juega_blancas u g then 1 else 0) /\
  negras_g (paso st g)
  = negras_g st
    + (if es_victoria r && negb (juega_blancas u g) then 1 else 0).
Proof.
  intros Hp r. destruct (pasa_true u filtro_tc min_rating g Hp) as (Hf & Hb).
  pose proof (resumen_paso read_game dia_de u filtro_tc min_rating st g
                Hf Hb) as E.
  unfold resumen in E.
  injection E as _ _ _ _ Eb _ En _ _ _ _ _ _ _ _ _.
  rewrite Eb, En.
  destruct (victorias_color_clasificar
              (registrar_rival u (contar_color u st g) g) g) as (-> & ->).
  fold r. unfold registrar_rival, contar_color.
  destruct (juega_blancas u g); campos; split; reflexivity.
Qed.

(** What one more game adds to each scalar counter. *)
Lemma paso_contadores st g :
  let st' := paso st g in
  let uno (b : bool) := if b then 1 else 0 in
  partidas_analizadas st' = partidas_analizadas st + uno (pasa' g) /\
  ganadas st' = ganadas st + uno (es_ganada u filtro_tc min_rating g) /\
  perdidas st' = perdidas st + uno (es_perdida u filtro_tc min_rating g) /\
  tablas st' = tablas st + uno (es_tablas u filtro_tc min_rating g) /\
  blancas_partidas st'
  = blancas_partidas st + uno (jugada_con_blancas u filtro_tc g) /\
  negras_partidas st'
  = negras_partidas st + uno (jugada_con_negras u filtro_tc g) /\
  blancas_g st'
  = blancas_g st
    + uno (es_ganada u filtro_tc min_rating g && juega_blancas u g) /\
  negras_g st'
  = negras_g st
    + uno (es_ganada u filtro_tc min_rating g && negb (juega_blancas u g)).
Proof.
  intros st' uno. subst st'.
  unfold es_ganada, es_perdida, es_tablas, jugada_con_blancas,
    jugada_con_negras.
  assert (Hcol :
    blancas_partidas (paso st g)
    = blancas_partidas st
      + uno (negb (fuera_de_filtro filtro_tc g) && juega_blancas u g) /\
    negras_partidas (paso st g)
    = negras_partidas st
      + uno (negb (fuera_de_filtro filtro_tc g) && negb (juega_blancas u g))).
  { destruct (fuera_de_filtro filtro_tc g) eqn:Hf.
    - rewrite procesar_fuera by assumption. cbn. lia.
    - destruct (color_paso read_game dia_de u filtro_tc min_rating st g Hf)
        as (-> & ->).
      destruct (juega_blancas u g); cbn; lia. }
  destruct Hcol as (Hcb & Hcn).
  destruct (pasa' g) eqn:Hp.
  - destruct (pasa_true u filtro_tc min_rating g Hp) as (Hf & Hb).
    destruct (paso_cuentas read_game dia_de u filtro_tc min_rating st g
                Hf Hb) as (-> & _ & _ & -> & -> & -> & _).
    destruct (paso_victorias_color st g Hp) as (-> & ->).
    rewrite Hcb, Hcn. subst uno. cbn [andb].
    destruct (es_victoria (resultado_de u g)),
      (es_derrota (resultado_de u g)), (juega_blancas u g);
      cbn [andb negb]; repeat split; lia.
  - destruct (resumen_no_pasa read_game dia_de u filtro_tc min_rating st g
                Hp) as (E & _).
    injection E as -> -> -> -> -> -> _ _ _ _ _ _ _ _.
    rewrite Hcb, Hcn. subst uno. cbn [andb]. repeat split; lia.
Qed.

Lemma analizadas_pasada games :
  partidas_analizadas (pasada' games) = veces pasa' games.
Proof.
  apply (pasada_rev_ind read_game dia_de u filtro_tc min_rating
           (fun games s => partidas_analizadas s = veces pasa' games));
    [reflexivity|].
  clear games. intros games g st IH.
  destruct (paso_contadores st g) as (-> & _).
  now rewrite veces_snoc, IH.
Qed.

End Contadores.

(** X2.  Each scalar counter of the snapshot counts the games of its
    kind: the games analysed are those that pass both filters; wins,
    losses and draws are the analysed games by result code; the games
    played with a colour are those that pass the time-control filter
    alone, by resolved colour; the wins with a colour are the analysed
    wins of that colour. *)
Theorem contadores_cuentan read_game dia_de u filtro_tc min_rating games :
  let s := pasada read_game dia_de u filtro_tc min_rating games in
  partidas_analizadas s = veces (pasa u filtro_tc min_rating) games /\
  ganadas s = veces (es_ganada u filtro_tc min_rating) games /\
  perdidas s = veces (es_perdida u filtro_tc min_rating) games /\
  tablas s = veces (es_tablas u filtro_tc min_rating) games /\
  blancas_partidas s = veces (jugada_con_blancas u filtro_tc) games /\
  negras_partidas s = veces (jugada_con_negras u filtro_tc) games /\
  blancas_g s
  = veces (fun g => es_ganada u filtro_tc min_rating g && juega_blancas u g)
      games /\
  negras_g s
  = veces (fun g => es_ganada u filtro_tc min_rating g
                    && negb (juega_blancas u g)) games.
Proof.
  cbv zeta.
  apply (pasada_rev_ind read_game dia_de u filtro_tc min_rating
           (fun games s =>
              partidas_analizadas s = veces (pasa u filtro_tc min_rating) games /\
              ganadas s = veces (es_ganada u filtro_tc min_rating) games /\
              perdidas s = veces (es_perdida u filtro_tc min_rating) games /\
              tablas s = veces (es_tablas u filtro_tc min_rating) games /\
              blancas_partidas s
              = veces (jugada_con_blancas u filtro_tc) games /\
              negras_partidas s
              = veces (jugada_con_negras u filtro_tc) games /\
              blancas_g s
              = veces (fun g => es_ganada u filtro_tc min_rating g
                                && juega_blancas u g) games /\
              negras_g s
              = veces (fun g => es_ganada u filtro_tc min_rating g
                                && negb (juega_blancas u g)) games));
    [repeat split|].
  clear games. intros games g st (I1 & I2 & I3 & I4 & I5 & I6 & I7 & I8).
  destruct (paso_contadores read_game dia_de u filtro_tc min_rating st g)
    as (-> & -> & -> & -> & -> & -> & -> & ->).
  rewrite !veces_snoc, I1, I2, I3, I4, I5, I6, I7, I8.
  repeat split.
Qed.

(** ** Counters against one another *)

Section Relaciones.

Variable read_game : string -> PgnResult.
Variable dia_de : Z -> string.
Variable u : string.
Variable filtro_tc : option string.
Variable min_rating : Z.

Local Abbreviation paso := (procesar read_game dia_de u filtro_tc min_rating).
Local Abbreviation pasada' :=
  (pasada read_game dia_de u filtro_tc min_rating).

Lemma veces_no_negativo p games : 0 <= veces p games.
Proof. unfold veces. lia. Qed.

Lemma colores_pasada games :
  let s := pasada' games in
  blancas_g s + negras_g s = ganadas s /\
  0 <= blancas_g s <= blancas_partidas s /\
  0 <= negras_g s <= negras_partidas s /\
  0 <= ganadas s <= partidas_analizadas s /\
  0 <= perdidas s /\ 0 <= tablas s /\
  blancas_partidas s + negras_partidas s
  = partidas_analizadas s
    + veces (fun g => negb (fuera_de_filtro filtro_tc g)
                      && bajo_minimo u min_rating g) games.
Proof.
  cbv zeta.
  apply (pasada_rev_ind read_game dia_de u filtro_tc min_rating
           (fun games s =>
              blancas_g s + negras_g s = ganadas s /\
              0 <= blancas_g s <= blancas_partidas s /\
              0 <= negras_g s <= negras_partidas s /\
              0 <= ganadas s <= partidas_analizadas s /\
              0 <= perdidas s /\ 0 <= tablas s /\
              blancas_partidas s + negras_partidas s
              = partidas_analizadas s
                + veces (fun g => negb (fuera_de_filtro filtro_tc g)
                                  && bajo_minimo u min_rating g) games)).
  { cbn. unfold veces. cbn. lia. }
  clear games. intros games g st IH.
  destruct (paso_contadores read_game dia_de u filtro_tc min_rating st g)
    as (-> & -> & -> & -> & -> & -> & -> & ->).
  rewrite veces_snoc.
  unfold es_ganada, es_perdida, es_tablas, jugada_con_blancas,
    jugada_con_negras, pasa.
  destruct (fuera_de_filtro filtro_tc g), (bajo_minimo u min_rating g),
    (es_victoria (resultado_de u g)), (es_derrota (resultado_de u g)),
    (juega_blancas u g); cbn [andb negb]; lia.
Qed.

Lemma tasa_en_rango a b : 0 <= a <= b -> 0 < b -> 0 <= a * 100 / b <= 100.
Proof.
  intros Ha Hb. split.
  - apply Z.div_pos; lia.
  - apply Z.div_le_upper_bound; lia.
Qed.

(** The streaks against the outcome counters, along the pass. *)
Lemma rachas_y_cuentas games :
  let s := pasada' games in
  - perdidas s <= racha_max_p s /\ racha_max_p s <= racha_actual s /\
  racha_actual s <= racha_max_g s /\ racha_max_g s <= ganadas s /\
  racha_max_p s <= 0 <= racha_max_g s /\
  0 <= ganadas s /\ 0 <= perdidas s.
Proof.
  cbv zeta.
  apply (pasada_rev_ind read_game dia_de u filtro_tc min_rating
           (fun _ s =>
              - perdidas s <= racha_max_p s /\
              racha_max_p s <= racha_actual s /\
              racha_actual s <= racha_max_g s /\
              racha_max_g s <= ganadas s /\
              racha_max_p s <= 0 <= racha_max_g s /\
              0 <= ganadas s /\ 0 <= perdidas s)).
  { cbn. lia. }
  clear games. intros _ g st IH.
  destruct (pasa u filtro_tc min_rating g) eqn:Hp.
  - destruct (pasa_true u filtro_tc min_rating g Hp) as (Hf & Hb).
    destruct (paso_cuentas read_game dia_de u filtro_tc min_rating st g
                Hf Hb) as (_ & _ & _ & -> & -> & _).
    destruct (paso_rachas read_game dia_de u filtro_tc min_rating st g
                Hf Hb) as (Ea & -> & ->).
    rewrite Ea. unfold racha_tras, outcome.
    destruct (es_victoria (resultado_de u g));
      [|destruct (es_derrota (resultado_de u g))]; cbv beta iota.
    + destruct (0 <=? racha_actual st) eqn:E;
        [apply Z.leb_le in E|apply Z.leb_gt in E]; lia.
    + destruct (racha_actual st <=? 0) eqn:E;
        [apply Z.leb_le in E|apply Z.leb_gt in E]; lia.
    + lia.
  - destruct (resumen_no_pasa read_game dia_de u filtro_tc min_rating st g
                Hp) as (E & _).
    injection E as -> -> _ _ _ _ _ _ -> -> -> _ _ _. exact IH.
Qed.

End Relaciones.

(** X3.  At the end of the pass the wins with White and with Black add
    up to the wins, no colour has more wins than games played, and the
    games played over both colours are the games analysed plus the
    games that pass the time-control filter and are dropped by the
    rating filter. *)
Theorem victorias_por_color read_game dia_de u filtro_tc min_rating games :
  let s := pasada read_game dia_de u filtro_tc min_rating games in
  blancas_g s + negras_g s = ganadas s /\
  0 <= blancas_g s <= blancas_partidas s /\
  0 <= negras_g s <= negras_partidas s /\
  blancas_partidas s + negras_partidas s
  = partidas_analizadas s
    + veces (fun g => negb (fuera_de_filtro filtro_tc g)
                      && bajo_minimo u min_rating g) games.
Proof.
  intros s.
  destruct (colores_pasada read_game dia_de u filtro_tc min_rating games)
    as (H1 & H2 & H3 & _ & _ & _ & H4).
  repeat split; solve [apply H1 | apply H2 | apply H3 | apply H4].
Qed.

(** X4.  The three win rates that the report prints for a snapshot of
    the pass lie between 0 and 100: the global one, and the one of each
    colour when it is printed. *)
Theorem tasas_entre_0_y_100 read_game dia_de u filtro_tc min_rating games :
  let s := pasada read_game dia_de u filtro_tc min_rating games in
  0 <= winrate s <= 100 /\
  (forall w, winrate_blancas s = Some w -> 0 <= w <= 100) /\
  (forall w, winrate_negras s = Some w -> 0 <= w <= 100).
Proof.
  intros s.
  destruct (colores_pasada read_game dia_de u filtro_tc min_rating games)
    as (_ & Hb & Hn & Hg & _). fold s in Hb, Hn, Hg.
  unfold winrate, winrate_blancas, winrate_negras.
  split; [|split].
  - destruct (0 <? partidas_analizadas s) eqn:E; [|lia].
    apply Z.ltb_lt in E. now apply tasa_en_rango.
  - intros w. destruct (0 <? blancas_partidas s) eqn:E; [|discriminate].
    intros [= <-]. apply Z.ltb_lt in E. now apply tasa_en_rango.
  - intros w. destruct (0 <? negras_partidas s) eqn:E; [|discriminate].
    intros [= <-]. apply Z.ltb_lt in E. now apply tasa_en_rango.
Qed.

(** X5.  The longest win streak is at most the number of wins and the
    longest loss streak, as the report prints it, at most the number of
    losses; so a loss streak longer than 3, on which the
    recommendations act, needs 4 losses. *)
Theorem rachas_bajo_las_cuentas read_game dia_de u filtro_tc min_rating
    games :
  let s := pasada read_game dia_de u filtro_tc min_rating games in
  0 <= racha_max_g s <= ganadas s /\
  0 <= racha_derrotas s <= perdidas s /\
  (racha_max_p s < -3 -> 4 <= perdidas s).
Proof.
  intros s.
  pose proof (rachas_y_cuentas read_game dia_de u filtro_tc min_rating games)
    as H. cbv zeta in H. fold s in H. unfold racha_derrotas. lia.
Qed.

(** ** The best win and the worst loss *)

Section ExtremosRating.

Variable read_game : string -> PgnResult.
Variable dia_de : Z -> string.
Variable u : string.
Variable filtro_tc : option string.
Variable min_rating : Z.

Local Abbreviation paso := (procesar read_game dia_de u filtro_tc min_rating).
Local Abbreviation pasada' :=
  (pasada read_game dia_de u filtro_tc min_rating).
Local Abbreviation ganada := (es_ganada u filtro_tc min_rating).
Local Abbreviation perdida := (es_perdida u filtro_tc min_rating).

(** The two extremes after one more game, by the kind of the game. *)
Lemma paso_extremos_clase st g :
  mejor_victoria (paso st g)
  = (if ganada g && (snd (mejor_victoria st) <? rating_rival_de u g)
     then (rival_de u g, rating_rival_de u g) else mejor_victoria st) /\
  peor_derrota (paso st g)
  = (if perdida g && (rating_rival_de u g <? snd (peor_derrota st))
     then (rival_de u g, rating_rival_de u g) else peor_derrota st).
Proof.
  unfold es_ganada, es_perdida.
  destruct (pasa u filtro_tc min_rating g) eqn:Hp.
  - destruct (pasa_true u filtro_tc min_rating g Hp) as (Hf & Hb).
    destruct (paso_extremos read_game dia_de u filtro_tc min_rating st g
                Hf Hb) as (-> & ->).
    split; reflexivity.
  - destruct (resumen_no_pasa read_game dia_de u filtro_tc min_rating st g
                Hp) as (E & _).
    injection E as _ _ _ _ _ _ _ _ _ _ _ -> -> _. split; reflexivity.
Qed.

Lemma mejor_victoria_pasada games :
  let s := pasada' games in
  (forall g, In g games -> ganada g = true ->
             rating_rival_de u g <= snd (mejor_victoria s)) /\
  (mejor_victoria s = ("", 0) \/
   exists g, In g games /\ ganada g = true /\
             mejor_victoria s = (rival_de u g, rating_rival_de u g)) /\
  0 <= snd (mejor_victoria s).
Proof.
  cbv zeta.
  apply (pasada_rev_ind read_game dia_de u filtro_tc min_rating
           (fun games s =>
              (forall g, In g games -> ganada g = true ->
                         rating_rival_de u g <= snd (mejor_victoria s)) /\
              (mejor_victoria s = ("", 0) \/
               exists g, In g games /\ ganada g = true /\
                         mejor_victoria s
                         = (rival_de u g, rating_rival_de u g)) /\
              0 <= snd (mejor_victoria s))).
  { split; [intros g []|]. split; [now left|cbn; lia]. }
  clear games. intros games g st (Hmax & Hor & H0).
  destruct (paso_extremos_clase st g) as (-> & _).
  destruct (ganada g) eqn:Hg; cbn [andb].
  - destruct (snd (mejor_victoria st) <? rating_rival_de u g) eqn:E;
      [apply Z.ltb_lt in E|apply Z.ltb_ge in E]; cbn [snd].
    + split; [|split; [|lia]].
      * intros g' Hin Hg'. apply in_app_or in Hin.
        destruct Hin as [Hin|[<-|[]]]; [|lia].
        specialize (Hmax g' Hin Hg'). lia.
      * right. exists g. split; [apply in_or_app; right; now left|].
        now split.
    + split; [|split; [|exact H0]].
      * intros g' Hin Hg'. apply in_app_or in Hin.
        destruct Hin as [Hin|[<-|[]]]; [now apply Hmax|exact E].
      * destruct Hor as [Hor|(g' & Hin & Hg' & Hor)]; [now left|].
        right. exists g'. split; [apply in_or_app; now left|now split].
  - split; [|split; [|exact H0]].
    + intros g' Hin Hg'. apply in_app_or in Hin.
      destruct Hin as [Hin|[<-|[]]]; [now apply Hmax|congruence].
    + destruct Hor as [Hor|(g' & Hin & Hg' & Hor)]; [now left|].
      right. exists g'. split; [apply in_or_app; now left|now split].
Qed.

Lemma peor_derrota_pasada games :
  let s := pasada' games in
  (forall g, In g games -> perdida g = true ->
             snd (peor_derrota s) <= rating_rival_de u g) /\
  (peor_derrota s = ("", 9999) \/
   exists g, In g games /\ perdida g = true /\
             peor_derrota s = (rival_de u g, rating_rival_de u g)) /\
  snd (peor_derrota s) <= 9999.
Proof.
  cbv zeta.
  apply (pasada_rev_ind read_game dia_de u filtro_tc min_rating
           (fun games s =>
              (forall g, In g games -> perdida g = true ->
                         snd (peor_derrota s) <= rating_rival_de u g) /\
              (peor_derrota s = ("", 9999) \/
               exists g, In g games /\ perdida g = true /\
                         peor_derrota s
                         = (rival_de u g, rating_rival_de u g)) /\
              snd (peor_derrota s) <= 9999)).
  { split; [intros g []|]. split; [now left|cbn; lia]. }
  clear games. intros games g st (Hmin & Hor & H0).
  destruct (paso_extremos_clase st g) as (_ & ->).
  destruct (perdida g) eqn:Hg; cbn [andb].
  - destruct (rating_rival_de u g <? snd (peor_derrota st)) eqn:E;
      [apply Z.ltb_lt in E|apply Z.ltb_ge in E]; cbn [snd].
    + split; [|split; [|lia]].
      * intros g' Hin Hg'. apply in_app_or in Hin.
        destruct Hin as [Hin|[<-|[]]]; [|lia].
        specialize (Hmin g' Hin Hg'). lia.
      * right. exists g. split; [apply in_or_app; right; now left|].
        now split.
    + split; [|split; [|exact H0]].
      * intros g' Hin Hg'. apply in_app_or in Hin.
        destruct Hin as [Hin|[<-|[]]]; [now apply Hmin|exact E].
      * destruct Hor as [Hor|(g' & Hin & Hg' & Hor)]; [now left|].
        right. exists g'. split; [apply in_or_app; now left|now split].
  - split; [|split; [|exact H0]].
    + intros g' Hin Hg'. apply in_app_or in Hin.
      destruct Hin as [Hin|[<-|[]]]; [now apply Hmin|congruence].
    + destruct Hor as [Hor|(g' & Hin & Hg' & Hor)]; [now left|].
      right. exists g'. split; [apply in_or_app; now left|now split].
Qed.

End ExtremosRating.

(** X6.  At the end of the pass no analysed win is over an opponent
    rated above the best win, and the best win is either the initial
    pair or the opponent and rating of an analysed win; the report
    prints it exactly when some analysed win is over an opponent rated
    above 0. *)
Theorem mejor_victoria_es_maxima read_game dia_de u filtro_tc min_rating
    games :
  let s := pasada read_game dia_de u filtro_tc min_rating games in
  let ganada := es_ganada u filtro_tc min_rating in
  (forall g, In g games -> ganada g = true ->
             rating_rival_de u g <= snd (mejor_victoria s)) /\
  (mejor_victoria s = ("", 0) \/
   exists g, In g games /\ ganada g = true /\
             mejor_victoria s = (rival_de u g, rating_rival_de u g)) /\
  (mejor_victoria_impresa s <> None <->
   exists g, In g games /\ ganada g = true /\ 0 < rating_rival_de u g).
Proof.
  intros s ganada.
  destruct (mejor_victoria_pasada read_game dia_de u filtro_tc min_rating
              games) as (Hmax & Hor & H0).
  fold s in Hmax, Hor, H0. fold ganada in Hmax, Hor.
  split; [exact Hmax|]. split; [exact Hor|].
  unfold mejor_victoria_impresa.
  destruct (0 <? snd (mejor_victoria s)) eqn:E;
    [apply Z.ltb_lt in E|apply Z.ltb_ge in E].
  - split; [intros _|discriminate].
    destruct Hor as [Hor|(g & Hin & Hg & Hor)].
    + rewrite Hor in E. cbn in E. lia.
    + exists g. rewrite Hor in E. cbn [snd] in E. now repeat split.
  - split; [congruence|].
    intros (g & Hin & Hg & Hr). specialize (Hmax g Hin Hg). lia.
Qed.

(** X7.  At the end of the pass no analysed loss is to an opponent
    rated below the worst loss, which is at most 9999 and is either the
    initial pair or the opponent and rating of an analysed loss; the
    report prints it exactly when some analysed loss is to an opponent
    rated below 9999. *)
Theorem peor_derrota_es_minima read_game dia_de u filtro_tc min_rating
    games :
  let s := pasada read_game dia_de u filtro_tc min_rating games in
  let perdida := es_perdida u filtro_tc min_rating in
  (forall g, In g games -> perdida g = true ->
             snd (peor_derrota s) <= rating_rival_de u g) /\
  (peor_derrota s = ("", 9999) \/
   exists g, In g games /\ perdida g = true /\
             peor_derrota s = (rival_de u g, rating_rival_de u g)) /\
  (peor_derrota_impresa s <> None <->
   exists g, In g games /\ perdida g = true /\ rating_rival_de u g < 9999).
Proof.
  intros s perdida.
  destruct (peor_derrota_pasada read_game dia_de u filtro_tc min_rating
              games) as (Hmin & Hor & H0).
  fold s in Hmin, Hor, H0. fold perdida in Hmin, Hor.
  split; [exact Hmin|]. split; [exact Hor|].
  unfold peor_derrota_impresa.
  destruct (snd (peor_derrota s) <? 9999) eqn:E;
    [apply Z.ltb_lt in E|apply Z.ltb_ge in E].
  - split; [intros _|discriminate].
    destruct Hor as [Hor|(g & Hin & Hg & Hor)].
    + rewrite Hor in E. cbn in E. lia.
    + exists g. rewrite Hor in E. cbn [snd] in E. now repeat split.
  - split; [congruence|].
    intros (g & Hin & Hg & Hr). specialize (Hmin g Hin Hg). lia.
Qed.

(** ** Lengths of games *)

Section Longitudes.

Variable read_game : string -> PgnResult.
Variable dia_de : Z -> string.
Variable u : string.
Variable filtro_tc : option string.
Variable min_rating : Z.

Local Abbreviation paso := (procesar read_game dia_de u filtro_tc min_rating).
Local Abbreviation pasada' :=
  (pasada read_game dia_de u filtro_tc min_rating).
Local Abbreviation pasa' := (pasa u filtro_tc min_rating).

Local Abbreviation vista' := (vista read_game u filtro_tc min_rating).

Lemma paso_longitudes st g :
  let st' := paso st g in
  match vista' g with
  | Some (texto, moves) =>
      let jugadas := Z.of_nat (List.length moves) in
      total_jugadas st' = total_jugadas st + jugadas /\
      partida_corta st' =
        (if jugadas <? snd (partida_corta st) then (texto, jugadas)
         else partida_corta st) /\
      partida_larga st' =
        (if snd (partida_larga st) <? jugadas then (texto, jugadas)
         else partida_larga st)
  | None =>
      total_jugadas st' = total_jugadas st /\
      partida_corta st' = partida_corta st /\
      partida_larga st' = partida_larga st
  end.
Proof.
  intros st'. subst st'. unfold vista.
  destruct (pasa' g) eqn:Hp.
  - destruct (pasa_true u filtro_tc min_rating g Hp) as (Hf & Hb).
    unfold leida.
    destruct (pgn g) as [texto|] eqn:Hg.
    + destruct (read_game texto) as [| |moves] eqn:Hr.
      * destruct (paso_sin_transcripcion read_game dia_de u filtro_tc
                    min_rating st g Hf Hb) as (-> & -> & -> & _);
          [now rewrite Hg, Hr|now repeat split].
      * destruct (paso_sin_transcripcion read_game dia_de u filtro_tc
                    min_rating st g Hf Hb) as (-> & -> & -> & _);
          [now rewrite Hg, Hr|now repeat split].
      * destruct (paso_transcripcion read_game dia_de u filtro_tc
                    min_rating st g texto moves Hf Hb Hg Hr)
          as (-> & -> & -> & _).
        now repeat split.
    + destruct (paso_sin_transcripcion read_game dia_de u filtro_tc
                  min_rating st g Hf Hb) as (-> & -> & -> & _);
        [now rewrite Hg|now repeat split].
  - destruct (resumen_no_pasa read_game dia_de u filtro_tc min_rating st g
                Hp) as (_ & E).
    unfold resto in E. injection E as -> -> -> _ _ _ _ _. now repeat split.
Qed.

Lemma jugadas_de_vista g :
  pasa' g = true ->
  jugadas_de read_game g
  = match vista' g with
    | Some (_, moves) => Z.of_nat (List.length moves)
    | None => 0
    end.
Proof. intros Hp. unfold jugadas_de, vista. now rewrite Hp. Qed.

Lemma longitudes_pasada games :
  let s := pasada' games in
  (forall g texto moves,
     In g games -> vista' g = Some (texto, moves) ->
     snd (partida_corta s) <= Z.of_nat (List.length moves)
     <= snd (partida_larga s)) /\
  (partida_corta s = ("", 9999) \/
   exists g texto moves,
     In g games /\ vista' g = Some (texto, moves) /\
     partida_corta s = (texto, Z.of_nat (List.length moves))) /\
  (partida_larga s = ("", 0) \/
   exists g texto moves,
     In g games /\ vista' g = Some (texto, moves) /\
     partida_larga s = (texto, Z.of_nat (List.length moves))) /\
  snd (partida_corta s) <= 9999 /\ 0 <= snd (partida_larga s) /\
  total_jugadas s = suma (map (jugadas_de read_game) (List.filter pasa' games)).
Proof.
  cbv zeta.
  apply (pasada_rev_ind read_game dia_de u filtro_tc min_rating
           (fun games s =>
              (forall g texto moves,
                 In g games -> vista' g = Some (texto, moves) ->
                 snd (partida_corta s) <= Z.of_nat (List.length moves)
                 <= snd (partida_larga s)) /\
              (partida_corta s = ("", 9999) \/
               exists g texto moves,
                 In g games /\ vista' g = Some (texto, moves) /\
                 partida_corta s = (texto, Z.of_nat (List.length moves))) /\
              (partida_larga s = ("", 0) \/
               exists g texto moves,
                 In g games /\ vista' g = Some (texto, moves) /\
                 partida_larga s = (texto, Z.of_nat (List.length moves))) /\
              snd (partida_corta s) <= 9999 /\ 0 <= snd (partida_larga s) /\
              total_jugadas s
              = suma (map (jugadas_de read_game) (List.filter pasa' games)))).
  { split; [intros g t m []|]. split; [now left|]. split; [now left|].
    cbn. lia. }
  clear games. intros games g st (Hb & Hc & Hl & Hc9 & Hl0 & Ht).
  assert (Hsum : suma (map (jugadas_de read_game)
                         (List.filter pasa' (games ++ [g])%list))
                 = suma (map (jugadas_de read_game) (List.filter pasa' games))
                   + match vista' g with
                     | Some (_, moves) => Z.of_nat (List.length moves)
                     | None => 0
                     end).
  { rewrite filter_snoc, map_app. unfold suma at 1.
    rewrite fold_right_app. fold (suma (map (jugadas_de read_game)
                                          (if pasa' g then [g] else []))).
    assert (Hadd : forall l a,
               fold_right Z.add a l = suma l + a).
    { induction l as [|x l IH]; intros a; cbn; [lia|]. rewrite IH.
      unfold suma. lia. }
    rewrite Hadd. f_equal.
    destruct (pasa' g) eqn:Hp; cbn.
    - rewrite jugadas_de_vista by assumption. lia.
    - unfold vista. now rewrite Hp. }
  pose proof (paso_longitudes st g) as Hstep. cbv zeta in Hstep.
  rewrite Hsum.
  destruct (vista' g) as [[texto moves]|] eqn:Hv.
  - destruct Hstep as (-> & -> & ->).
    set (n := Z.of_nat (List.length moves)) in *.
    assert (Hmas : forall P : Game -> string -> list string -> Prop,
               (exists g' t m, In g' games /\ vista' g' = Some (t, m) /\ P g' t m) ->
               exists g' t m, In g' (games ++ [g])%list
                              /\ vista' g' = Some (t, m) /\ P g' t m).
    { intros P (g' & t & m & Hin & Hv' & HP). exists g', t, m.
      split; [apply in_or_app; now left|now split]. }
    assert (Hnuevo : In g (games ++ [g])%list)
      by (apply in_or_app; right; now left).
    destruct (n <? snd (partida_corta st)) eqn:Ec;
      [apply Z.ltb_lt in Ec|apply Z.ltb_ge in Ec];
      destruct (snd (partida_larga st) <? n) eqn:El;
      [apply Z.ltb_lt in El|apply Z.ltb_ge in El
      |apply Z.ltb_lt in El|apply Z.ltb_ge in El];
      cbn [snd];
      (split;
       [intros g' t m Hin Hv'; apply in_app_or in Hin;
        destruct Hin as [Hin|[<-|[]]];
        [specialize (Hb g' t m Hin Hv'); lia
        |rewrite Hv in Hv'; injection Hv' as <- <-; fold n; lia]
       |]);
      (split;
       [first [right; exists g, texto, moves; now repeat split
              |destruct Hc as [Hc|Hc]; [now left|right; now apply Hmas]]
       |]);
      (split;
       [first [right; exists g, texto, moves; now repeat split
              |destruct Hl as [Hl|Hl]; [now left|right; now apply Hmas]]
       |]);
      repeat split; lia.
  - destruct Hstep as (-> & -> & ->).
    split.
    { intros g' t m Hin Hv'. apply in_app_or in Hin.
      destruct Hin as [Hin|[<-|[]]]; [now apply (Hb g' t m)|congruence]. }
    split.
    { destruct Hc as [Hc|(g' & t & m & Hin & Hv' & Hc)]; [now left|].
      right. exists g', t, m. split; [apply in_or_app; now left|now split]. }
    split.
    { destruct Hl as [Hl|(g' & t & m & Hin & Hv' & Hl)]; [now left|].
      right. exists g', t, m. split; [apply in_or_app; now left|now split]. }
    repeat split; lia.
Qed.

Lemma suma_acotada (f : Game -> Z) (c : Z) l :
  (forall g, In g l -> 0 <= f g <= c) ->
  0 <= suma (map f l) <= Z.of_nat (List.length l) * c.
Proof.
  induction l as [|g l IH]; intros H; [cbn; lia|].
  cbn [map suma fold_right List.length].
  assert (Hg : 0 <= f g <= c) by (apply H; now left).
  assert (Hl : 0 <= suma (map f l) <= Z.of_nat (List.length l) * c).
  { apply IH. intros g' Hin. apply H. now right. }
  unfold suma in Hl. lia.
Qed.

End Longitudes.

(** X8.  At the end of the pass every analysed game whose transcript is
    read has at least as many half-moves as the shortest game recorded
    and at most as many as the longest; the shortest is the initial
    pair with 9999 or the transcript and count of such a game, and the
    longest the initial pair with 0 or the transcript and count of such
    a game. *)
Theorem partidas_corta_y_larga read_game dia_de u filtro_tc min_rating games :
  let s := pasada read_game dia_de u filtro_tc min_rating games in
  let vista := vista read_game u filtro_tc min_rating in
  (forall g texto moves,
     In g games -> vista g = Some (texto, moves) ->
     snd (partida_corta s) <= Z.of_nat (List.length moves)
     <= snd (partida_larga s)) /\
  (partida_corta s = ("", 9999) \/
   exists g texto moves,
     In g games /\ vista g = Some (texto, moves) /\
     partida_corta s = (texto, Z.of_nat (List.length moves))) /\
  (partida_larga s = ("", 0) \/
   exists g texto moves,
     In g games /\ vista g = Some (texto, moves) /\
     partida_larga s = (texto, Z.of_nat (List.length moves))).
Proof.
  intros s vista. subst s vista.
  destruct (longitudes_pasada read_game dia_de u filtro_tc min_rating games)
    as (H1 & H2 & H3 & _).
  split; [exact H1|]. split; [exact H2|exact H3].
Qed.

Lemma promedio_de_jugadas_aux read_game dia_de u filtro_tc min_rating games :
  let s := pasada read_game dia_de u filtro_tc min_rating games in
  total_jugadas s
  = suma (map (jugadas_de read_game)
            (List.filter (pasa u filtro_tc min_rating) games)) /\
  partidas_analizadas s = veces (pasa u filtro_tc min_rating) games.
Proof.
  intros s. split.
  - destruct (longitudes_pasada read_game dia_de u filtro_tc min_rating
                games) as (_ & _ & _ & _ & _ & Ht). exact Ht.
  - apply analizadas_pasada.
Qed.

(** X9.  The total of half-moves is the sum over the analysed games of
    the half-moves read from each, 0 for a game without a transcript
    that is read; the average that the report prints divides it by all
    the games analysed, and lies between 0 and the count of the longest
    game. *)
Theorem promedio_de_jugadas read_game dia_de u filtro_tc min_rating games :
  let s := pasada read_game dia_de u filtro_tc min_rating games in
  total_jugadas s
  = suma (map (jugadas_de read_game)
            (List.filter (pasa u filtro_tc min_rating) games)) /\
  (forall p, promedio_jugadas s = Some p ->
             0 <= p <= snd (partida_larga s)).
Proof.
  intros s.
  destruct (longitudes_pasada read_game dia_de u filtro_tc min_rating games)
    as (Hb & _ & _ & _ & Hl0 & Ht).
  fold s in Hb, Hl0, Ht. split; [exact Ht|].
  intros p. unfold promedio_jugadas.
  destruct (0 <? partidas_analizadas s) eqn:E; [|discriminate].
  intros [= <-]. apply Z.ltb_lt in E.
  pose proof (analizadas_pasada read_game dia_de u filtro_tc min_rating games)
    as Ha. fold s in Ha. unfold veces in Ha.
  assert (Hs : 0 <= total_jugadas s
               <= partidas_analizadas s * snd (partida_larga s)).
  { rewrite Ht, Ha. apply suma_acotada. intros g Hg.
    apply filter_In in Hg. destruct Hg as (Hin & Hp).
    rewrite (jugadas_de_vista read_game u filtro_tc min_rating g Hp).
    destruct (vista read_game u filtro_tc min_rating g)
      as [[t m]|] eqn:Hv; [|lia].
    specialize (Hb g t m Hin Hv). lia. }
  split.
  - apply Z.div_pos; lia.
  - apply Z.div_le_upper_bound; lia.
Qed.

(** ** The shortest and the longest game, over the whole input *)

Section Empates.

Variable read_game : string -> PgnResult.
Variable dia_de : Z -> string.
Variable u : string.
Variable filtro_tc : option string.
Variable min_rating : Z.

Local Abbreviation paso := (procesar read_game dia_de u filtro_tc min_rating).
Local Abbreviation pasada' :=
  (pasada read_game dia_de u filtro_tc min_rating).
Local Abbreviation vista' := (vista read_game u filtro_tc min_rating).





End Empates.



(** ** The categorical counters *)

Section Categorias.

Variable read_game : string -> PgnResult.
Variable dia_de : Z -> string.
Variable u : string.
Variable filtro_tc : option string.
Variable min_rating : Z.

Local Abbreviation paso := (procesar read_game dia_de u filtro_tc min_rating).
Local Abbreviation pasada' :=
  (pasada read_game dia_de u filtro_tc min_rating).
Local Abbreviation pasa' := (pasa u filtro_tc min_rating).
Local Abbreviation contada' := (contada read_game u filtro_tc min_rating).

Lemma incr_lookup k k' (c : gmap string Z) n :
  0 <= n ->
  c !! k = entrada_de n ->
  incr k' c !! k = entrada_de (n + (if String.eqb k' k then 1 else 0)).
Proof.
  intros Hn Hc. unfold incr.
  destruct (String.eqb k' k) eqn:E.
  - apply String.eqb_eq in E. subst k'. rewrite lookup_insert_eq, Hc.
    unfold entrada_de.
    destruct (n =? 0) eqn:E0; [apply Z.eqb_eq in E0; now subst n|].
    cbn [default]. destruct (n + 1 =? 0) eqn:E1; [|reflexivity].
    apply Z.eqb_eq in E1. lia.
  - apply String.eqb_neq in E. rewrite lookup_insert_ne by exact E.
    now rewrite Z.add_0_r.
Qed.

(** A field that starts empty and that each game increments under at
    most one key holds, for each key, the number of games counted under
    it. *)
Lemma contador_pasada (campo : Stats -> gmap string Z)
    (clave : Game -> option string) :
  campo stats_iniciales = ∅ ->
  (forall st g,
     campo (paso st g)
     = match clave g with
       | Some k => incr k (campo st)
       | None => campo st
       end) ->
  forall games k,
    campo (pasada' games) !! k = entrada_de (veces (bajo_clave clave k) games).
Proof.
  intros H0 Hstep games.
  apply (pasada_rev_ind read_game dia_de u filtro_tc min_rating
           (fun games s =>
              forall k,
                campo s !! k = entrada_de (veces (bajo_clave clave k) games))).
  { intros k. now rewrite H0. }
  clear games. intros games g st IH k.
  rewrite Hstep, veces_snoc. unfold bajo_clave at 2.
  destruct (clave g) as [k'|].
  - apply incr_lookup; [apply veces_no_negativo|apply IH].
  - rewrite Z.add_0_r. apply IH.
Qed.

Lemma contada_true g :
  contada' g = true ->
  pasa' g = true /\ lectura_falla read_game g = false.
Proof.
  unfold contada. destruct (pasa' g), (lectura_falla read_game g);
    cbn; intros H; now try discriminate.
Qed.

(** The categorical counters of lines 154-164 after one more game. *)
Lemma paso_contada st g :
  let st' := paso st g in
  if contada' g then
    time_controls st' = incr (tc_de g) (time_controls st) /\
    juegos_por_dia st' = incr (dia_semana_de dia_de g) (juegos_por_dia st) /\
    resultados_dia st' =
      <[dia_semana_de dia_de g :=
          incr (clave_resultado (resultado_de u g))
            (default ∅ (resultados_dia st !! dia_semana_de dia_de g))]>
        (resultados_dia st)
  else
    time_controls st' = time_controls st /\
    juegos_por_dia st' = juegos_por_dia st /\
    resultados_dia st' = resultados_dia st.
Proof.
  intros st'. subst st'.
  destruct (contada' g) eqn:Hc.
  - destruct (contada_true g Hc) as (Hp & Hl).
    destruct (pasa_true u filtro_tc min_rating g Hp) as (Hf & Hb).
    exact (paso_categorias read_game dia_de u filtro_tc min_rating st g
             Hf Hb Hl).
  - unfold contada in Hc. destruct (pasa' g) eqn:Hp.
    + destruct (pasa_true u filtro_tc min_rating g Hp) as (Hf & Hb).
      destruct (lectura_falla read_game g) eqn:Hl; [|discriminate Hc].
      rewrite paso_lectura_falla by assumption.
      pose proof (resto_previo u st g) as E. unfold resto in E.
      injection E as _ _ _ _ _ -> -> ->. now repeat split.
    + destruct (resumen_no_pasa read_game dia_de u filtro_tc min_rating st g
                  Hp) as (_ & E).
      unfold resto in E. injection E as _ _ _ _ _ -> -> ->.
      now repeat split.
Qed.

Lemma paso_tablas_por_tipo st g :
  tablas_por_tipo (paso st g)
  = match clave_tablas u filtro_tc min_rating g with
    | Some k => incr k (tablas_por_tipo st)
    | None => tablas_por_tipo st
    end.
Proof.
  unfold clave_tablas, es_tablas.
  destruct (pasa' g) eqn:Hp.
  - destruct (pasa_true u filtro_tc min_rating g Hp) as (Hf & Hb).
    destruct (paso_cuentas read_game dia_de u filtro_tc min_rating st g
                Hf Hb) as (_ & _ & _ & _ & _ & _ & ->).
    destruct (es_victoria (resultado_de u g)),
      (es_derrota (resultado_de u g)); reflexivity.
  - destruct (resumen_no_pasa read_game dia_de u filtro_tc min_rating st g
                Hp) as (E & _).
    injection E as _ _ _ _ _ _ _ _ _ _ _ _ _ ->. reflexivity.
Qed.

(** The two maps of openings after one more game. *)
Lemma paso_aperturas st g :
  let st' := paso st g in
  match clave_apertura read_game u filtro_tc min_rating g with
  | Some key =>
      aperturas st' = incr key (aperturas st) /\
      aperturas_con_resultados st' =
        sumar_total key
          (if es_victoria (resultado_de u g)
           then sumar_ganada key (aperturas_con_resultados st)
           else aperturas_con_resultados st)
  | None =>
      aperturas st' = aperturas st /\
      aperturas_con_resultados st' = aperturas_con_resultados st
  end.
Proof.
  intros st'. subst st'. unfold clave_apertura, vista.
  destruct (pasa' g) eqn:Hp.
  - destruct (pasa_true u filtro_tc min_rating g Hp) as (Hf & Hb).
    unfold leida.
    destruct (pgn g) as [texto|] eqn:Hg.
    + destruct (read_game texto) as [| |moves] eqn:Hr.
      * destruct (paso_sin_transcripcion read_game dia_de u filtro_tc
                    min_rating st g Hf Hb) as (_ & _ & _ & -> & ->);
          [now rewrite Hg, Hr|now split].
      * destruct (paso_sin_transcripcion read_game dia_de u filtro_tc
                    min_rating st g Hf Hb) as (_ & _ & _ & -> & ->);
          [now rewrite Hg, Hr|now split].
      * destruct (paso_transcripcion read_game dia_de u filtro_tc
                    min_rating st g texto moves Hf Hb Hg Hr)
          as (_ & _ & _ & -> & ->).
        destruct (no_vacia (apertura_key_de moves)); now split.
    + destruct (paso_sin_transcripcion read_game dia_de u filtro_tc
                  min_rating st g Hf Hb) as (_ & _ & _ & -> & ->);
        [now rewrite Hg|now split].
  - destruct (resumen_no_pasa read_game dia_de u filtro_tc min_rating st g
                Hp) as (_ & E).
    unfold resto in E. injection E as _ _ _ -> -> _ _ _. now split.
Qed.

End Categorias.

(** X10.  For every label, the time-control counter holds the number of
    games with that label that are analysed and whose transcript does
    not raise, and no entry when there is none; the weekday counter
    holds the same for every weekday name.  So a game whose transcript
    raises is in neither. *)
Theorem tc_y_dia_cuentan read_game dia_de u filtro_tc min_rating games k :
  let s := pasada read_game dia_de u filtro_tc min_rating games in
  time_controls s !! k
  = entrada_de
      (veces (bajo_clave (clave_tc read_game u filtro_tc min_rating) k)
         games) /\
  juegos_por_dia s !! k
  = entrada_de
      (veces (bajo_clave (clave_dia read_game dia_de u filtro_tc min_rating) k)
         games).
Proof.
  intros s. subst s. split.
  - apply (contador_pasada read_game dia_de u filtro_tc min_rating
             time_controls); [reflexivity|].
    intros st g.
    pose proof (paso_contada read_game dia_de u filtro_tc min_rating st g)
      as H. cbv zeta in H. unfold clave_tc.
    destruct (contada read_game u filtro_tc min_rating g); apply H.
  - apply (contador_pasada read_game dia_de u filtro_tc min_rating
             juegos_por_dia); [reflexivity|].
    intros st g.
    pose proof (paso_contada read_game dia_de u filtro_tc min_rating st g)
      as H. cbv zeta in H. unfold clave_dia.
    destruct (contada read_game u filtro_tc min_rating g); apply H.
Qed.

(** X11.  For every result code, the counter of draw types holds the
    number of analysed games drawn with that code, and no entry when
    there is none: a code that is a win or a loss never enters it. *)
Theorem tablas_por_tipo_cuenta read_game dia_de u filtro_tc min_rating games
    k :
  let s := pasada read_game dia_de u filtro_tc min_rating games in
  tablas_por_tipo s !! k
  = entrada_de
      (veces (bajo_clave (clave_tablas u filtro_tc min_rating) k) games) /\
  (outcome k <> Draw -> tablas_por_tipo s !! k = None).
Proof.
  intros s. subst s.
  assert (E : tablas_por_tipo
                (pasada read_game dia_de u filtro_tc min_rating games) !! k
              = entrada_de
                  (veces (bajo_clave (clave_tablas u filtro_tc min_rating) k)
                     games)).
  { apply (contador_pasada read_game dia_de u filtro_tc min_rating
             tablas_por_tipo); [reflexivity|].
    intros st g. apply paso_tablas_por_tipo. }
  split; [exact E|]. intros Hk. rewrite E. clear E.
  assert (Hn : List.filter
                 (bajo_clave (clave_tablas u filtro_tc min_rating) k) games
               = []).
  { induction games as [|g games IH]; [reflexivity|].
    cbn [List.filter].
    assert (Hg : bajo_clave (clave_tablas u filtro_tc min_rating) k g
                 = false).
    { unfold bajo_clave, clave_tablas, es_tablas.
      destruct (pasa u filtro_tc min_rating g); [|reflexivity].
      cbn [andb].
      destruct (es_victoria (resultado_de u g)) eqn:Ev; [reflexivity|].
      destruct (es_derrota (resultado_de u g)) eqn:Ed; [reflexivity|].
      cbn [andb negb].
      destruct (String.eqb (resultado_de u g) k) eqn:Ek; [|reflexivity].
      apply String.eqb_eq in Ek. subst k. exfalso. apply Hk.
      unfold outcome. now rewrite Ev, Ed. }
    rewrite Hg. apply IH. }
  unfold veces. now rewrite Hn.
Qed.

(** ** Totals of the categorical counters *)

Lemma total_de_vacio : total_de ∅ = 0.
Proof. apply map_fold_empty. Qed.

Lemma total_de_insert k v (c : gmap string Z) :
  c !! k = None -> total_de (<[k := v]> c) = v + total_de c.
Proof.
  intros H. unfold total_de. apply map_fold_insert_L; [|exact H].
  intros. lia.
Qed.

Lemma total_de_incr k (c : gmap string Z) :
  total_de (incr k c) = total_de c + 1.
Proof.
  unfold incr. destruct (c !! k) as [v|] eqn:E; cbn [default].
  - rewrite <- insert_delete_eq.
    rewrite total_de_insert by apply lookup_delete_eq.
    unfold total_de at 2.
    rewrite (map_fold_delete_L _ _ k v c);
      [unfold total_de, id; lia| |exact E].
    intros. lia.
  - rewrite total_de_insert by exact E. lia.
Qed.

Lemma cuenta_incr k (c : gmap string Z) :
  cuenta k (incr k c) = cuenta k c + 1.
Proof. unfold cuenta, incr. now rewrite lookup_insert_eq. Qed.

Lemma cuenta_incr_ne k k' (c : gmap string Z) :
  k' <> k -> cuenta k (incr k' c) = cuenta k c.
Proof. intros H. unfold cuenta, incr. now rewrite lookup_insert_ne. Qed.

Section Totales.

Variable read_game : string -> PgnResult.
Variable dia_de : Z -> string.
Variable u : string.
Variable filtro_tc : option string.
Variable min_rating : Z.

Local Abbreviation paso := (procesar read_game dia_de u filtro_tc min_rating).
Local Abbreviation pasada' :=
  (pasada read_game dia_de u filtro_tc min_rating).
Local Abbreviation contada' := (contada read_game u filtro_tc min_rating).

Lemma totales_pasada games :
  let s := pasada' games in
  total_de (time_controls s) = veces contada' games /\
  total_de (juegos_por_dia s) = veces contada' games /\
  total_de (tablas_por_tipo s) = tablas s /\
  (forall d,
     total_de (default ∅ (resultados_dia s !! d))
     = cuenta d (juegos_por_dia s)).
Proof.
  cbv zeta.
  apply (pasada_rev_ind read_game dia_de u filtro_tc min_rating
           (fun games s =>
              total_de (time_controls s) = veces contada' games /\
              total_de (juegos_por_dia s) = veces contada' games /\
              total_de (tablas_por_tipo s) = tablas s /\
              (forall d,
                 total_de (default ∅ (resultados_dia s !! d))
                 = cuenta d (juegos_por_dia s)))).
  { repeat split; try apply total_de_vacio. }
  clear games. intros games g st (Ht & Hj & Htt & Hd).
  rewrite veces_snoc.
  pose proof (paso_contada read_game dia_de u filtro_tc min_rating st g)
    as Hc. cbv zeta in Hc.
  pose proof (paso_tablas_por_tipo read_game dia_de u filtro_tc min_rating
                st g) as Hp.
  destruct (paso_contadores read_game dia_de u filtro_tc min_rating st g)
    as (_ & _ & _ & Etab & _).
  assert (Htt' : total_de (tablas_por_tipo (paso st g)) = tablas (paso st g)).
  { rewrite Hp, Etab. unfold clave_tablas.
    destruct (es_tablas u filtro_tc min_rating g);
      [rewrite total_de_incr|]; lia. }
  destruct (contada' g).
  - destruct Hc as (-> & -> & ->). rewrite !total_de_incr.
    repeat split; try lia; try exact Htt'.
    intros d.
    destruct (decide (dia_semana_de dia_de g = d)) as [<-|Hne].
    + rewrite lookup_insert_eq. cbn [default from_option id].
      rewrite total_de_incr, Hd, cuenta_incr. reflexivity.
    + rewrite lookup_insert_ne by exact Hne.
      rewrite cuenta_incr_ne by exact Hne. apply Hd.
  - destruct Hc as (-> & -> & ->).
    repeat split; try lia; try exact Htt'. exact Hd.
Qed.

End Totales.

(** X12.  The counts of the time-control counter add up to the counts
    of the weekday counter, and both to the number of games that are
    analysed and whose transcript does not raise: the games analysed
    less those whose transcript raises.  The counts of the draw types
    add up to the draws. *)
Theorem totales_de_categorias read_game dia_de u filtro_tc min_rating games :
  let s := pasada read_game dia_de u filtro_tc min_rating games in
  total_de (time_controls s) = total_de (juegos_por_dia s) /\
  total_de (time_controls s)
  = partidas_analizadas s
    - veces (fun g => pasa u filtro_tc min_rating g
                      && lectura_falla read_game g) games /\
  total_de (tablas_por_tipo s) = tablas s.
Proof.
  intros s.
  destruct (totales_pasada read_game dia_de u filtro_tc min_rating games)
    as (Ht & Hj & Htt & _). fold s in Ht, Hj, Htt.
  pose proof (analizadas_pasada read_game dia_de u filtro_tc min_rating games)
    as Ha. fold s in Ha.
  split; [congruence|]. split; [|exact Htt].
  rewrite Ht, Ha. clear. unfold veces, contada.
  induction games as [|g games IH]; [reflexivity|].
  cbn [List.filter].
  destruct (pasa u filtro_tc min_rating g),
    (lectura_falla read_game g); cbn [andb negb List.length]; lia.
Qed.

(** X13.  For every weekday, the outcome counts of the day add up to
    the games counted for the day: the total per day that the
    recommendations compute is the day's entry of the weekday
    counter. *)
Theorem resultados_del_dia_suman read_game dia_de u filtro_tc min_rating
    games d :
  let s := pasada read_game dia_de u filtro_tc min_rating games in
  total_de (default ∅ (resultados_dia s !! d)) = cuenta d (juegos_por_dia s).
Proof.
  intros s.
  destruct (totales_pasada read_game dia_de u filtro_tc min_rating games)
    as (_ & _ & _ & Hd). apply Hd.
Qed.

(** ** The two maps of openings *)

Section Aperturas.

Variable read_game : string -> PgnResult.
Variable dia_de : Z -> string.
Variable u : string.
Variable filtro_tc : option string.
Variable min_rating : Z.

Local Abbreviation paso := (procesar read_game dia_de u filtro_tc min_rating).
Local Abbreviation pasada' :=
  (pasada read_game dia_de u filtro_tc min_rating).
Local Abbreviation clave :=
  (clave_apertura read_game u filtro_tc min_rating).

Lemma veces_y_le (p q : Game -> bool) games :
  0 <= veces (fun g => p g && q g) games <= veces p games.
Proof.
  unfold veces. induction games as [|g games IH]; [cbn; lia|].
  cbn [List.filter]. destruct (p g), (q g); cbn [andb List.length]; lia.
Qed.

Lemma sumar_lookup key k (d : gmap string Apertura.t) (gana : bool) w n :
  0 <= w <= n ->
  d !! k = apertura_de w n ->
  sumar_total key (if gana then sumar_ganada key d else d) !! k
  = apertura_de (w + (if String.eqb key k && gana then 1 else 0))
      (n + (if String.eqb key k then 1 else 0)).
Proof.
  intros Hw Hd. unfold sumar_total, sumar_ganada.
  destruct (String.eqb key k) eqn:E.
  - apply String.eqb_eq in E. subst key. cbn [andb].
    assert (Ha : default Apertura.nueva (d !! k) = Apertura.mk w n).
    { rewrite Hd. unfold apertura_de.
      destruct (n =? 0) eqn:E0; [|reflexivity].
      apply Z.eqb_eq in E0. cbn. unfold Apertura.nueva. f_equal; lia. }
    assert (Hn : apertura_de (w + (if gana then 1 else 0)) (n + 1)
                 = Some (Apertura.mk (w + (if gana then 1 else 0)) (n + 1))).
    { unfold apertura_de. destruct (n + 1 =? 0) eqn:E1; [|reflexivity].
      apply Z.eqb_eq in E1. lia. }
    rewrite Hn. destruct gana.
    + rewrite !lookup_insert_eq. cbn [default from_option id].
      rewrite Ha. reflexivity.
    + rewrite lookup_insert_eq, Ha. cbn [Apertura.ganadas Apertura.total].
      do 2 f_equal. lia.
  - apply String.eqb_neq in E. cbn [andb]. rewrite !Z.add_0_r.
    destruct gana; rewrite ?lookup_insert_ne by exact E; exact Hd.
Qed.

Lemma aperturas_pasada games k :
  let s := pasada' games in
  let n := veces (bajo_clave clave k) games in
  let w :=
    veces (fun g => bajo_clave clave k g && es_victoria (resultado_de u g))
      games in
  aperturas s !! k = entrada_de n /\
  aperturas_con_resultados s !! k = apertura_de w n.
Proof.
  cbv zeta. split.
  - apply (contador_pasada read_game dia_de u filtro_tc min_rating
             aperturas); [reflexivity|].
    intros st g.
    pose proof (paso_aperturas read_game dia_de u filtro_tc min_rating st g)
      as H. cbv zeta in H. destruct (clave g); apply H.
  - revert k.
    apply (pasada_rev_ind read_game dia_de u filtro_tc min_rating
             (fun games s =>
                forall k,
                  aperturas_con_resultados s !! k
                  = apertura_de
                      (veces (fun g => bajo_clave clave k g
                                       && es_victoria (resultado_de u g))
                         games)
                      (veces (bajo_clave clave k) games))).
    { intros k. reflexivity. }
    clear games. intros games g st IH k.
    pose proof (paso_aperturas read_game dia_de u filtro_tc min_rating st g)
      as H. cbv zeta in H.
    rewrite !veces_snoc. unfold bajo_clave at 2 4.
    destruct (clave g) as [key|].
    + destruct H as (_ & ->).
      apply sumar_lookup; [apply veces_y_le|apply IH].
    + destruct H as (_ & ->). rewrite !Z.add_0_r. apply IH.
Qed.

Lemma sin_clave_vacia g : bajo_clave clave "" g = false.
Proof.
  unfold bajo_clave, clave_apertura.
  destruct (vista read_game u filtro_tc min_rating g) as [[t m]|];
    [|reflexivity].
  unfold no_vacia.
  destruct (String.eqb (apertura_key_de m) "") eqn:E; cbn [negb];
    [reflexivity|exact E].
Qed.

End Aperturas.

(** X14.  The two maps of openings agree at the end of the pass.  For
    every key, the play count is the number of analysed games read with
    that opening key, with no entry when there is none; the entry of
    results holds that number as its total and the wins among those
    games as its wins, which lie between 0 and the total, and it is
    there exactly when the play count is; and the empty key is never
    stored. *)
Theorem aperturas_coherentes read_game dia_de u filtro_tc min_rating games k :
  let s := pasada read_game dia_de u filtro_tc min_rating games in
  let clave := clave_apertura read_game u filtro_tc min_rating in
  let n := veces (bajo_clave clave k) games in
  let w :=
    veces (fun g => bajo_clave clave k g && es_victoria (resultado_de u g))
      games in
  aperturas s !! k = entrada_de n /\
  aperturas_con_resultados s !! k = apertura_de w n /\
  Apertura.total (entrada k (aperturas_con_resultados s))
  = cuenta k (aperturas s) /\
  0 <= Apertura.ganadas (entrada k (aperturas_con_resultados s))
  <= Apertura.total (entrada k (aperturas_con_resultados s)) /\
  aperturas s !! "" = None.
Proof.
  intros s clave n w.
  destruct (aperturas_pasada read_game dia_de u filtro_tc min_rating games k)
    as (Ea & Er).
  fold s in Ea, Er. fold clave in Ea, Er. fold n in Ea, Er. fold w in Er.
  pose proof (veces_y_le (bajo_clave clave k)
                (fun g => es_victoria (resultado_de u g)) games) as Hw.
  fold n in Hw. fold w in Hw.
  split; [exact Ea|]. split; [exact Er|].
  unfold entrada, cuenta. rewrite Ea, Er. unfold entrada_de, apertura_de.
  split; [|split].
  - destruct (n =? 0) eqn:E; [apply Z.eqb_eq in E; cbn; lia|reflexivity].
  - destruct (n =? 0) eqn:E; cbn; lia.
  - destruct (aperturas_pasada read_game dia_de u filtro_tc min_rating
                games "") as (E0 & _).
    fold s in E0. rewrite E0.
    replace (veces (bajo_clave
                      (clave_apertura read_game u filtro_tc min_rating) "")
               games) with 0; [reflexivity|].
    unfold veces. clear. induction games as [|g games IH]; [reflexivity|].
    cbn [List.filter]. now rewrite sin_clave_vacia.
Qed.

(** * Retrieval *)

Lemma descargar_descargadas get urls :
  forall partidas,
    descargar get urls partidas
    = ((partidas ++ descargadas get urls)%list, todas_responden get urls).
Proof.
  induction urls as [|url_mes mas IH]; intros partidas;
    cbn [descargar descargadas todas_responden forallb].
  - now rewrite app_nil_r.
  - destruct (get url_mes) as [games|] eqn:E.
    + rewrite IH, <- app_assoc. f_equal.
    + now rewrite app_nil_r.
Qed.

(** X15.  The months downloaded are the last [meses_a_analizar]
    archives when that number is positive, all of them when there are
    no more; with 0 the slice takes every archive, and with a negative
    number it drops that many archives from the front. *)
Theorem meses_descargados {A} (n : Z) (archivos : list A) :
  (0 < n ->
   ultimos n archivos
   = drop (List.length archivos - Z.to_nat n) archivos /\
   List.length (ultimos n archivos)
   = Nat.min (Z.to_nat n) (List.length archivos)) /\
  (Z.of_nat (List.length archivos) <= n -> ultimos n archivos = archivos) /\
  ultimos 0 archivos = archivos /\
  (n < 0 -> ultimos n archivos = drop (Z.to_nat (- n)) archivos).
Proof.
  unfold ultimos. split; [|split; [|split]].
  - intros Hn. destruct (- n <? 0) eqn:E; [|apply Z.ltb_ge in E; lia].
    assert (Hs : Z.to_nat (Z.max (- n + Z.of_nat (List.length archivos)) 0)
                 = (List.length archivos - Z.to_nat n)%nat) by lia.
    rewrite Hs. split; [reflexivity|]. rewrite length_drop. lia.
  - intros Hn. destruct (- n <? 0) eqn:E.
    + replace (Z.to_nat (Z.max (- n + Z.of_nat (List.length archivos)) 0))
        with 0%nat by lia. reflexivity.
    + apply Z.ltb_ge in E.
      assert (Hl : List.length archivos = 0%nat) by lia.
      destruct archivos; [now rewrite drop_nil|discriminate].
  - change (- 0 <? 0) with false. cbv iota.
    replace (Z.to_nat (Z.min (- 0) (Z.of_nat (List.length archivos))))
      with 0%nat by lia. reflexivity.
  - intros Hn. destruct (- n <? 0) eqn:E; [apply Z.ltb_lt in E; lia|].
    destruct (Z.min_spec (- n) (Z.of_nat (List.length archivos)))
      as [[_ ->]|[Hge ->]]; [reflexivity|].
    rewrite Nat2Z.id. rewrite !drop_ge; [reflexivity|lia|lia].
Qed.

(** X16.  A retrieval never rolls back: after [obtener_partidas] the
    games held are the games held before followed by the games of the
    requested months whose download succeeded, up to the first failed
    request; the call returns [True] exactly when the archive list and
    every requested month were obtained; and the user name and the
    stored snapshot are untouched. *)
Theorem obtener_partidas_acumula archivos get self meses :
  let '(self', ok) := obtener_partidas archivos get self meses in
  user self' = user self /\ stats self' = stats self /\
  match archivos with
  | None => partidas self' = partidas self /\ ok = false
  | Some a =>
      partidas self'
      = (partidas self ++ descargadas get (ultimos meses a))%list /\
      ok = todas_responden get (ultimos meses a)
  end.
Proof.
  unfold obtener_partidas. destruct archivos as [a|]; [|now repeat split].
  rewrite descargar_descargadas. now repeat split.
Qed.

(** * Choosing a game *)

Lemma listado_lookup self i g :
  (i, g) ∈ listado self <->
  exists j, i = Z.of_nat (S j) /\ (j < List.length (partidas self))%nat /\
            partidas self !! (List.length (partidas self) - S j)%nat = Some g.
Proof.
  unfold listado. rewrite elem_of_lookup_imap. split.
  - intros (j & y & E & Hy). injection E as -> ->.
    apply reverse_lookup_Some in Hy. destruct Hy as (Hy & Hj).
    exists j. now repeat split.
  - intros (j & -> & Hj & Hg). exists j, g. split; [reflexivity|].
    apply reverse_lookup_Some. now split.
Qed.

(** X17.  Typing the number shown beside a game in the listing selects
    that game: its details are printed, and its transcript when it has
    one. *)
Theorem seleccion_muestra_la_listada self opcion g :
  isdigit opcion = true ->
  (String.length opcion <= 4300)%nat ->
  (int_de opcion, g) ∈ listado self ->
  seleccionar_partida self opcion = mostrar g.
Proof.
  intros Hd _ Hin. apply listado_lookup in Hin.
  destruct Hin as (j & Hi & Hj & Hg).
  unfold seleccionar_partida. rewrite Hd.
  destruct (partidas self) as [|g0 l] eqn:Hp; [cbn in Hj; lia|].
  rewrite Hi. cbv zeta.
  set (n := List.length (g0 :: l)) in *.
  assert (Hidx : Z.of_nat n - Z.of_nat (S j) = Z.of_nat (n - S j)) by lia.
  rewrite Hidx, Nat2Z.id, Hg.
  destruct (0 <=? Z.of_nat (n - S j)) eqn:E1;
    [|apply Z.leb_gt in E1; lia].
  destruct (Z.of_nat (n - S j) <? Z.of_nat n) eqn:E2;
    [reflexivity|apply Z.ltb_ge in E2; lia].
Qed.

Lemma seleccion_ejemplo :
  (isdigit "1" = true /\ (String.length "1" <= 4300)%nat /\
   (int_de "1", partida_180) ∈ listado analizador_ejemplo) /\
  seleccionar_partida analizador_ejemplo "1" = ErrorClave partida_180.
Proof.
  assert (Hin : (int_de "1", partida_180) ∈ listado analizador_ejemplo).
  { apply listado_lookup. exists 0%nat. repeat split. cbn. lia. }
  split; [split; [reflexivity|split; [cbn; lia|exact Hin]]|].
  exact (seleccion_muestra_la_listada analizador_ejemplo "1" partida_180
           eq_refl ltac:(cbn; lia) Hin).
Defined.

(** X18.  The details of a game are printed only for a number of the
    listing: whenever a game is shown, the text typed is a string of
    digits and its value is the number shown beside that game. *)
Theorem seleccion_solo_de_la_lista self opcion g :
  es_ascii opcion = true ->
  (String.length opcion <= 4300)%nat ->
  seleccionar_partida self opcion = Detalles g \/
  seleccionar_partida self opcion = ErrorClave g ->
  isdigit opcion = true /\ (int_de opcion, g) ∈ listado self.
Proof.
  intros _ _ H. unfold seleccionar_partida in H.
  destruct (partidas self) as [|g0 l] eqn:Hp;
    [destruct H; discriminate|].
  destruct (isdigit opcion); [|destruct H; discriminate].
  split; [reflexivity|]. cbv zeta in H.
  set (n := List.length (g0 :: l)) in *.
  destruct (0 <=? Z.of_nat n - int_de opcion) eqn:E1;
    [apply Z.leb_le in E1|destruct H; discriminate].
  destruct (Z.of_nat n - int_de opcion <? Z.of_nat n) eqn:E2;
    [apply Z.ltb_lt in E2|destruct H; discriminate].
  cbn [andb] in H.
  destruct ((g0 :: l) !! Z.to_nat (Z.of_nat n - int_de opcion))
    as [g'|] eqn:Hg; [|destruct H; discriminate].
  assert (Hgg : g' = g).
  { unfold mostrar in H. destruct (pgn g'); destruct H as [H|H];
      congruence. }
  subst g'. apply listado_lookup. rewrite Hp. fold n.
  exists (Z.to_nat (int_de opcion - 1)).
  split; [lia|]. split; [lia|].
  replace (n - S (Z.to_nat (int_de opcion - 1)))%nat
    with (Z.to_nat (Z.of_nat n - int_de opcion)) by lia.
  exact Hg.
Qed.

Lemma seleccion_solo_ejemplo :
  (es_ascii "2" = true /\ (String.length "2" <= 4300)%nat /\
   seleccionar_partida analizador_ejemplo "2" = ErrorClave partida_600) /\
  isdigit "2" = true /\ (int_de "2", partida_600) ∈ listado analizador_ejemplo.
Proof.
  split; [split; [reflexivity|split; [cbn; lia|reflexivity]]|].
  exact (seleccion_solo_de_la_lista analizador_ejemplo "2" partida_600
           eq_refl ltac:(cbn; lia) (or_intror eq_refl)).
Defined.

(** * The weekday histogram *)

(** X19.  When there are no games the pass stores nothing, and the
    histogram then raises [KeyError] on the empty store, where the
    report only declines to print and derives no rate. *)
Theorem histograma_sin_partidas read_game dia_de self filtro_tc min_rating :
  partidas self = [] ->
  stats self = None ->
  let self' := analizar_partidas read_game dia_de self filtro_tc min_rating in
  histograma_dias self' = HistErrorClave /\ winrate_global self' = None.
Proof.
  intros Hp Hs self'. subst self'. unfold analizar_partidas. rewrite Hp.
  unfold histograma_dias, winrate_global. now rewrite Hs.
Qed.

Lemma histograma_sin_partidas_ejemplo :
  (partidas (init "User") = [] /\ stats (init "User") = None) /\
  histograma_dias
    (analizar_partidas lector_ejemplo dia_fijo (init "User") None 0)
  = HistErrorClave.
Proof.
  split; [split; reflexivity|].
  exact (proj1 (histograma_sin_partidas lector_ejemplo dia_fijo
                  (init "User") None 0 eq_refl eq_refl)).
Defined.

Lemma juegos_por_dia_de_otro_nombre read_game dia_de u filtro_tc min_rating
    games n :
  (forall t, dia_de t <> n) ->
  juegos_por_dia (pasada read_game dia_de u filtro_tc min_rating games) !! n
  = None.
Proof.
  intros Hn.
  rewrite (contador_pasada read_game dia_de u filtro_tc min_rating
             juegos_por_dia
             (clave_dia read_game dia_de u filtro_tc min_rating));
    [|reflexivity|].
  2:{ intros st g.
      pose proof (paso_contada read_game dia_de u filtro_tc min_rating st g)
        as H. cbv zeta in H. unfold clave_dia.
      destruct (contada read_game u filtro_tc min_rating g); apply H. }
  replace (veces
             (bajo_clave
                (clave_dia read_game dia_de u filtro_tc min_rating) n) games)
    with 0; [reflexivity|].
  unfold veces. induction games as [|g games IH]; [reflexivity|].
  cbn [List.filter].
  assert (Hg : bajo_clave (clave_dia read_game dia_de u filtro_tc min_rating)
                 n g = false).
  { unfold bajo_clave, clave_dia.
    destruct (contada read_game u filtro_tc min_rating g); [|reflexivity].
    apply String.eqb_neq. apply Hn. }
  now rewrite Hg.
Qed.

(** X20.  The histogram looks the weekday counter up under the seven
    Spanish day names.  When the day names that the environment gives
    are none of those, as with English names, every look-up finds
    nothing: after a pass over any games, the histogram reports that
    there is no data. *)
Theorem histograma_con_otros_nombres read_game dia_de self filtro_tc
    min_rating :
  (forall t, ~ In (dia_de t) nombres_dias) ->
  partidas self <> [] ->
  histograma_dias
    (analizar_partidas read_game dia_de self filtro_tc min_rating)
  = HistSinDatos.
Proof.
  intros Hn Hp. unfold analizar_partidas.
  destruct (partidas self) as [|g0 l] eqn:E; [contradiction|].
  unfold histograma_dias. cbn [stats].
  set (s := pasada read_game dia_de (user self) filtro_tc min_rating
              (g0 :: l)).
  assert (H0 : map (fun n => (n, default 0 (juegos_por_dia s !! n)))
                 nombres_dias
               = map (fun n => (n, 0)) nombres_dias).
  { apply map_ext_in. intros n Hin. subst s.
    rewrite juegos_por_dia_de_otro_nombre; [reflexivity|].
    intros t Ht. apply (Hn t). now rewrite Ht. }
  cbv zeta. rewrite H0. reflexivity.
Qed.

Lemma histograma_otros_nombres_ejemplo :
  ((forall t, ~ In (dia_fijo t) nombres_dias) /\
   partidas analizador_ejemplo <> []) /\
  histograma_dias
    (analizar_partidas lector_ejemplo dia_fijo analizador_ejemplo None 0)
  = HistSinDatos.
Proof.
  assert (Hn : forall t, ~ In (dia_fijo t) nombres_dias).
  { intros t H. cbv [dia_fijo nombres_dias In] in H.
    repeat destruct H as [H|H]; try discriminate H. exact H. }
  assert (Hp : partidas analizador_ejemplo <> []) by discriminate.
  split; [split; assumption|].
  exact (histograma_con_otros_nombres lector_ejemplo dia_fijo
           analizador_ejemplo None 0 Hn Hp).
Defined.

(** * The most frequent opponent *)

Lemma buscar_anotar x y items :
  buscar y (anotar x items)
  = buscar y items + (if String.eqb x y then 1 else 0).
Proof.
  induction items as [|[z n] mas IH]; cbn [anotar buscar].
  - destruct (String.eqb x y); lia.
  - destruct (String.eqb z x) eqn:Ezx; cbn [buscar].
    + apply String.eqb_eq in Ezx. subst z.
      destruct (String.eqb x y); lia.
    + destruct (String.eqb z y) eqn:Ezy; [|exact IH].
      apply String.eqb_eq in Ezy. subst z. rewrite String.eqb_sym, Ezx. lia.
Qed.

Lemma buscar_items l :
  forall items,
    buscar l.1 (fold_left (fun items x => anotar x items) l.2 items)
    = buscar l.1 items + ocurrencias l.1 l.2.
Proof.
  destruct l as [y l]. cbn [fst snd].
  induction l as [|x l IH]; intros items; cbn [fold_left].
  - unfold ocurrencias. cbn. lia.
  - rewrite IH, buscar_anotar. unfold ocurrencias. cbn [List.filter].
    rewrite (String.eqb_sym y x).
    destruct (String.eqb x y); cbn [List.length]; lia.
Qed.

Lemma buscar_items_de y l : buscar y (items_de l) = ocurrencias y l.
Proof. unfold items_de. now rewrite (buscar_items (y, l)). Qed.

Lemma claves_anotar x items y :
  In y (map fst (anotar x items)) <-> y = x \/ In y (map fst items).
Proof.
  induction items as [|[z n] mas IH]; cbn [anotar map fst In].
  - intuition.
  - destruct (String.eqb z x) eqn:E; cbn [map fst In].
    + apply String.eqb_eq in E. subst z. intuition.
    + rewrite IH. intuition.
Qed.

Lemma claves_distintas_anotar x items :
  List.NoDup (map fst items) -> List.NoDup (map fst (anotar x items)).
Proof.
  induction items as [|[z n] mas IH]; cbn [anotar map fst]; intros H.
  - apply List.NoDup_cons; [intros []|apply List.NoDup_nil].
  - apply List.NoDup_cons_iff in H. destruct H as (Hz & Hm).
    destruct (String.eqb z x) eqn:E; cbn [map fst].
    + now apply List.NoDup_cons.
    + apply String.eqb_neq in E. apply List.NoDup_cons; [|now apply IH].
      rewrite claves_anotar. intros [->|H]; [now apply E|now apply Hz].
Qed.

Lemma claves_distintas_items l : List.NoDup (map fst (items_de l)).
Proof.
  unfold items_de.
  assert (H : forall items,
             List.NoDup (map fst items) ->
             List.NoDup (map fst (fold_left (fun items x => anotar x items) l
                               items))).
  { induction l as [|x l IH]; intros items Hi; [exact Hi|].
    cbn [fold_left]. now apply IH, claves_distintas_anotar. }
  apply H. apply List.NoDup_nil.
Qed.

Lemma buscar_de_item items y n :
  List.NoDup (map fst items) -> In (y, n) items -> buscar y items = n.
Proof.
  induction items as [|[z m] mas IH]; intros Hd Hin; [destruct Hin|].
  cbn [map fst] in Hd. apply List.NoDup_cons_iff in Hd.
  destruct Hd as (Hz & Hm). cbn [buscar].
  destruct Hin as [E|Hin].
  - injection E as -> ->. now rewrite String.eqb_refl.
  - destruct (String.eqb z y) eqn:E; [|now apply IH].
    apply String.eqb_eq in E. subst z. exfalso. apply Hz.
    apply in_map_iff. now exists (y, n).
Qed.

Lemma item_de_buscar items y :
  buscar y items <> 0 -> In (y, buscar y items) items.
Proof.
  induction items as [|[z m] mas IH]; cbn [buscar]; intros H; [congruence|].
  destruct (String.eqb z y) eqn:E.
  - apply String.eqb_eq in E. subst z. now left.
  - right. now apply IH.
Qed.

Lemma primero_mayor_es_maximo items :
  forall mejor,
    In (primero_mayor mejor items) (mejor :: items) /\
    (forall it, In it (mejor :: items) ->
                snd it <= snd (primero_mayor mejor items)).
Proof.
  induction items as [|it0 mas IH]; intros mejor; cbn [primero_mayor].
  - split; [now left|]. intros it [<-|[]]. lia.
  - destruct (IH (if snd mejor <? snd it0 then it0 else mejor))
      as (Hin & Hmax).
    split.
    + destruct Hin as [E|Hin]; [|right; now right].
      rewrite <- E. destruct (snd mejor <? snd it0);
        [right; now left|now left].
    + intros it Hit.
      assert (Hb : snd mejor
                   <= snd (if snd mejor <? snd it0 then it0 else mejor)
                   /\ snd it0
                      <= snd (if snd mejor <? snd it0 then it0 else mejor)).
      { destruct (snd mejor <? snd it0) eqn:E;
          [apply Z.ltb_lt in E|apply Z.ltb_ge in E]; lia. }
      pose proof (Hmax _ (or_introl eq_refl)) as H0.
      destruct Hit as [<-|[<-|Hit]]; [lia|lia|].
      apply Hmax. now right.
Qed.

Lemma ocurrencias_positivas y l : 0 < ocurrencias y l <-> In y l.
Proof.
  unfold ocurrencias. induction l as [|x l IH]; cbn [List.filter In].
  - cbn. split; [lia|intros []].
  - destruct (String.eqb y x) eqn:E.
    + apply String.eqb_eq in E. subst x. cbn [List.length].
      split; [now left|lia].
    + apply String.eqb_neq in E. rewrite IH.
      split; [now right|intros [H|H]; [congruence|exact H]].
Qed.

(** X21.  The opponent that the report prints as the most frequent is
    an opponent of the list, printed with the number of times it is in
    the list, and no opponent is in the list more often; nothing is
    printed exactly when the list is empty. *)
Theorem rival_frecuente_es_el_mas_repetido (s : Stats) :
  (rival_frecuente s = None <-> rivales s = []) /\
  (forall r n,
     rival_frecuente s = Some (r, n) ->
     In r (rivales s) /\ n = ocurrencias r (rivales s) /\
     forall r', ocurrencias r' (rivales s) <= n).
Proof.
  unfold rival_frecuente. set (l := rivales s). split.
  - split.
    + intros H. destruct l as [|x l']; [reflexivity|exfalso].
      assert (Hx : 0 < buscar x (items_de (x :: l'))).
      { rewrite buscar_items_de. apply ocurrencias_positivas. now left. }
      destruct (items_de (x :: l')) as [|it mas]; [cbn in Hx; lia|].
      discriminate H.
    + intros ->. reflexivity.
  - intros r n H.
    pose proof (claves_distintas_items l) as Hd.
    destruct (items_de l) as [|it mas] eqn:Ei; [discriminate H|].
    cbn [most_common_1 head] in H. injection H as H.
    destruct (primero_mayor_es_maximo mas it) as (Hin & Hmax).
    rewrite H in Hin, Hmax. cbn [snd] in Hmax.
    assert (Hn : n = ocurrencias r l).
    { rewrite <- buscar_items_de, Ei. symmetry.
      now apply buscar_de_item. }
    assert (Hall : forall r', ocurrencias r' l <= n).
    { intros r'. rewrite <- buscar_items_de, Ei.
      destruct (Z.eq_dec (buscar r' (it :: mas)) 0) as [E0|E0].
      - rewrite E0. rewrite Hn. unfold ocurrencias. lia.
      - apply (Hmax (r', buscar r' (it :: mas))).
        now apply item_de_buscar. }
    split; [|split; [exact Hn|exact Hall]].
    apply ocurrencias_positivas. rewrite <- Hn.
    assert (H1 : 0 < ocurrencias (fst it) l).
    { rewrite <- buscar_items_de, Ei. destruct it as [z m]. cbn [fst buscar].
      rewrite String.eqb_refl.
      assert (Hz : buscar z (items_de l) = m).
      { rewrite Ei. cbn [buscar]. now rewrite String.eqb_refl. }
      rewrite buscar_items_de in Hz.
      destruct (Z.eq_dec m 0) as [->|Hm]; [|unfold ocurrencias in Hz; lia].
      exfalso.
      assert (Hk : In z (map fst (items_de l)))
        by (rewrite Ei; now left).
      assert (Hin_l : forall items,
                 In z (map fst (fold_left (fun items x => anotar x items) l
                                  items)) ->
                 In z (map fst items) \/ In z l).
      { clear. induction l as [|x l IH]; intros items Hz; [now left|].
        cbn [fold_left] in Hz. apply IH in Hz.
        destruct Hz as [Hz|Hz]; [|right; now right].
        apply claves_anotar in Hz.
        destruct Hz as [->|Hz]; [right; now left|now left]. }
      apply Hin_l in Hk. destruct Hk as [[]|Hk].
      apply ocurrencias_positivas in Hk. lia. }
    specialize (Hall (fst it)). lia.
Qed.

(** * Recommendations *)

(** X22.  When the recommendation on colours is printed, both colours
    were played and the colour that it names is the one with the lower
    win rate, by more than 10 points. *)
Theorem recomendacion_nombra_el_color_inferior self c :
  recomendacion_color self = Some c ->
  exists s wb wn,
    stats self = Some s /\
    winrate_blancas s = Some wb /\ winrate_negras s = Some wn /\
    ((c = "negras" /\ wn + 10 < wb) \/ (c = "blancas" /\ wb + 10 < wn)).
Proof.
  unfold recomendacion_color. destruct (stats self) as [s|]; [|discriminate].
  destruct (sin_datos (Some s)); [discriminate|].
  destruct (0 <? blancas_partidas s) eqn:Eb; [|discriminate].
  destruct (0 <? negras_partidas s) eqn:En; [|discriminate].
  cbn [andb]. cbv zeta.
  set (wb := blancas_g s * 100 / blancas_partidas s).
  set (wn := negras_g s * 100 / negras_partidas s).
  destruct (10 <? Z.abs (wb - wn)) eqn:E; [|discriminate].
  apply Z.ltb_lt in E. intros H. exists s, wb, wn.
  unfold winrate_blancas, winrate_negras. rewrite Eb, En.
  repeat split.
  destruct (wn <? wb) eqn:E2; [apply Z.ltb_lt in E2|apply Z.ltb_ge in E2];
    injection H as <-; [left|right]; split; try reflexivity; lia.
Qed.

Lemma recomendacion_color_ejemplo :
  let self :=
    analizar_partidas lector_ejemplo dia_fijo analizador_ejemplo None 0 in
  recomendacion_color self = Some "negras" /\
  exists s wb wn,
    stats self = Some s /\
    winrate_blancas s = Some wb /\ winrate_negras s = Some wn /\
    (("negras" = "negras" /\ wn + 10 < wb)
     \/ ("negras" = "blancas" /\ wb + 10 < wn)).
Proof.
  intros self. split; [reflexivity|].
  exact (recomendacion_nombra_el_color_inferior self "negras" eq_refl).
Defined.

(** X23.  The average length divides by all the games analysed.  So
    when games are analysed and none of them has a transcript that is
    read, the average is 0 and the recommendations say that the games
    are short, with an average of 0 half-moves. *)
Theorem sin_transcripciones_partidas_cortas read_game dia_de self filtro_tc
    min_rating :
  (forall g, In g (partidas self) ->
             vista read_game (user self) filtro_tc min_rating g = None) ->
  (exists g, In g (partidas self)
             /\ pasa (user self) filtro_tc min_rating g = true) ->
  recomendacion_longitud
    (analizar_partidas read_game dia_de self filtro_tc min_rating)
  = Some (Cortas, 0).
Proof.
  intros Hv (g1 & Hin1 & Hp1). unfold analizar_partidas.
  destruct (partidas self) as [|g0 l] eqn:E; [destruct Hin1|].
  unfold recomendacion_longitud. cbn [stats sin_datos].
  set (games := g0 :: l) in *.
  set (s := pasada read_game dia_de (user self) filtro_tc min_rating games).
  destruct (promedio_de_jugadas_aux read_game dia_de (user self) filtro_tc
              min_rating games) as (Ht & Ha).
  fold s in Ht, Ha.
  assert (Ht0 : total_jugadas s = 0).
  { rewrite Ht. clear - Hv.
    induction games as [|g games IH]; [reflexivity|].
    cbn [List.filter].
    assert (IH' : suma (map (jugadas_de read_game)
                          (List.filter (pasa (user self) filtro_tc min_rating)
                             games)) = 0).
    { apply IH. intros g' Hg'. apply Hv. now right. }
    destruct (pasa (user self) filtro_tc min_rating g) eqn:Hp; [|exact IH'].
    cbn [map suma fold_right]. fold (suma (map (jugadas_de read_game)
      (List.filter (pasa (user self) filtro_tc min_rating) games))).
    rewrite IH'.
    rewrite (jugadas_de_vista read_game (user self) filtro_tc min_rating g Hp).
    rewrite (Hv g (or_introl eq_refl)). reflexivity. }
  assert (Hpos : 0 < partidas_analizadas s).
  { rewrite Ha. unfold veces.
    assert (Hf : In g1 (List.filter (pasa (user self) filtro_tc min_rating)
                          games)) by (apply filter_In; now split).
    destruct (List.filter (pasa (user self) filtro_tc min_rating) games);
      [destruct Hf|cbn [List.length]; lia]. }
  destruct (partidas_analizadas s =? 0) eqn:E0;
    [apply Z.eqb_eq in E0; lia|].
  destruct (0 <? partidas_analizadas s) eqn:E1;
    [|apply Z.ltb_ge in E1; lia].
  rewrite Ht0. cbv zeta. rewrite Z.div_0_l by lia. reflexivity.
Qed.

Lemma sin_transcripciones_ejemplo :
  ((forall g, In g (partidas analizador_ejemplo) ->
              vista lector_ejemplo (user analizador_ejemplo) None 0 g = None)
   /\ exists g, In g (partidas analizador_ejemplo)
                /\ pasa (user analizador_ejemplo) None 0 g = true) /\
  recomendacion_longitud
    (analizar_partidas lector_ejemplo dia_fijo analizador_ejemplo None 0)
  = Some (Cortas, 0).
Proof.
  assert (Hv : forall g, In g (partidas analizador_ejemplo) ->
                 vista lector_ejemplo (user analizador_ejemplo) None 0 g
                 = None).
  { intros g [<-|[<-|[]]]; reflexivity. }
  assert (Hp : exists g, In g (partidas analizador_ejemplo)
                         /\ pasa (user analizador_ejemplo) None 0 g = true).
  { exists partida_600. split; [now left|reflexivity]. }
  split; [split; assumption|].
  exact (sin_transcripciones_partidas_cortas lector_ejemplo dia_fijo
           analizador_ejemplo None 0 Hv Hp).
Defined.

(** * The average rating of the opponents *)

Lemma suma_desde (c : Z) (l : list Z) :
  (forall x, In x l -> c <= x) ->
  Z.of_nat (List.length l) * c <= suma l.
Proof.
  induction l as [|x l IH]; intros H; [cbn; lia|].
  cbn [suma fold_right List.length].
  assert (Hx : c <= x) by (apply H; now left).
  assert (Hl : Z.of_nat (List.length l) * c <= suma l).
  { apply IH. intros y Hy. apply H. now right. }
  unfold suma in Hl. lia.
Qed.

(** X24.  Every rating in the list of the snapshot is at least the
    minimum rating of the pass, and so is the average rating that the
    report prints. *)
Theorem avg_rating_sobre_el_minimo read_game dia_de u filtro_tc min_rating
    games :
  let s := pasada read_game dia_de u filtro_tc min_rating games in
  (forall x, In x (ratings_rivales s) -> min_rating <= x) /\
  (forall a, avg_rating s = Some a -> min_rating <= a).
Proof.
  intros s.
  assert (Hall : forall x, In x (ratings_rivales s) -> min_rating <= x).
  { destruct (listas_de_rivales read_game dia_de u filtro_tc min_rating
                games) as (_ & E).
    fold s in E. rewrite E. intros x Hx.
    apply in_map_iff in Hx. destruct Hx as (g & <- & Hg).
    apply filter_In in Hg. destruct Hg as (_ & Hp).
    apply pasa_true in Hp. destruct Hp as (_ & Hb).
    unfold bajo_minimo in Hb. now apply Z.ltb_ge in Hb. }
  split; [exact Hall|].
  intros a. unfold avg_rating.
  destruct (ratings_rivales s) as [|x l] eqn:E; [discriminate|].
  intros [= <-].
  apply Z.div_le_lower_bound; [cbn [List.length]; lia|].
  exact (suma_desde min_rating (x :: l) Hall).
Qed.
